(** * Detection post-processing pipeline of the YOLO Streamlit demo

    Shallow embedding of the result normaliser
    ([YOLODetectionProcessor.run_inference]), the aggregators
    ([ResultsManager.display_detection_results],
    [YOLODebugInfo.display_detection_stats],
    [YOLOApp._display_detection_statistics]), the renderer's colour choice
    ([YOLODetectionProcessor.create_visualization]) and the detection tab
    handler ([YOLOApp._display_detection_tab] with [YOLOModelManager]).

    Conventions.
    - Python floats that the code only copies, compares or averages are
      rationals ([Q]); the one non-number the code can manufacture itself,
      [np.mean] of an empty array, is the explicit [NaN] of [npfloat].
    - Every [st.*] call appends one [st_call] to the [screen] of the
      [World]; exceptions are the [Raise] outcome of the [Py] monad and
      [try_except] is Python's [try: ... except Exception as e: ...].
    - The detector itself (ultralytics) is a black box: a [YOLO] value maps
      the call arguments to what the call does, raise or return.
    - The imaging library enters where its calls can fail: reading pixel
      data, measuring text, and drawing a rectangle with swapped corners.
    - A session lives through several runs of the script; each run builds
      a new [YOLOApp] over the same [st.session_state]. *)

From Stdlib Require Import String Ascii.
From Stdlib Require Import List ZArith QArith Lia Bool Arith.
From Stdlib Require Import Permutation Sorted.
From Stdlib Require OrderedTypeEx.
Import ListNotations.
Close Scope Q_scope.

(* ================================================================= *)
(** ** Python values and exceptions *)

Inductive exn : Type :=
| IndexError          (* list index out of range *)
| KeyError            (* missing dict key *)
| ValueError          (* e.g. reduction of a zero-size array *)
| ZeroDivisionError
| RuntimeError (tag : nat).   (* anything an external library raises *)

Inductive outcome (A : Type) : Type :=
| Ok (a : A)
| Raise (e : exn).
Arguments Ok {A} a.
Arguments Raise {A} e.

(** [xs[i]] on a Python list: a negative index counts from the end, an
    index outside [-len, len) raises [IndexError]. *)
Definition py_getitem {A : Type} (xs : list A) (i : Z) : outcome A :=
  let n := Z.of_nat (length xs) in
  let j := if (i <? 0)%Z then (i + n)%Z else i in
  if ((j <? 0) || (n <=? j))%Z then Raise IndexError
  else match nth_error xs (Z.to_nat j) with
       | Some x => Ok x
       | None => Raise IndexError
       end.

(** A list comprehension [[f x for x in xs]] whose body may raise: the first
    exception aborts the whole comprehension. *)
Fixpoint comprehension {A B : Type} (f : A -> outcome B) (xs : list A)
  : outcome (list B) :=
  match xs with
  | [] => Ok []
  | x :: xs' =>
      match f x with
      | Raise e => Raise e
      | Ok y => match comprehension f xs' with
                | Raise e => Raise e
                | Ok ys => Ok (y :: ys)
                end
      end
  end.

(* ================================================================= *)
(** ** numpy reductions used by the code *)

Inductive npfloat : Type :=
| Num (q : Q)
| NaN.

Definition Qsum (xs : list Q) : Q := fold_right Qplus 0%Q xs.

(** [sum(scores)/len(scores)]: Python raises on an empty list. *)
Definition py_mean (xs : list Q) : outcome Q :=
  match xs with
  | [] => Raise ZeroDivisionError
  | _ => Ok (Qsum xs / inject_Z (Z.of_nat (length xs)))%Q
  end.

(** [np.mean]: an empty array gives [nan] (with a warning, no exception). *)
Definition np_mean (xs : list Q) : npfloat :=
  match xs with
  | [] => NaN
  | _ => Num (Qsum xs / inject_Z (Z.of_nat (length xs)))%Q
  end.

Definition Qmax (a b : Q) : Q := if Qle_bool a b then b else a.
Definition Qmin (a b : Q) : Q := if Qle_bool a b then a else b.

(** [np.max] / [np.min]: a zero-size array has no identity, [ValueError]. *)
Definition np_max (xs : list Q) : outcome Q :=
  match xs with
  | [] => Raise ValueError
  | x :: xs' => Ok (fold_left Qmax xs' x)
  end.

Definition np_min (xs : list Q) : outcome Q :=
  match xs with
  | [] => Raise ValueError
  | x :: xs' => Ok (fold_left Qmin xs' x)
  end.

(** [np.unique(names, return_counts=True)]: the distinct names in ascending
    order (code-point order), each with its number of occurrences. *)
Fixpoint unique_insert (name : string) (acc : list (string * nat))
  : list (string * nat) :=
  match acc with
  | [] => [(name, 1)]
  | (n, c) :: acc' =>
      match String.compare name n with
      | Lt => (name, 1) :: (n, c) :: acc'
      | Eq => (n, S c) :: acc'
      | Gt => (n, c) :: unique_insert name acc'
      end
  end.

Definition np_unique (names : list string) : list (string * nat) :=
  fold_left (fun acc name => unique_insert name acc) names [].

(* ================================================================= *)
(** ** Data model *)

Definition Image := nat.

(** One row of [boxes.xyxy]. *)
Record Box : Type := mkBox { x1 : Q; y1 : Q; x2 : Q; y2 : Q }.

Module Ultralytics.
(** One row of the detector's [Boxes] tensor; [cls] is the class index
    after [.astype(int)]. *)
Record RawBox : Type := mkRawBox { xyxy : Box; conf : Q; cls : Z }.

(** One [Results] object: [boxes] may be [None]; [names] is the model's
    own id-to-name dict. *)
Record Results : Type := mkResults {
  boxes : option (list RawBox);
  names : list (Z * string)
}.

(** What calling the model does. *)
Inductive call : Type :=
| Raises (e : exn)
| Returns (results : list Results).
End Ultralytics.

(** A loaded model: [model(image, conf=..., iou=..., verbose=False)]. *)
Definition YOLO := Image -> Q -> Q -> Ultralytics.call.

(** The dict built by [run_inference]. *)
Record DetectionResult : Type := mkDetectionResult {
  boxes : list Box;
  scores : list Q;
  class_ids : list Z;
  class_names : list string;
  inference_time : option Q
}.

(** [YOLOModelLoader.get_coco_classes] *)
Definition get_coco_classes : list string := [
  "person"; "bicycle"; "car"; "motorcycle"; "airplane"; "bus"; "train"; "truck"; "boat";
  "traffic light"; "fire hydrant"; "stop sign"; "parking meter"; "bench"; "bird"; "cat";
  "dog"; "horse"; "sheep"; "cow"; "elephant"; "bear"; "zebra"; "giraffe"; "backpack";
  "umbrella"; "handbag"; "tie"; "suitcase"; "frisbee"; "skis"; "snowboard"; "sports ball";
  "kite"; "baseball bat"; "baseball glove"; "skateboard"; "surfboard"; "tennis racket";
  "bottle"; "wine glass"; "cup"; "fork"; "knife"; "spoon"; "bowl"; "banana"; "apple";
  "sandwich"; "orange"; "broccoli"; "carrot"; "hot dog"; "pizza"; "donut"; "cake";
  "chair"; "couch"; "potted plant"; "bed"; "dining table"; "toilet"; "tv"; "laptop";
  "mouse"; "remote"; "keyboard"; "cell phone"; "microwave"; "oven"; "toaster"; "sink";
  "refrigerator"; "book"; "clock"; "vase"; "scissors"; "teddy bear"; "hair drier"; "toothbrush"
]%string.

(* ================================================================= *)
(** ** Streamlit calls and the world they act on *)

(** What a metric or a written line shows. [Fmt d v] is a float formatted
    with [d] decimals ([f"{v:.3f}"]). *)
Inductive shown : Type :=
| Int (n : nat)
| Fmt (decimals : nat) (v : npfloat)
| NA.                                   (* the literal "N/A" *)

Inductive metric_label : Type :=
| ObjectCount | MeanConfidence | MaxConfidence | MinConfidence
| UniqueClasses | InferenceTime.

Inductive st_call : Type :=
| st_subheader (title : nat)
| st_metric (label : metric_label) (v : shown)
| st_write_running                         (* "YOLOv8 inference running" *)
| st_write_done (ms : Q)                   (* "done (time: ..ms)" *)
| st_write_header (section : nat)          (* a fixed caption line *)
| st_write_count (n : nat)                 (* "- detected objects: n" *)
| st_write_mean (v : shown)
| st_write_max (v : shown)
| st_write_class (class_name : string) (count : nat)   (* "- name: count" *)
| st_write_detail (i : nat) (class_name : string) (score : Q) (box : Box)
| st_write_error_detail (e : exn)
| st_markdown_class (class_name : string) (count : nat)
| st_pyplot_hist (scores : list Q)
| st_warning (w : nat)
| st_error_inference (e : exn)             (* "inference failed: e" *)
| st_error_visualization (e : exn)
| st_error_load (e : exn)                  (* "model loading failed: e" *)
| st_error_not_loaded                      (* "model is not loaded" *)
| st_error_detect (e : exn)                (* "error during detection: e" *)
| st_success
| display_results (img : Image) (r : Ultralytics.Results).

(** [st.session_state] as [YOLOApp] uses it. *)
Record SessionState : Type := mkSession {
  detection_results : option Ultralytics.Results;
  uploaded_image : option Image;
  model_loaded : bool;
  confidence_threshold : Q;
  nms_threshold : Q
}.

(** The fields of a [YOLOModelManager] instance. *)
Record YOLOModelManager : Type := mkManager {
  model : option YOLO;
  model_name : string
}.

Record World : Type := mkWorld {
  session_state : SessionState;
  model_manager : YOLOModelManager;
  screen : list st_call
}.

(* ================================================================= *)
(** ** The monad of Python code: world passing with exceptions *)

Definition Py (A : Type) : Type := World -> outcome A * World.

Definition ret {A : Type} (a : A) : Py A := fun w => (Ok a, w).

Definition bind {A B : Type} (m : Py A) (k : A -> Py B) : Py B :=
  fun w => match m w with
           | (Ok a, w') => k a w'
           | (Raise e, w') => (Raise e, w')
           end.

Definition lift {A : Type} (o : outcome A) : Py A := fun w => (o, w).

(** [try: body except Exception as e: handler(e)]: the effects of [body]
    up to the raise stay. *)
Definition try_except {A : Type} (body : Py A) (handler : exn -> Py A) : Py A :=
  fun w => match body w with
           | (Ok a, w') => (Ok a, w')
           | (Raise e, w') => handler e w'
           end.

Definition st (c : st_call) : Py unit :=
  fun w => (Ok tt, mkWorld (session_state w) (model_manager w) (screen w ++ [c])).

Definition when (b : bool) (m : Py unit) : Py unit :=
  if b then m else ret tt.

Declare Scope py_scope.
Delimit Scope py_scope with py.
Notation "x <- m ;; k" := (bind m (fun x => k))
  (at level 61, m at next level, right associativity) : py_scope.
Notation "m ;; k" := (bind m (fun _ => k))
  (at level 61, right associativity) : py_scope.
Local Open Scope py_scope.

(** [for x in xs: body(x)] *)
Fixpoint for_each {A : Type} (xs : list A) (body : A -> Py unit) : Py unit :=
  match xs with
  | [] => ret tt
  | x :: xs' => body x ;; for_each xs' body
  end.

Definition run {A : Type} (m : Py A) (w : World) : outcome A := fst (m w).
Definition after {A : Type} (m : Py A) (w : World) : World := snd (m w).

Definition get_session : Py SessionState := fun w => (Ok (session_state w), w).
Definition put_session (s : SessionState) : Py unit :=
  fun w => (Ok tt, mkWorld s (model_manager w) (screen w)).
Definition get_self : Py YOLOModelManager := fun w => (Ok (model_manager w), w).
Definition put_self (m : YOLOModelManager) : Py unit :=
  fun w => (Ok tt, mkWorld (session_state w) m (screen w)).

(* ================================================================= *)
(** ** Python dicts with insertion order *)

Class KeyEq (K : Type) : Type := {
  keqb : K -> K -> bool;
  keqb_eq : forall a b, keqb a b = true <-> a = b
}.

#[export] Instance KeyEq_string : KeyEq string :=
  {| keqb := String.eqb; keqb_eq := String.eqb_eq |}.

#[export] Instance KeyEq_Z : KeyEq Z :=
  {| keqb := Z.eqb; keqb_eq := Z.eqb_eq |}.

Section Dict.
Context {K V : Type} `{KeyEq K}.

Definition dict : Type := list (K * V).

(** [{}] *)
Definition empty : dict := [].

(** [k in d] *)
Fixpoint dict_contains (d : dict) (k : K) : bool :=
  match d with
  | [] => false
  | (k', _) :: d' => keqb k' k || dict_contains d' k
  end.

(** [d[k]] *)
Fixpoint dict_lookup (d : dict) (k : K) : outcome V :=
  match d with
  | [] => Raise KeyError
  | (k', v) :: d' => if keqb k' k then Ok v else dict_lookup d' k
  end.

(** [d.get(k, default)] *)
Definition dict_get (d : dict) (k : K) (default : V) : V :=
  match dict_lookup d k with
  | Ok v => v
  | Raise _ => default
  end.

(** [d[k] = v]: an existing key keeps its position, a new key goes last. *)
Fixpoint dict_store (d : dict) (k : K) (v : V) : dict :=
  match d with
  | [] => [(k, v)]
  | (k', v') :: d' =>
      if keqb k' k then (k', v) :: d' else (k', v') :: dict_store d' k v
  end.

(** [d.items()] and [d.values()], in insertion order. *)
Definition dict_items (d : dict) : list (K * V) := d.
Definition dict_values (d : dict) : list V := map snd d.
Definition dict_keys (d : dict) : list K := map fst d.
End Dict.
Arguments dict K V : clear implicits.
Arguments empty {K V}.

(** [sorted(items, key=lambda x: x[1], reverse=True)]: Python's sort is
    stable and [reverse=True] keeps equal keys in their original order, so
    the result is the stable arrangement by descending count. *)
Fixpoint insert_desc (e : string * nat) (l : list (string * nat))
  : list (string * nat) :=
  match l with
  | [] => [e]
  | h :: t => if snd h <=? snd e then e :: h :: t else h :: insert_desc e t
  end.

Definition sorted_by_count_reverse (items : list (string * nat))
  : list (string * nat) :=
  fold_right insert_desc [] items.

(** [enumerate(xs)] *)
Fixpoint enumerate_from {A : Type} (i : nat) (xs : list A) : list (nat * A) :=
  match xs with
  | [] => []
  | x :: xs' => (i, x) :: enumerate_from (S i) xs'
  end.
Definition enumerate {A : Type} (xs : list A) : list (nat * A) :=
  enumerate_from 0 xs.

(** [zip(a, b, c)] *)
Definition zip3 {A B C : Type} (a : list A) (b : list B) (c : list C)
  : list (A * B * C) := combine (combine a b) c.

(** Truthiness of [detection_result.get('inference_time')]: [None] and
    [0.0] are false. *)
Definition truthy_time (t : option Q) : option Q :=
  match t with
  | Some q => if Qeq_bool q 0 then None else Some q
  | None => None
  end.

(* ================================================================= *)
(** ** YOLODetectionProcessor.run_inference *)

Definition call_model (m : YOLO) (image : Image) (conf iou : Q)
  : Py (list Ultralytics.Results) :=
  lift (match m image conf iou with
        | Ultralytics.Raises e => Raise e
        | Ultralytics.Returns rs => Ok rs
        end).

(** The debug report written after a successful normalisation. *)
Definition debug_report (bbox_data : list Box) (confidence_scores : list Q)
    (class_names : list string) : Py unit :=
  st (st_write_header 1) ;;
  st (st_write_count (length bbox_data)) ;;
  st (st_write_mean (Fmt 3 (np_mean confidence_scores))) ;;
  mx <- lift (np_max confidence_scores) ;;
  st (st_write_max (Fmt 3 (Num mx))) ;;
  let unique := np_unique class_names in
  st (st_write_header 2) ;;
  for_each unique (fun '(class_name, count) => st (st_write_class class_name count)).

(** [clock] is the pair of [time.time()] readings taken around the model
    call; they are read only in debug mode. *)
Definition run_inference (model : YOLO) (image : Image)
    (confidence_threshold iou_threshold : Q) (debug_mode : bool)
    (clock : Q * Q) : Py (option DetectionResult) :=
  try_except
    (when debug_mode (st st_write_running) ;;
     results <- call_model model image confidence_threshold iou_threshold ;;
     let inference_time := ((snd clock - fst clock) * 1000)%Q in
     when debug_mode (st (st_write_done inference_time)) ;;
     match results with
     | result :: _ =>
         match Ultralytics.boxes result with
         | Some boxes =>
             let bbox_data := map Ultralytics.xyxy boxes in
             let confidence_scores := map Ultralytics.conf boxes in
             let class_ids := map Ultralytics.cls boxes in
             let coco_classes := get_coco_classes in
             class_names <-
               lift (comprehension (py_getitem coco_classes) class_ids) ;;
             let detection_result :=
               {| boxes := bbox_data;
                  scores := confidence_scores;
                  class_ids := class_ids;
                  class_names := class_names;
                  inference_time :=
                    if debug_mode then Some inference_time else None |} in
             when debug_mode
               (debug_report bbox_data confidence_scores class_names) ;;
             ret (Some detection_result)
         | None =>
             when debug_mode (st (st_warning 1)) ;;
             ret None
         end
     | [] =>
         when debug_mode (st (st_warning 2)) ;;
         ret None
     end)
    (fun e =>
       st (st_error_inference e) ;;
       when debug_mode (st (st_write_error_detail e)) ;;
       ret None).

(* ================================================================= *)
(** ** YOLODetectionProcessor.create_visualization *)

Definition colors : list string := [
  "#FF0000"; "#00FF00"; "#0000FF"; "#FFFF00"; "#FF00FF";
  "#00FFFF"; "#FFA500"; "#800080"; "#008000"; "#800000"
]%string.

(** The font the renderer ends up with: Arial at size 16 or, when
    [ImageFont.truetype("arial.ttf", 16)] fails, what
    [ImageFont.load_default()] gives: a TrueType font, or a bitmap font
    where Pillow has no FreeType support (and always before Pillow 10.1). *)
Inductive font : Type := Arial16 | DefaultTrueType | DefaultBitmap.

(** What the imaging library does on this machine: [image_load] is the
    reading of an image's pixel data, which [image.copy()] triggers and
    which raises for a lazily opened file that is damaged; [arial_ttf]
    tells whether arial.ttf can be loaded and [default_truetype] which kind
    of font [load_default] returns. *)
Record Pillow : Type := mkPillow {
  image_load : Image -> outcome unit;
  arial_ttf : bool;
  default_truetype : bool
}.

(** [try: font = ImageFont.truetype("arial.ttf", 16)
     except: font = ImageFont.load_default()] *)
Definition load_font (pil : Pillow) : font :=
  if arial_ttf pil then Arial16
  else if default_truetype pil then DefaultTrueType else DefaultBitmap.

(** [ImageDraw.rectangle([x1, y1, x2, y2], ...)]: Pillow refuses a box whose
    second corner lies left of or above the first, with [ValueError]
    ("x1 must be greater than or equal to x0", and the same for y). *)
Definition rectangle (box : Box) : outcome unit :=
  if Qle_bool (x1 box) (x2 box) && Qle_bool (y1 box) (y2 box)
  then Ok tt else Raise ValueError.

(** [ImageDraw.textbbox(xy, text, font=font)] measures TrueType fonts only
    and raises [ValueError] for a bitmap font. *)
Definition textbbox (f : font) : outcome unit :=
  match f with
  | DefaultBitmap => Raise ValueError
  | Arial16 | DefaultTrueType => Ok tt
  end.

(** The calls made on [ImageDraw.Draw(vis_image)]; a label is the pair
    behind [f"{class_name}: {score:.2f}"]. *)
Inductive draw_call : Type :=
| draw_rectangle (box : Box) (outline : string) (width : nat)
| draw_label_background (at_x at_y : Q) (class_name : string) (score : Q)
    (f : font) (fill : string)
| draw_text (at_x at_y : Q) (class_name : string) (score : Q) (f : font).

(** An annotated copy: the source image and what was drawn over it. *)
Record Annotated : Type := mkAnnotated {
  source : Image;
  drawn : list draw_call
}.

(** One turn of the drawing loop. The outline is drawn first and fails on a
    reversed box; the label is then measured, which fails on a bitmap font;
    the background is the measured box of a non-empty text, which
    [rectangle] accepts. *)
Definition draw_item (f : font) (item : nat * (Box * Q * string))
  : outcome (list draw_call) :=
  let '(i, (box, score, class_name)) := item in
  match py_getitem colors (Z.of_nat i mod Z.of_nat (length colors)) with
  | Raise e => Raise e
  | Ok color =>
      match rectangle box with
      | Raise e => Raise e
      | Ok _ =>
          match textbbox f with
          | Raise e => Raise e
          | Ok _ =>
              Ok [ draw_rectangle box color 3;
                   draw_label_background (x1 box) (y1 box - 20)%Q class_name
                     score f color;
                   draw_text (x1 box) (y1 box - 20)%Q class_name score f ]
          end
      end
  end.

(** An exception anywhere in the body, from the copy to the last draw call,
    is reported with [st.error] and turned into [None]. *)
Definition create_visualization (pil : Pillow) (image : Image)
    (detection_result : DetectionResult) (debug_mode : bool)
  : Py (option Annotated) :=
  try_except
    (when debug_mode (st (st_write_header 3)) ;;
     lift (image_load pil image) ;;                (* vis_image = image.copy() *)
     let boxes := boxes detection_result in
     let scores := scores detection_result in
     let class_names := class_names detection_result in
     let f := load_font pil in
     calls <- lift (comprehension (draw_item f)
                      (enumerate (zip3 boxes scores class_names))) ;;
     when debug_mode (st (st_write_header 4)) ;;
     ret (Some (mkAnnotated image (concat calls))))
    (fun e =>
       st (st_error_visualization e) ;;
       when debug_mode (st (st_write_error_detail e)) ;;
       ret None).

(* ================================================================= *)
(** ** ResultsManager.display_detection_results (ui_components.py) *)

(** The counting loop: [unique_classes] records each name's rank of first
    appearance, [counts] its number of occurrences. *)
Definition count_step (acc : dict string nat * dict string nat)
    (class_name : string) : outcome (dict string nat * dict string nat) :=
  let '(unique_classes, counts) := acc in
  if dict_contains unique_classes class_name then
    match dict_lookup counts class_name with        (* counts[name] += 1 *)
    | Raise e => Raise e
    | Ok c => Ok (unique_classes, dict_store counts class_name (c + 1))
    end
  else
    Ok (dict_store unique_classes class_name (length unique_classes),
        dict_store counts class_name 1).

Fixpoint count_loop (class_names : list string)
    (acc : dict string nat * dict string nat)
  : outcome (dict string nat * dict string nat) :=
  match class_names with
  | [] => Ok acc
  | n :: rest =>
      match count_step acc n with
      | Raise e => Raise e
      | Ok acc' => count_loop rest acc'
      end
  end.

Definition display_detection_results (detection_result : option DetectionResult)
    (debug_mode : bool) : Py unit :=
  match detection_result with
  | None => st (st_warning 3)
  | Some detection_result =>
      st (st_subheader 1) ;;
      let boxes := boxes detection_result in
      let scores := scores detection_result in
      let class_names := class_names detection_result in
      st (st_metric ObjectCount (Int (length boxes))) ;;
      mean <- lift (py_mean scores) ;;
      st (st_metric MeanConfidence (Fmt 3 (Num mean))) ;;
      match truthy_time (inference_time detection_result) with
      | Some t => st (st_metric InferenceTime (Fmt 1 (Num t)))
      | None => ret tt
      end ;;
      when debug_mode
        (st (st_write_header 5) ;;
         for_each (enumerate (zip3 boxes scores class_names))
           (fun '(i, (box, score, class_name)) =>
              st (st_write_detail (i + 1) class_name score box))) ;;
      acc <- lift (count_loop class_names (empty, empty)) ;;
      let counts := snd acc in
      st (st_write_header 2) ;;
      for_each (dict_items counts)
        (fun '(class_name, count) => st (st_write_class class_name count))
  end.

(* ================================================================= *)
(** ** YOLODebugInfo.display_detection_stats (yolo_model_manager.py) *)

(** [len(set(class_names))] *)
Definition distinct_count (class_names : list string) : nat :=
  length (nodup string_dec class_names).

Definition display_detection_stats (detection_result : option DetectionResult)
  : Py unit :=
  match detection_result with
  | None => ret tt
  | Some detection_result =>
      st (st_subheader 2) ;;
      let boxes := boxes detection_result in
      let scores := scores detection_result in
      let class_names := class_names detection_result in
      st (st_metric ObjectCount (Int (length boxes))) ;;
      st (st_metric MeanConfidence (Fmt 3 (np_mean scores))) ;;
      mx <- lift (np_max scores) ;;
      st (st_metric MaxConfidence (Fmt 3 (Num mx))) ;;
      mn <- lift (np_min scores) ;;
      st (st_metric MinConfidence (Fmt 3 (Num mn))) ;;
      st (st_metric UniqueClasses (Int (distinct_count class_names))) ;;
      match truthy_time (inference_time detection_result) with
      | Some t => st (st_metric InferenceTime (Fmt 1 (Num t)))
      | None => ret tt
      end ;;
      let unique := np_unique class_names in
      st (st_write_header 2) ;;
      for_each unique
        (fun '(class_name, count) => st (st_write_class class_name count)) ;;
      when (0 <? length scores) (st (st_write_header 6) ;; st (st_pyplot_hist scores))
  end.

(* ================================================================= *)
(** ** YOLOApp._display_detection_statistics (app.py) *)

(** [results.boxes is not None and len(results.boxes) > 0] *)
Definition has_boxes (results : Ultralytics.Results)
  : option (list Ultralytics.RawBox) :=
  match Ultralytics.boxes results with
  | Some (b :: bs) => Some (b :: bs)
  | _ => None
  end.

Definition tensor_mean (xs : list Q) : Q :=
  (Qsum xs / inject_Z (Z.of_nat (length xs)))%Q.
Definition tensor_max (xs : list Q) : Q :=
  match xs with [] => 0%Q | x :: xs' => fold_left Qmax xs' x end.
Definition tensor_min (xs : list Q) : Q :=
  match xs with [] => 0%Q | x :: xs' => fold_left Qmin xs' x end.

(** The loop filling [class_counts]. *)
Fixpoint class_counts_loop (names : dict Z string)
    (boxes : list Ultralytics.RawBox) (class_counts : dict string nat)
  : outcome (dict string nat) :=
  match boxes with
  | [] => Ok class_counts
  | box :: rest =>
      let class_id := Ultralytics.cls box in
      match dict_lookup names class_id with
      | Raise e => Raise e
      | Ok class_name =>
          class_counts_loop names rest
            (dict_store class_counts class_name
               (dict_get class_counts class_name 0 + 1))
      end
  end.

Definition confidence_metric (label : metric_label)
    (reduce : list Q -> Q) (results : Ultralytics.Results) : Py unit :=
  match has_boxes results with
  | Some boxes =>
      st (st_metric label (Fmt 3 (Num (reduce (map Ultralytics.conf boxes)))))
  | None => st (st_metric label NA)
  end.

Definition _display_detection_statistics : Py unit :=
  session <- get_session ;;
  match detection_results session with
  | None => ret tt
  | Some results =>
      st (st_metric ObjectCount
            (Int (match Ultralytics.boxes results with
                  | Some boxes => length boxes
                  | None => 0
                  end))) ;;
      confidence_metric MeanConfidence tensor_mean results ;;
      confidence_metric MaxConfidence tensor_max results ;;
      confidence_metric MinConfidence tensor_min results ;;
      match has_boxes results with
      | Some boxes =>
          st (st_subheader 3) ;;
          class_counts <-
            lift (class_counts_loop (Ultralytics.names results) boxes empty) ;;
          for_each (sorted_by_count_reverse (dict_items class_counts))
            (fun '(class_name, count) =>
               st (st_markdown_class class_name count))
      | None => ret tt
      end
  end.

(* ================================================================= *)
(** ** YOLOModelLoader / YOLOModelManager *)

(** [weights name] is what constructing [YOLO(name)] does: the loaded
    model, or the exception raised for missing weights or a bad device. *)
Definition Weights := string -> outcome YOLO.

Module YOLOModelLoader.
Definition load_model (weights : Weights) (model_name : string)
  : Py (option YOLO) :=
  try_except
    (m <- lift (weights model_name) ;; ret (Some m))
    (fun e => st (st_error_load e) ;; ret None).
End YOLOModelLoader.

Definition is_some {A : Type} (o : option A) : bool :=
  match o with Some _ => true | None => false end.

(** [self.model = m] and [self.model_name = n] *)
Definition set_model (m : option YOLO) : Py unit :=
  self <- get_self ;; put_self (mkManager m (model_name self)).
Definition set_model_name (n : string) : Py unit :=
  self <- get_self ;; put_self (mkManager (model self) n).

(** [YOLOModelManager.load_model] *)
Definition load_model (weights : Weights) (model_name : string) : Py bool :=
  try_except
    (m <- YOLOModelLoader.load_model weights model_name ;;
     set_model m ;;
     set_model_name model_name ;;
     self <- get_self ;;
     ret (is_some (model self)))
    (fun e => st (st_error_load e) ;; ret false).

(** [YOLOModelManager.detect_objects] *)
Definition detect_objects (image : Image) (confidence nms_threshold : Q)
  : Py (option Ultralytics.Results) :=
  self <- get_self ;;
  match model self with
  | None => st st_error_not_loaded ;; ret None
  | Some m =>
      try_except
        (results <- call_model m image confidence nms_threshold ;;
         ret (match results with
              | r :: _ => Some r
              | [] => None
              end))
        (fun e => st (st_error_detect e) ;; ret None)
  end.

(* ================================================================= *)
(** ** YOLOApp._display_detection_tab (app.py) *)

Definition set_uploaded_image (img : Image) : Py unit :=
  s <- get_session ;;
  put_session (mkSession (detection_results s) (Some img) (model_loaded s)
                 (confidence_threshold s) (nms_threshold s)).

Definition set_model_loaded (b : bool) : Py unit :=
  s <- get_session ;;
  put_session (mkSession (detection_results s) (uploaded_image s) b
                 (confidence_threshold s) (nms_threshold s)).

Definition set_detection_results (r : option Ultralytics.Results) : Py unit :=
  s <- get_session ;;
  put_session (mkSession r (uploaded_image s) (model_loaded s)
                 (confidence_threshold s) (nms_threshold s)).

Definition default_model_name : string := "yolov8n.pt"%string.

(** [uploaded_file] is what the upload widget returns and [clicked] whether
    the run button was pressed in this rerun. The result widget
    ([DetectionResultComponent]) is outside the pipeline; its call is
    recorded as one [display_results] entry. *)
Definition _display_detection_tab (weights : Weights)
    (uploaded_file : option Image) (clicked : bool) : Py unit :=
  st (st_subheader 4) ;;
  match uploaded_file with
  | None => ret tt
  | Some uploaded_file =>
      set_uploaded_image uploaded_file ;;
      when clicked
        (try_except
           (s <- get_session ;;
            when (negb (model_loaded s))
              (load_model weights default_model_name ;;
               set_model_loaded true) ;;
            s <- get_session ;;
            results <- detect_objects uploaded_file
                         (confidence_threshold s) (nms_threshold s) ;;
            set_detection_results results ;;
            st st_success)
           (fun e => st (st_error_detect e))) ;;
      s <- get_session ;;
      match detection_results s, uploaded_image s with
      | Some r, Some img => st (display_results img r)
      | _, _ => ret tt
      end
  end.

(* ================================================================= *)
(** ** Vocabulary of the statements *)

(** The position [py_getitem] reads for a class id in [-80, 80). *)
Definition table_position (class_id : Z) : nat :=
  Z.to_nat (if (class_id <? 0)%Z then 80 + class_id else class_id)%Z.

(** The world after some more calls were shown. *)
Definition shows (w : World) (calls : list st_call) : World :=
  mkWorld (session_state w) (model_manager w) (screen w ++ calls).

(** The dict [run_inference] builds from the rows [raw] once their names
    are resolved. *)
Definition normalized (clock : Q * Q) (raw : list Ultralytics.RawBox)
    (debug_mode : bool) (class_names : list string) : DetectionResult :=
  {| boxes := map Ultralytics.xyxy raw;
     scores := map Ultralytics.conf raw;
     class_ids := map Ultralytics.cls raw;
     class_names := class_names;
     inference_time :=
       if debug_mode then Some ((snd clock - fst clock) * 1000)%Q else None |}.

(** Sample inputs: the session [YOLOApp.__init__] and the sidebar leave
    behind, a model whose call returns a fixed list of results, and raw
    predictions. *)
Definition fresh_world : World :=
  mkWorld (mkSession None None false (1 # 2)%Q (2 # 5)%Q)
          (mkManager None "yolov8n.pt"%string) [].

Definition constant_model (results : list Ultralytics.Results) : YOLO :=
  fun _ _ _ => Ultralytics.Returns results.

Definition one_result (raw : list Ultralytics.RawBox)
  : list Ultralytics.Results :=
  [Ultralytics.mkResults (Some raw) [(0%Z, "person"%string)]].

Definition sample_box : Box := mkBox 10 10 50 50.

(** One person at confidence 0.9, and the same at confidence 1.2. *)
Definition person_0_9 : list Ultralytics.RawBox :=
  [Ultralytics.mkRawBox sample_box (9 # 10)%Q 0%Z].
Definition person_1_2 : list Ultralytics.RawBox :=
  [Ultralytics.mkRawBox sample_box (12 # 10)%Q 0%Z].

(** The outline colours of the boxes drawn, in drawing order. *)
Fixpoint box_colors (calls : list draw_call) : list string :=
  match calls with
  | [] => []
  | draw_rectangle _ outline _ :: rest => outline :: box_colors rest
  | _ :: rest => box_colors rest
  end.

(** The palette walked cyclically over positions [0 .. n-1]. *)
Definition palette_cycle (n : nat) : list string :=
  map (fun i => nth (i mod 10) colors ""%string) (seq 0 n).

(** The number of items the drawing loop visits: the length of the
    shortest of the three lists it walks in parallel. *)
Definition item_count (r : DetectionResult) : nat :=
  Nat.min (Nat.min (length (boxes r)) (length (scores r)))
          (length (class_names r)).

(** The invariant of a box in the data model: the second corner is neither
    left of nor above the first. *)
Definition ordered (box : Box) : Prop :=
  (x1 box <= x2 box)%Q /\ (y1 box <= y2 box)%Q.

(** The boxes the drawing loop visits. *)
Definition visited_boxes (r : DetectionResult) : list Box :=
  firstn (item_count r) (boxes r).

(** The class lines a screen shows, in the order they were emitted. *)
Fixpoint displayed_classes (calls : list st_call) : list (string * nat) :=
  match calls with
  | [] => []
  | st_write_class class_name count :: rest =>
      (class_name, count) :: displayed_classes rest
  | st_markdown_class class_name count :: rest =>
      (class_name, count) :: displayed_classes rest
  | _ :: rest => displayed_classes rest
  end.

(** The distinct names of a list in order of first appearance. *)
Definition seen_step (seen : list string) (n : string) : list string :=
  if existsb (fun k => String.eqb k n) seen then seen else seen ++ [n].

Definition first_seen (class_names : list string) : list string :=
  fold_left seen_step class_names [].

(** The parallel lists of a result have one entry per item. *)
Definition well_formed (r : DetectionResult) : Prop :=
  length (scores r) = length (boxes r)
  /\ length (class_ids r) = length (boxes r)
  /\ length (class_names r) = length (boxes r).

(** The presentation order the specification asks for: descending count,
    ties by ascending class name. *)
Definition spec_precedes (a b : string * nat) : Prop :=
  snd b < snd a \/ (snd a = snd b /\ String.leb (fst a) (fst b) = true).

Definition spec_display_order (items : list (string * nat)) : Prop :=
  Sorted spec_precedes items.

(** The orders the code produces. *)
Definition count_descending (a b : string * nat) : Prop := snd b <= snd a.
Definition name_ascending (a b : string * nat) : Prop :=
  String.compare (fst a) (fst b) = Lt.

(** The entries of [items] whose count is [c], in their order in [items]. *)
Definition with_count (c : nat) (items : list (string * nat))
  : list (string * nat) :=
  filter (fun e => snd e =? c) items.

(** A stored raw result with two detections, a dog then a cat. *)
Definition dog_then_cat : Ultralytics.Results :=
  Ultralytics.mkResults
    (Some [Ultralytics.mkRawBox sample_box (9 # 10)%Q 16%Z;
           Ultralytics.mkRawBox sample_box (8 # 10)%Q 15%Z])
    [(15%Z, "cat"%string); (16%Z, "dog"%string)].

Definition world_with (results : option Ultralytics.Results) : World :=
  mkWorld (mkSession results None true (1 # 2)%Q (2 # 5)%Q)
          (mkManager None "yolov8n.pt"%string) [].

(** The result [run_inference] returns for zero predictions (debug off). *)
Definition empty_result : DetectionResult := mkDetectionResult [] [] [] [] None.

(** The normalised result of one person at confidence 0.9, and of a dog
    followed by a cat. *)
Definition person_result : DetectionResult :=
  mkDetectionResult [sample_box] [(9 # 10)%Q] [0%Z] ["person"%string] None.

Definition dog_cat_result : DetectionResult :=
  mkDetectionResult [sample_box; sample_box] [(9 # 10)%Q; (8 # 10)%Q]
    [16%Z; 15%Z] ["dog"%string; "cat"%string] None.

(** Two cats and a dog, the dog seen last. *)
Definition cats_and_dog_result : DetectionResult :=
  mkDetectionResult [sample_box; sample_box; sample_box]
    [(9 # 10)%Q; (8 # 10)%Q; (7 # 10)%Q]
    [16%Z; 16%Z; 15%Z] ["dog"%string; "dog"%string; "cat"%string] None.

(** A model whose call raises, and weights that cannot be loaded. *)
Definition raising_model (e : exn) : YOLO := fun _ _ _ => Ultralytics.Raises e.

Definition missing_weights (e : exn) : Weights := fun _ => Raise e.

(** A machine on which every image can be read and arial.ttf is installed,
    and one that has only Pillow's bitmap font. *)
Definition pillow_with_arial : Pillow := mkPillow (fun _ => Ok tt) true true.

(** A box whose corners are swapped, and a person detected with it. *)
Definition reversed_box : Box := mkBox 50 50 10 10.

Definition reversed_person : list Ultralytics.RawBox :=
  [Ultralytics.mkRawBox reversed_box (9 # 10)%Q 0%Z].

Definition reversed_result : DetectionResult :=
  mkDetectionResult [reversed_box] [(9 # 10)%Q] [0%Z] ["person"%string] None.

(* ================================================================= *)
(** ** Object construction *)

(** [YOLOModelManager.__init__] *)
Definition YOLOModelManager__init__ : YOLOModelManager :=
  mkManager None "yolov8n.pt"%string.

(** [st.session_state.uploaded_image = None] *)
Definition reset_uploaded_image : Py unit :=
  s <- get_session ;;
  put_session (mkSession (detection_results s) None (model_loaded s)
                 (confidence_threshold s) (nms_threshold s)).

(** [YOLOApp.__init__]: a new model manager, then a default for every
    session key that is missing. The three flags say which of the keys
    ['detection_results'], ['uploaded_image'], ['model_loaded'] the session
    already has; the field of a missing key is overwritten before anything
    reads it. The UI component objects the constructor also creates belong
    to classes that are not part of these files and are left out. *)
Definition YOLOApp__init__
    (has_detection_results has_uploaded_image has_model_loaded : bool)
  : Py unit :=
  put_self YOLOModelManager__init__ ;;
  when (negb has_detection_results) (set_detection_results None) ;;
  when (negb has_uploaded_image) reset_uploaded_image ;;
  when (negb has_model_loaded) (set_model_loaded false).

(** The two assignments of [_display_sidebar] that the detection tab reads
    (app.py 138-139): the slider values of this run. *)
Definition set_thresholds (confidence_threshold nms_threshold : Q) : Py unit :=
  s <- get_session ;;
  put_session (mkSession (detection_results s) (uploaded_image s)
                 (model_loaded s) confidence_threshold nms_threshold).

(** What one run of the script does to the session and to the model
    manager: [main] builds a new [YOLOApp] (app.py 315), [run] lets the
    sidebar store the two thresholds and then the detection tab runs once.
    [new_session] tells whether this is the first run of the session, when
    none of the three session keys exists yet; [__init__] creates them all,
    so every later run finds them. Header, other tabs and widgets write
    neither these keys nor the manager. *)
Definition script_run (new_session : bool) (weights : Weights)
    (confidence_threshold nms_threshold : Q)
    (uploaded_file : option Image) (clicked : bool) : Py unit :=
  YOLOApp__init__ (negb new_session) (negb new_session) (negb new_session) ;;
  set_thresholds confidence_threshold nms_threshold ;;
  _display_detection_tab weights uploaded_file clicked.

(** The worlds a session can be in between two runs of the script, whatever
    the user did and whatever weights were available in each run. *)
Inductive between_runs : World -> Prop :=
| after_first_run w0 weights c n upload clicked :
    between_runs (after (script_run true weights c n upload clicked) w0)
| after_next_run w weights c n upload clicked :
    between_runs w ->
    between_runs (after (script_run false weights c n upload clicked) w).

(** The three calls [create_visualization] makes for the item at position
    [i] when its turn of the loop succeeds, with the palette entry of that
    position. *)
Definition item_calls (f : font) (item : nat * (Box * Q * string))
  : list draw_call :=
  let '(i, (box, score, class_name)) := item in
  let color := nth (i mod 10) colors ""%string in
  [ draw_rectangle box color 3;
    draw_label_background (x1 box) (y1 box - 20)%Q class_name score f color;
    draw_text (x1 box) (y1 box - 20)%Q class_name score f ].

(** [counts] is the occurrence table of the names [seen]: one entry per
    distinct name, holding the number of times the name occurs. *)
Definition counts_of (seen : list string) (counts : dict string nat) : Prop :=
  NoDup (dict_keys counts)
  /\ (forall n, In n (dict_keys counts) <-> In n seen)
  /\ (forall n, In n seen ->
        dict_lookup counts n = Ok (count_occ string_dec seen n)).

(** A stored raw result whose second box has a class id (99) missing from
    the model's [names]. *)
Definition cat_and_unknown : Ultralytics.Results :=
  Ultralytics.mkResults
    (Some [Ultralytics.mkRawBox sample_box (9 # 10)%Q 15%Z;
           Ultralytics.mkRawBox sample_box (8 # 10)%Q 99%Z])
    [(15%Z, "cat"%string)].

(** Weights that load, giving the model [m]. *)
Definition available_weights (m : YOLO) : Weights := fun _ => Ok m.

(* ================================================================= *)
(** ** YOLOModelLoader: the model tables *)

(** [YOLOModelLoader.DEFAULT_MODEL_NAME] *)
Definition DEFAULT_MODEL_NAME : string := "yolov8n.pt"%string.

(** [YOLOModelLoader.get_available_models] *)
Definition get_available_models : list string :=
  ["yolov8n.pt"; "yolov8s.pt"; "yolov8m.pt"; "yolov8l.pt"; "yolov8x.pt"]%string.

(** The inner dicts of [get_model_info], key by key in source order. *)
Definition info (name parameters size mAP50 mAP50_95 speed_gpu speed_cpu
                   description : string) : dict string string :=
  [("name", name); ("parameters", parameters); ("size", size);
   ("mAP50", mAP50); ("mAP50-95", mAP50_95); ("speed_gpu", speed_gpu);
   ("speed_cpu", speed_cpu); ("description", description)]%string.

Definition model_info : dict string (dict string string) :=
  [("yolov8n.pt", info "YOLOv8 Nano" "3.2M" "6.3MB" "0.637" "0.454" "8.7ms"
                    "23.4ms" "軽量で高速、エッジデバイス向け");
   ("yolov8s.pt", info "YOLOv8 Small" "11.2M" "22.6MB" "0.718" "0.554" "12.9ms"
                    "35.2ms" "バランス型、一般的な用途");
   ("yolov8m.pt", info "YOLOv8 Medium" "25.9M" "52.2MB" "0.764" "0.628" "22.6ms"
                    "61.8ms" "高精度、サーバー向け");
   ("yolov8l.pt", info "YOLOv8 Large" "43.7M" "87.7MB" "0.792" "0.671" "31.2ms"
                    "85.4ms" "最高精度、研究用途");
   ("yolov8x.pt", info "YOLOv8 XLarge" "68.2M" "136.6MB" "0.814" "0.699" "35.7ms"
                    "98.1ms" "最大精度、特殊用途")]%string.

(** [YOLOModelLoader.get_model_info]: [model_info.get(model_name, {})] *)
Definition get_model_info (model_name : string) : dict string string :=
  dict_get model_info model_name empty.

(* ================================================================= *)
(** ** InputManager (ui_components.py) *)

Module InputManager.

(** The four options of the input-method select box. *)
Inductive input_method : Type :=
| use_sample_image | upload_image | image_from_url | take_photo.

(** Response bodies, uploaded files and camera shots are byte blobs, kept
    as numbers; a response carries its status code and its body. *)
Definition Blob := nat.
Record Response : Type := mkResponse { status_code : nat; content : Blob }.

(** What lies outside the program: the network ([requests.get(url,
    timeout=t)]) and the imaging library. [Image.open] is lazy: [decode]
    identifies the file and reads its header, which gives the size; the
    pixel data are read by [load] when the image is first used, here by
    [st.image], and a truncated or damaged body raises only then. *)
Record Environment : Type := mkEnvironment {
  http : string -> nat -> outcome Response;
  decode : Blob -> outcome Image;
  load : Image -> outcome unit;
  width : Image -> nat;
  height : Image -> nat
}.

(** The widgets' values in one script run. *)
Record Widgets : Type := mkWidgets {
  selected_image : string;                 (* the sample select box *)
  uploaded_file : option Blob;             (* [st.file_uploader] *)
  url : string;                            (* [st.text_input] *)
  camera_input : outcome (option Blob)     (* [st.camera_input] *)
}.

(** What the input section shows, and the requests it sends. *)
Inductive call : Type :=
| st_header
| st_success_loaded
| st_image (image : Image)
| st_metric_width (px : nat)
| st_metric_height (px : nat)
| st_metric_size (px2 : nat)
| st_warning_no_image
| st_error_sample (e : exn)
| st_error_upload (e : exn)
| st_error_url (e : exn)
| st_error_camera (e : exn)
| requests_get (url : string) (timeout : nat).

(** The monad of this class: a log of calls, with exceptions. *)
Definition Ui (A : Type) : Type := list call -> outcome A * list call.

Definition ret {A : Type} (a : A) : Ui A := fun log => (Ok a, log).

Definition bind {A B : Type} (m : Ui A) (k : A -> Ui B) : Ui B :=
  fun log => match m log with
             | (Ok a, log') => k a log'
             | (Raise e, log') => (Raise e, log')
             end.

Definition lift {A : Type} (o : outcome A) : Ui A := fun log => (o, log).

Definition emit (c : call) : Ui unit := fun log => (Ok tt, log ++ [c]).

Definition try_except {A : Type} (body : Ui A) (handler : exn -> Ui A) : Ui A :=
  fun log => match body log with
             | (Ok a, log') => (Ok a, log')
             | (Raise e, log') => handler e log'
             end.

Declare Scope ui_scope.
Notation "x <- m ;; k" := (bind m (fun x => k))
  (at level 61, m at next level, right associativity) : ui_scope.
Notation "m ;; k" := (bind m (fun _ => k))
  (at level 61, right associativity) : ui_scope.
Local Open Scope ui_scope.

(** [requests.get(url, timeout=timeout)] *)
Definition get (env : Environment) (url : string) (timeout : nat)
  : Ui Response :=
  emit (requests_get url timeout) ;; lift (http env url timeout).

(** [response.raise_for_status()]: an HTTPError for a 4xx or 5xx status. *)
Definition raise_for_status (response : Response) : outcome unit :=
  if (400 <=? status_code response) && (status_code response <? 600)
  then Raise (RuntimeError (status_code response))
  else Ok tt.

(** Truthiness of a string. *)
Definition nonempty (s : string) : bool :=
  match s with EmptyString => false | String _ _ => true end.

Definition sample_images : dict string string :=
  [("オフィスシーン", "https://images.unsplash.com/photo-1497366216548-37526070297c?w=800&h=600&fit=crop");
   ("キッチンシーン", "https://images.unsplash.com/photo-1556909114-f6e7ad7d3136?w=800&h=600&fit=crop");
   ("リビングルーム", "https://images.unsplash.com/photo-1586023492125-27b2c045efd7?w=800&h=600&fit=crop");
   ("街並み", "https://images.unsplash.com/photo-1449824913935-59a10b8d2000?w=800&h=600&fit=crop");
   ("自然風景", "https://images.unsplash.com/photo-1506905925346-21bda4d32df4?w=800&h=600&fit=crop");
   ("人物写真", "https://images.unsplash.com/photo-1507003211169-0a1dd7228f2d?w=800&h=600&fit=crop");
   ("車の写真", "https://images.unsplash.com/photo-1549317661-bd32c8ce0db2?w=800&h=600&fit=crop")]%string.

Definition _load_sample_image (env : Environment) (selected_image : string)
  : Ui (option Image) :=
  if nonempty selected_image then
    try_except
      (url <- lift (dict_lookup sample_images selected_image) ;;
       response <- get env url 10 ;;
       lift (raise_for_status response) ;;
       image <- lift (decode env (content response)) ;;
       ret (Some image))
      (fun e => emit (st_error_sample e) ;; ret None)
  else ret None.

Definition _load_uploaded_image (env : Environment)
    (uploaded_file : option Blob) : Ui (option Image) :=
  match uploaded_file with
  | Some file =>
      try_except
        (image <- lift (decode env file) ;; ret (Some image))
        (fun e => emit (st_error_upload e) ;; ret None)
  | None => ret None
  end.

Definition _load_url_image (env : Environment) (url : string)
  : Ui (option Image) :=
  if nonempty url then
    try_except
      (response <- get env url 10 ;;
       lift (raise_for_status response) ;;
       image <- lift (decode env (content response)) ;;
       ret (Some image))
      (fun e => emit (st_error_url e) ;; ret None)
  else ret None.

Definition _load_camera_image (env : Environment)
    (camera_input : outcome (option Blob)) : Ui (option Image) :=
  try_except
    (camera_input <- lift camera_input ;;
     match camera_input with
     | Some shot => image <- lift (decode env shot) ;; ret (Some image)
     | None => ret None
     end)
    (fun e => emit (st_error_camera e) ;; ret None).

(** [st.image(image, ...)]: the pixel data are read, then the image is
    shown. *)
Definition show_image (env : Environment) (image : Image) : Ui unit :=
  lift (load env image) ;; emit (st_image image).

(** The loaders run inside their own [try]; the display of the loaded image
    does not. *)
Definition create_image_input_section (env : Environment)
    (input_method : input_method) (widgets : Widgets) : Ui (option Image) :=
  emit st_header ;;
  image <- match input_method with
           | use_sample_image => _load_sample_image env (selected_image widgets)
           | upload_image => _load_uploaded_image env (uploaded_file widgets)
           | image_from_url => _load_url_image env (url widgets)
           | take_photo => _load_camera_image env (camera_input widgets)
           end ;;
  match image with
  | Some image =>
      emit st_success_loaded ;;
      show_image env image ;;
      emit (st_metric_width (width env image)) ;;
      emit (st_metric_height (height env image)) ;;
      emit (st_metric_size (width env image * height env image)) ;;
      ret (Some image)
  | None =>
      emit st_warning_no_image ;;
      ret None
  end.

(** The calls that are requests, and the calls that are error messages. *)
Definition is_request (c : call) : bool :=
  match c with requests_get _ _ => true | _ => false end.

Definition is_error (c : call) : bool :=
  match c with
  | st_error_sample _ | st_error_upload _ | st_error_url _
  | st_error_camera _ => true
  | _ => false
  end.

End InputManager.

(** The calls of one loader: at most one request, with timeout 10, then at
    most one error message, and no image when there was an error. *)
Definition loader_calls (res : option Image) (calls : list InputManager.call)
  : Prop :=
  exists requests errors,
    calls = requests ++ errors
    /\ (requests = [] \/ exists u, requests = [InputManager.requests_get u 10])
    /\ (errors = []
        \/ (res = None
            /\ exists c, errors = [c] /\ InputManager.is_error c = true)).

(* ================================================================= *)
(** * Properties *)

(** ** Python indexing *)

Section Indexing.
Context {A : Type}.
Implicit Types (xs : list A) (i : Z).

Lemma py_getitem_only_IndexError xs i e :
  py_getitem xs i = Raise e -> e = IndexError.
Proof.
  unfold py_getitem.
  destruct (_ || _)%bool; [congruence|].
  destruct (nth_error _ _); congruence.
Qed.

Lemma py_getitem_above xs i :
  (Z.of_nat (length xs) <= i)%Z -> py_getitem xs i = Raise IndexError.
Proof.
  intros Hi. unfold py_getitem.
  destruct (i <? 0)%Z eqn:Hneg; [apply Z.ltb_lt in Hneg; lia|].
  replace (Z.of_nat (length xs) <=? i)%Z with true
    by (symmetry; apply Z.leb_le; lia).
  now rewrite orb_true_r.
Qed.

Lemma py_getitem_below xs i :
  (i < - Z.of_nat (length xs))%Z -> py_getitem xs i = Raise IndexError.
Proof.
  intros Hi. unfold py_getitem.
  destruct (i <? 0)%Z eqn:Hneg; [|apply Z.ltb_ge in Hneg; lia].
  replace (i + Z.of_nat (length xs) <? 0)%Z with true
    by (symmetry; apply Z.ltb_lt; lia).
  reflexivity.
Qed.

Lemma py_getitem_within xs i (d : A) :
  (0 <= i < Z.of_nat (length xs))%Z ->
  py_getitem xs i = Ok (nth (Z.to_nat i) xs d).
Proof.
  intros Hi. unfold py_getitem.
  destruct (i <? 0)%Z eqn:Hneg; [apply Z.ltb_lt in Hneg; lia|].
  replace (i <? 0)%Z with false in * by congruence.
  replace (Z.of_nat (length xs) <=? i)%Z with false
    by (symmetry; apply Z.leb_gt; lia).
  cbn [orb].
  rewrite (nth_error_nth' xs d) by lia. reflexivity.
Qed.

(** A negative index in range is the index counted from the end. *)
Lemma py_getitem_negative xs i (d : A) :
  (- Z.of_nat (length xs) <= i < 0)%Z ->
  py_getitem xs i = Ok (nth (Z.to_nat (Z.of_nat (length xs) + i)) xs d).
Proof.
  intros Hi. unfold py_getitem.
  destruct (i <? 0)%Z eqn:Hneg; [|apply Z.ltb_ge in Hneg; lia].
  replace (i + Z.of_nat (length xs) <? 0)%Z with false
    by (symmetry; apply Z.ltb_ge; lia).
  replace (Z.of_nat (length xs) <=? i + Z.of_nat (length xs))%Z with false
    by (symmetry; apply Z.leb_gt; lia).
  cbn [orb].
  rewrite (nth_error_nth' xs d) by lia.
  now rewrite Z.add_comm.
Qed.
End Indexing.

(** ** Comprehensions *)

Section Comprehension.
Context {A B : Type} (f : A -> outcome B).

Lemma comprehension_Ok xs ys :
  comprehension f xs = Ok ys <-> Forall2 (fun x y => f x = Ok y) xs ys.
Proof.
  revert ys. induction xs as [|x xs IH]; intros ys; cbn.
  - split; intros E.
    + injection E as <-. constructor.
    + inversion E. reflexivity.
  - split.
    + destruct (f x) as [y|e] eqn:Fx; [|discriminate].
      destruct (comprehension f xs) as [ys'|e]; [|discriminate].
      intros E. injection E as <-. constructor; [assumption|].
      now apply IH.
    + intros E. inversion E as [|? y ? ys' Fx Rest]; subst.
      rewrite Fx. apply IH in Rest. now rewrite Rest.
Qed.

Lemma comprehension_length xs ys :
  comprehension f xs = Ok ys -> length ys = length xs.
Proof.
  intros E. apply comprehension_Ok in E.
  symmetry. eapply Forall2_length, E.
Qed.

(** When [f] can raise one exception only, one failing element makes the
    whole comprehension raise it. *)
Lemma comprehension_Raise (E : exn) xs :
  (forall x e, f x = Raise e -> e = E) ->
  Exists (fun x => f x = Raise E) xs ->
  comprehension f xs = Raise E.
Proof.
  intros Only Bad. induction Bad as [x xs Fx | x xs _ IH]; cbn.
  - now rewrite Fx.
  - destruct (f x) as [y|e] eqn:Fx.
    + now rewrite IH.
    + now rewrite (Only _ _ Fx).
Qed.

Lemma comprehension_total xs :
  Forall (fun x => exists y, f x = Ok y) xs ->
  exists ys, comprehension f xs = Ok ys.
Proof.
  induction 1 as [|x xs [y Fx] _ [ys IH]]; cbn.
  - now exists [].
  - rewrite Fx, IH. now exists (y :: ys).
Qed.
End Comprehension.

(** ** The class table *)

Lemma coco_classes_length : length get_coco_classes = 80.
Proof. reflexivity. Qed.

Lemma resolve_in_range (class_id : Z) :
  (-80 <= class_id < 80)%Z ->
  py_getitem get_coco_classes class_id
  = Ok (nth (table_position class_id) get_coco_classes ""%string).
Proof.
  intros Hr. unfold table_position.
  destruct (class_id <? 0)%Z eqn:Hneg.
  - apply Z.ltb_lt in Hneg.
    rewrite py_getitem_negative with (d := ""%string);
      rewrite coco_classes_length; [reflexivity | lia].
  - apply Z.ltb_ge in Hneg.
    apply py_getitem_within. rewrite coco_classes_length. lia.
Qed.

Lemma resolve_out_of_range (class_id : Z) :
  (class_id < -80 \/ 80 <= class_id)%Z ->
  py_getitem get_coco_classes class_id = Raise IndexError.
Proof.
  intros [Hlow | Hhigh].
  - apply py_getitem_below. rewrite coco_classes_length. lia.
  - apply py_getitem_above. rewrite coco_classes_length. lia.
Qed.

Lemma resolve_all_in_range (ids : list Z) :
  Forall (fun id => -80 <= id < 80)%Z ids ->
  comprehension (py_getitem get_coco_classes) ids
  = Ok (map (fun id => nth (table_position id) get_coco_classes ""%string) ids).
Proof.
  intros Hall. apply comprehension_Ok.
  induction Hall as [|id ids Hid _ IH]; cbn; constructor; auto.
  now apply resolve_in_range.
Qed.

(** ** Worlds and screens *)

Lemma shows_nil w : shows w [] = w.
Proof. destruct w. unfold shows. cbn. now rewrite app_nil_r. Qed.

Lemma shows_shows w a b : shows (shows w a) b = shows w (a ++ b).
Proof. unfold shows. cbn. now rewrite app_assoc. Qed.

Lemma screen_shows w calls : screen (shows w calls) = screen w ++ calls.
Proof. reflexivity. Qed.

Lemma st_shows c w : st c w = (Ok tt, shows w [c]).
Proof. reflexivity. Qed.

Lemma for_each_st {A : Type} (f : A -> st_call) xs w :
  for_each xs (fun x => st (f x)) w = (Ok tt, shows w (map f xs)).
Proof.
  revert w. induction xs as [|x xs IH]; intros w; cbn [for_each map].
  - now rewrite shows_nil.
  - unfold bind. rewrite st_shows, IH, shows_shows. reflexivity.
Qed.

Lemma for_each_ext {A : Type} (body body' : A -> Py unit) xs w :
  (forall x w', body x w' = body' x w') ->
  for_each xs body w = for_each xs body' w.
Proof.
  intros E. revert w.
  induction xs as [|x xs IH]; intros w; cbn [for_each]; [reflexivity|].
  unfold bind. rewrite E. destruct (body' x w) as [[[]|e] w']; auto.
Qed.

(** Stepping through a [bind]. *)
Lemma bind_st {B : Type} c (k : unit -> Py B) w :
  bind (st c) k w = k tt (shows w [c]).
Proof. reflexivity. Qed.

Lemma bind_Ok {A B : Type} (a : A) (k : A -> Py B) w :
  bind (lift (Ok a)) k w = k a w.
Proof. reflexivity. Qed.

Lemma bind_Raise {A B : Type} e (k : A -> Py B) w :
  bind (lift (Raise e)) k w = (Raise e, w).
Proof. reflexivity. Qed.

Lemma bind_eq {A B : Type} (m : Py A) (k : A -> Py B) w a w' :
  m w = (Ok a, w') -> bind m k w = k a w'.
Proof. unfold bind. now intros ->. Qed.

Lemma for_each_st2 {A B : Type} (g : A -> B -> st_call) xs w :
  for_each xs (fun '(a, b) => st (g a b)) w
  = (Ok tt, shows w (map (fun '(a, b) => g a b) xs)).
Proof.
  rewrite <- for_each_st. apply for_each_ext. now intros [a b] w'.
Qed.

Lemma list_eq_dec_nil {A : Type} (xs : list A) : {xs = []} + {xs <> []}.
Proof. destruct xs; [now left | now right]. Qed.

(** ** What [run_inference] returns *)

Section RunInference.
Variables (model : YOLO) (image : Image) (ct iou : Q) (clock : Q * Q).
Variables (raw : list Ultralytics.RawBox) (names : list (Z * string))
          (rest : list Ultralytics.Results).
Hypothesis model_returns :
  model image ct iou
  = Ultralytics.Returns (Ultralytics.mkResults (Some raw) names :: rest).

Lemma run_inference_quiet w :
  run_inference model image ct iou false clock w
  = match comprehension (py_getitem get_coco_classes)
            (map Ultralytics.cls raw) with
    | Ok class_names => (Ok (Some (normalized clock raw false class_names)), w)
    | Raise e => (Ok None, shows w [st_error_inference e])
    end.
Proof.
  unfold run_inference, try_except, bind, call_model, lift, when, ret.
  rewrite model_returns. cbn [Ultralytics.boxes].
  destruct (comprehension _ _) as [class_names|e]; reflexivity.
Qed.

Lemma debug_report_nonempty bbox_data confidence_scores class_names w :
  confidence_scores <> [] ->
  exists calls,
    debug_report bbox_data confidence_scores class_names w
    = (Ok tt, shows w calls).
Proof.
  intros Hne. destruct confidence_scores as [|s ss]; [congruence|].
  unfold debug_report, bind, lift. rewrite !st_shows. cbn [np_max].
  rewrite !st_shows, for_each_st2, !shows_shows.
  eexists. reflexivity.
Qed.

Lemma debug_report_empty class_names w :
  debug_report [] [] class_names w
  = (Raise ValueError,
     shows w [st_write_header 1; st_write_count 0; st_write_mean (Fmt 3 NaN)]).
Proof.
  unfold debug_report, bind, lift. rewrite !st_shows. cbn [np_max].
  now rewrite !shows_shows.
Qed.

Lemma run_inference_debug_nonempty w :
  raw <> [] ->
  exists calls,
    run_inference model image ct iou true clock w
    = match comprehension (py_getitem get_coco_classes)
              (map Ultralytics.cls raw) with
      | Ok class_names =>
          (Ok (Some (normalized clock raw true class_names)), shows w calls)
      | Raise e =>
          (Ok None,
           shows w [st_write_running;
                    st_write_done ((snd clock - fst clock) * 1000)%Q;
                    st_error_inference e; st_write_error_detail e])
      end.
Proof.
  intros Hne.
  assert (Hconf : map Ultralytics.conf raw <> [])
    by (intros E; apply map_eq_nil in E; contradiction).
  unfold run_inference, try_except, bind, call_model, lift, when, ret.
  rewrite model_returns, !st_shows. cbn [Ultralytics.boxes].
  destruct (comprehension _ _) as [class_names|e].
  - destruct (debug_report_nonempty (map Ultralytics.xyxy raw) _ class_names
                (shows (shows w [st_write_running])
                   [st_write_done ((snd clock - fst clock) * 1000)%Q]) Hconf)
      as [calls Hr].
    rewrite Hr, !shows_shows. eexists. reflexivity.
  - exists []. rewrite !st_shows, !shows_shows. reflexivity.
Qed.

Lemma run_inference_debug_empty w :
  raw = [] ->
  run_inference model image ct iou true clock w
  = (Ok None,
     shows w [st_write_running;
              st_write_done ((snd clock - fst clock) * 1000)%Q;
              st_write_header 1; st_write_count 0;
              st_write_mean (Fmt 3 NaN);
              st_error_inference ValueError;
              st_write_error_detail ValueError]).
Proof.
  intros Hraw.
  unfold run_inference, try_except, bind, call_model, lift, when, ret.
  rewrite model_returns, !st_shows. cbn [Ultralytics.boxes].
  rewrite Hraw. cbn [map comprehension].
  rewrite debug_report_empty, !st_shows, !shows_shows. reflexivity.
Qed.

(** Whenever a result comes back, it is [normalized] at the resolved
    names, in either mode. *)
Lemma run_inference_Some debug_mode w r :
  run (run_inference model image ct iou debug_mode clock) w = Ok (Some r) ->
  exists class_names,
    comprehension (py_getitem get_coco_classes) (map Ultralytics.cls raw)
    = Ok class_names
    /\ r = normalized clock raw debug_mode class_names.
Proof.
  unfold run. destruct debug_mode.
  - destruct (list_eq_dec_nil raw) as [Hraw | Hraw].
    + rewrite (run_inference_debug_empty w Hraw). cbn. discriminate.
    + destruct (run_inference_debug_nonempty w Hraw) as [calls Hr].
      rewrite Hr.
      destruct (comprehension _ _) as [class_names|e]; cbn; [|discriminate].
      intros E. injection E as <-. now exists class_names.
  - rewrite run_inference_quiet.
    destruct (comprehension _ _) as [class_names|e]; cbn; [|discriminate].
    intros E. injection E as <-. now exists class_names.
Qed.
End RunInference.

Lemma run_inference_absent_boxes model image ct iou debug_mode clock names rest w :
  model image ct iou
  = Ultralytics.Returns (Ultralytics.mkResults None names :: rest) ->
  run (run_inference model image ct iou debug_mode clock) w = Ok None.
Proof.
  intros Hm. unfold run, run_inference, try_except, bind, call_model, lift.
  rewrite Hm. destruct debug_mode; reflexivity.
Qed.

Lemma run_inference_no_results model image ct iou debug_mode clock w :
  model image ct iou = Ultralytics.Returns [] ->
  run (run_inference model image ct iou debug_mode clock) w = Ok None.
Proof.
  intros Hm. unfold run, run_inference, try_except, bind, call_model, lift.
  rewrite Hm. destruct debug_mode; reflexivity.
Qed.

Lemma run_inference_model_raises model image ct iou debug_mode clock e w :
  model image ct iou = Ultralytics.Raises e ->
  run (run_inference model image ct iou debug_mode clock) w = Ok None.
Proof.
  intros Hm. unfold run, run_inference, try_except, bind, call_model, lift.
  rewrite Hm. destruct debug_mode; reflexivity.
Qed.

(** With debug mode off, zero predictions give an empty result, which is
    not the [None] of an absent container. *)
Lemma run_inference_zero_predictions_quiet model image ct iou clock names rest w :
  model image ct iou
  = Ultralytics.Returns (Ultralytics.mkResults (Some []) names :: rest) ->
  run (run_inference model image ct iou false clock) w
  = Ok (Some empty_result).
Proof.
  intros Hm. unfold run. now rewrite (run_inference_quiet _ _ _ _ clock _ _ _ Hm).
Qed.

(** In range of the table, resolution never fails. *)
Lemma run_inference_in_range model image ct iou debug_mode clock raw names rest w :
  model image ct iou
  = Ultralytics.Returns (Ultralytics.mkResults (Some raw) names :: rest) ->
  Forall (fun b => -80 <= Ultralytics.cls b < 80)%Z raw ->
  debug_mode = false \/ raw <> [] ->
  run (run_inference model image ct iou debug_mode clock) w
  = Ok (Some (normalized clock raw debug_mode
                (map (fun b => nth (table_position (Ultralytics.cls b))
                                 get_coco_classes ""%string) raw))).
Proof.
  intros Hm Hids Hmode.
  assert (Hres : comprehension (py_getitem get_coco_classes)
                   (map Ultralytics.cls raw)
                 = Ok (map (fun b => nth (table_position (Ultralytics.cls b))
                                       get_coco_classes ""%string) raw)).
  { rewrite resolve_all_in_range, map_map; [reflexivity|].
    apply Forall_map. exact Hids. }
  unfold run. destruct debug_mode.
  - destruct Hmode as [|Hne]; [discriminate|].
    destruct (run_inference_debug_nonempty _ _ _ _ clock _ _ _ Hm w Hne) as [calls Hr].
    now rewrite Hr, Hres.
  - now rewrite (run_inference_quiet _ _ _ _ clock _ _ _ Hm), Hres.
Qed.

(** (C1, amended) [run_inference] has no validation of confidences: every
    result it returns carries the raw confidences unchanged, whatever their
    values (a value outside [[0, 1]] such as 1.2 is neither rejected nor
    clamped), and a result is returned whenever the class ids are inside the
    table (in debug mode: and there is at least one prediction). *)
Theorem run_inference_passes_confidence_through
    model image ct iou debug_mode clock raw names rest w :
  model image ct iou
  = Ultralytics.Returns (Ultralytics.mkResults (Some raw) names :: rest) ->
  (forall r,
     run (run_inference model image ct iou debug_mode clock) w = Ok (Some r) ->
     scores r = map Ultralytics.conf raw)
  /\ (Forall (fun b => -80 <= Ultralytics.cls b < 80)%Z raw ->
      debug_mode = false \/ raw <> [] ->
      exists r,
        run (run_inference model image ct iou debug_mode clock) w = Ok (Some r)
        /\ scores r = map Ultralytics.conf raw).
Proof.
  intros Hm. split.
  - intros r Hr.
    destruct (run_inference_Some _ _ _ _ clock _ _ _ Hm _ _ _ Hr) as (class_names & _ & ->).
    reflexivity.
  - intros Hids Hmode. eexists. split.
    + eapply run_inference_in_range; eassumption.
    + reflexivity.
Qed.

Lemma run_inference_passes_confidence_through_witness :
  exists r,
    run (run_inference (constant_model (one_result person_1_2)) 0
           (1 # 4)%Q (45 # 100)%Q false (0%Q, 0%Q)) fresh_world = Ok (Some r)
    /\ scores r = [(12 # 10)%Q].
Proof.
  refine (proj2 (run_inference_passes_confidence_through
                   (constant_model (one_result person_1_2)) 0
                   (1 # 4)%Q (45 # 100)%Q false (0%Q, 0%Q) person_1_2
                   [(0%Z, "person"%string)] [] fresh_world eq_refl) _ _).
  - repeat constructor; cbn; lia.
  - left. reflexivity.
Defined.

(** (C1, as stated, fails) A prediction with confidence 1.2 is not
    rejected: the result is produced and carries 1.2 in its scores. *)
Lemma confidence_1_2_not_rejected :
  ~ (0 <= 12 # 10 <= 1)%Q
  /\ run (run_inference (constant_model (one_result person_1_2)) 0
            (1 # 4)%Q (45 # 100)%Q false (0%Q, 0%Q)) fresh_world
     = Ok (Some (mkDetectionResult [sample_box] [(12 # 10)%Q] [0%Z]
                   ["person"%string] None)).
Proof.
  split; [|reflexivity].
  intros [_ H]. revert H. unfold Qle. cbn. lia.
Qed.

(** The conflation for every model call that returns zero predictions. *)
Lemma run_inference_zero_predictions_debug model image ct iou clock names rest w :
  model image ct iou
  = Ultralytics.Returns (Ultralytics.mkResults (Some []) names :: rest) ->
  run_inference model image ct iou true clock w
  = (Ok None,
     shows w [st_write_running;
              st_write_done ((snd clock - fst clock) * 1000)%Q;
              st_write_header 1; st_write_count 0;
              st_write_mean (Fmt 3 NaN);
              st_error_inference ValueError;
              st_write_error_detail ValueError]).
Proof.
  intros Hm.
  exact (run_inference_debug_empty _ _ _ _ clock _ _ _ Hm w eq_refl).
Qed.

(** (C3) In debug mode zero predictions do not come back as an empty
    result: the debug report's [np.max] raises on the empty score array, the
    handler shows the error and returns [None], the same value as for an
    absent [boxes] container. With debug mode off the empty result is
    returned and differs from the [None] of the absent container. *)
Theorem zero_predictions_conflated_in_debug_mode
    zero absent image ct iou clock names rest names' rest' w :
  zero image ct iou
  = Ultralytics.Returns (Ultralytics.mkResults (Some []) names :: rest) ->
  absent image ct iou
  = Ultralytics.Returns (Ultralytics.mkResults None names' :: rest') ->
  run (run_inference zero image ct iou true clock) w = Ok None
  /\ run (run_inference zero image ct iou true clock) w
     = run (run_inference absent image ct iou true clock) w
  /\ In (st_error_inference ValueError)
        (screen (after (run_inference zero image ct iou true clock) w))
  /\ run (run_inference zero image ct iou false clock) w
     = Ok (Some empty_result)
  /\ run (run_inference absent image ct iou false clock) w = Ok None.
Proof.
  intros Hzero Habsent.
  rewrite !(run_inference_absent_boxes _ _ _ _ _ _ _ _ _ Habsent).
  rewrite (run_inference_zero_predictions_quiet _ _ _ _ _ _ _ _ Hzero).
  unfold run, after.
  rewrite (run_inference_zero_predictions_debug _ _ _ _ _ _ _ _ Hzero).
  cbn [fst snd]. repeat split.
  rewrite screen_shows, in_app_iff. right. cbn. tauto.
Qed.

Lemma zero_predictions_conflated_in_debug_mode_witness :
  let zero := constant_model [Ultralytics.mkResults (Some []) []] in
  let absent := constant_model [Ultralytics.mkResults None []] in
  let infer model debug_mode :=
    run_inference model 0 (1 # 4)%Q (45 # 100)%Q debug_mode (0%Q, 0%Q) in
  run (infer zero true) fresh_world = Ok None
  /\ run (infer zero true) fresh_world = run (infer absent true) fresh_world
  /\ In (st_error_inference ValueError)
        (screen (after (infer zero true) fresh_world))
  /\ run (infer zero false) fresh_world = Ok (Some empty_result)
  /\ run (infer absent false) fresh_world = Ok None.
Proof.
  exact (zero_predictions_conflated_in_debug_mode
           (constant_model [Ultralytics.mkResults (Some []) []])
           (constant_model [Ultralytics.mkResults None []])
           0 (1 # 4)%Q (45 # 100)%Q (0%Q, 0%Q) [] [] [] [] fresh_world
           eq_refl eq_refl).
Defined.

(** (C7, as stated, fails) The same raw predictions normalised twice in
    debug mode give results that differ in [inference_time], which records
    the wall-clock duration of each run (here 1 s and 2 s). *)
Lemma inference_time_differs_between_runs :
  let infer clock :=
    run_inference (constant_model (one_result person_0_9)) 0
      (1 # 4)%Q (45 # 100)%Q true clock in
  exists r1 r2,
    run (infer (0%Q, 1%Q)) fresh_world = Ok (Some r1)
    /\ run (infer (0%Q, 2%Q)) fresh_world = Ok (Some r2)
    /\ inference_time r1 = Some 1000%Q
    /\ inference_time r2 = Some 2000%Q
    /\ r1 <> r2.
Proof.
  cbv zeta. do 2 eexists.
  split; [reflexivity|]. split; [reflexivity|].
  split; [reflexivity|]. split; [reflexivity|].
  intros E. apply (f_equal inference_time) in E. discriminate E.
Qed.

(** (C7, amended) In every result of [run_inference] each class name is the
    table entry at its class id (Python indexing into the 80-entry table),
    and two normalisations of the same raw predictions, whatever the clock,
    the debug flag, the world, the image and the thresholds, agree on boxes,
    scores, class ids and class names; the two results are equal as a whole
    when the debug flag is the same and, in debug mode, the clock readings
    are the same too. *)
Theorem class_names_resolved_and_items_deterministic
    model image ct iou debug_mode clock w
    model' image' ct' iou' debug_mode' clock' w'
    raw names rest names' rest' r r' :
  model image ct iou
  = Ultralytics.Returns (Ultralytics.mkResults (Some raw) names :: rest) ->
  model' image' ct' iou'
  = Ultralytics.Returns (Ultralytics.mkResults (Some raw) names' :: rest') ->
  run (run_inference model image ct iou debug_mode clock) w = Ok (Some r) ->
  run (run_inference model' image' ct' iou' debug_mode' clock') w'
  = Ok (Some r') ->
  length get_coco_classes = 80
  /\ Forall2 (fun class_id class_name =>
                py_getitem get_coco_classes class_id = Ok class_name)
       (class_ids r) (class_names r)
  /\ boxes r = boxes r' /\ scores r = scores r'
  /\ class_ids r = class_ids r' /\ class_names r = class_names r'
  /\ (debug_mode = debug_mode' ->
      (debug_mode = true -> clock = clock') -> r = r').
Proof.
  intros Hm Hm' Hr Hr'.
  destruct (run_inference_Some _ _ _ _ clock _ _ _ Hm _ _ _ Hr)
    as (cn & Hcn & ->).
  destruct (run_inference_Some _ _ _ _ clock' _ _ _ Hm' _ _ _ Hr')
    as (cn' & Hcn' & ->).
  assert (cn' = cn) as -> by congruence.
  split; [reflexivity|].
  split; [now apply comprehension_Ok|].
  cbn. repeat split; try reflexivity.
  intros <- Hclock. destruct debug_mode; [|reflexivity].
  now rewrite (Hclock eq_refl).
Qed.

Lemma class_names_resolved_and_items_deterministic_witness :
  let m := constant_model (one_result person_0_9) in
  let r t := mkDetectionResult [sample_box] [(9 # 10)%Q] [0%Z]
               ["person"%string] (Some t) in
  Forall2 (fun class_id class_name =>
             py_getitem get_coco_classes class_id = Ok class_name)
    [0%Z] ["person"%string]
  /\ class_names (r 1000%Q) = class_names (r 2000%Q).
Proof.
  cbv zeta.
  pose proof (class_names_resolved_and_items_deterministic
                (constant_model (one_result person_0_9)) 0
                (1 # 4)%Q (45 # 100)%Q true (0%Q, 1%Q) fresh_world
                (constant_model (one_result person_0_9)) 0
                (1 # 4)%Q (45 # 100)%Q true (0%Q, 2%Q) fresh_world
                person_0_9 [(0%Z, "person"%string)] []
                [(0%Z, "person"%string)] []
                (mkDetectionResult [sample_box] [(9 # 10)%Q] [0%Z]
                   ["person"%string] (Some 1000%Q))
                (mkDetectionResult [sample_box] [(9 # 10)%Q] [0%Z]
                   ["person"%string] (Some 2000%Q))
                eq_refl eq_refl eq_refl eq_refl) as H.
  split; [exact (proj1 (proj2 H)) | exact (proj1 (proj2 (proj2 (proj2 (proj2 (proj2 H))))))].
Defined.

(** (C10) The table is indexed with the raw class id and no range check:
    an id of 80 or more raises [IndexError], so [run_inference] shows the
    error and returns no result; an id in [-80, 0) resolves, by Python's
    negative indexing, to the entry counted from the end of the table, and
    the result is returned with that name. *)
Theorem class_id_indexing_unchecked
    model image ct iou debug_mode clock raw names rest w :
  model image ct iou
  = Ultralytics.Returns (Ultralytics.mkResults (Some raw) names :: rest) ->
  (forall class_id, (80 <= class_id)%Z ->
     py_getitem get_coco_classes class_id = Raise IndexError)
  /\ (forall class_id, (-80 <= class_id < 0)%Z ->
        py_getitem get_coco_classes class_id
        = Ok (nth (Z.to_nat (80 + class_id)) get_coco_classes ""%string))
  /\ (Exists (fun b => 80 <= Ultralytics.cls b)%Z raw ->
      run (run_inference model image ct iou debug_mode clock) w = Ok None
      /\ In (st_error_inference IndexError)
            (screen (after (run_inference model image ct iou debug_mode clock) w)))
  /\ (Forall (fun b => -80 <= Ultralytics.cls b < 80)%Z raw ->
      debug_mode = false \/ raw <> [] ->
      exists r,
        run (run_inference model image ct iou debug_mode clock) w = Ok (Some r)
        /\ class_ids r = map Ultralytics.cls raw
        /\ class_names r
           = map (fun b => nth (table_position (Ultralytics.cls b))
                             get_coco_classes ""%string) raw).
Proof.
  intros Hm. split; [|split; [|split]].
  - intros class_id Hid. apply resolve_out_of_range. lia.
  - intros class_id Hid. rewrite resolve_in_range by lia.
    unfold table_position.
    destruct (class_id <? 0)%Z eqn:Hneg; [reflexivity|].
    apply Z.ltb_ge in Hneg. lia.
  - intros Hbad.
    assert (Hraise : comprehension (py_getitem get_coco_classes)
                       (map Ultralytics.cls raw) = Raise IndexError).
    { apply comprehension_Raise.
      - intros x e. apply py_getitem_only_IndexError.
      - apply Exists_map. eapply Exists_impl; [|exact Hbad].
        intros b Hb. cbn beta. apply resolve_out_of_range. right. exact Hb. }
    assert (Hne : raw <> []) by (intros ->; inversion Hbad).
    unfold run, after. destruct debug_mode.
    + destruct (run_inference_debug_nonempty _ _ _ _ clock _ _ _ Hm w Hne)
        as [calls Hr].
      rewrite Hr, Hraise. cbn. split; [reflexivity|].
      apply in_or_app. right. cbn. tauto.
    + rewrite (run_inference_quiet _ _ _ _ clock _ _ _ Hm), Hraise. cbn.
      split; [reflexivity|]. apply in_or_app. right. cbn. tauto.
  - intros Hids Hmode. eexists. split; [|split].
    + eapply run_inference_in_range; eassumption.
    + reflexivity.
    + reflexivity.
Qed.

Lemma class_id_indexing_unchecked_witness :
  let high := [Ultralytics.mkRawBox sample_box (9 # 10)%Q 80%Z] in
  let negative := [Ultralytics.mkRawBox sample_box (9 # 10)%Q (-1)%Z] in
  let infer raw :=
    run_inference (constant_model (one_result raw)) 0
      (1 # 4)%Q (45 # 100)%Q false (0%Q, 0%Q) in
  run (infer high) fresh_world = Ok None
  /\ exists r, run (infer negative) fresh_world = Ok (Some r)
               /\ class_names r = ["toothbrush"%string].
Proof.
  cbv zeta. split.
  - refine (proj1 (proj1 (proj2 (proj2
      (class_id_indexing_unchecked
         (constant_model (one_result [Ultralytics.mkRawBox sample_box (9 # 10)%Q 80%Z]))
         0 (1 # 4)%Q (45 # 100)%Q false (0%Q, 0%Q)
         [Ultralytics.mkRawBox sample_box (9 # 10)%Q 80%Z]
         [(0%Z, "person"%string)] [] fresh_world eq_refl))) _)).
    constructor. cbn. lia.
  - destruct (proj2 (proj2 (proj2
      (class_id_indexing_unchecked
         (constant_model (one_result [Ultralytics.mkRawBox sample_box (9 # 10)%Q (-1)%Z]))
         0 (1 # 4)%Q (45 # 100)%Q false (0%Q, 0%Q)
         [Ultralytics.mkRawBox sample_box (9 # 10)%Q (-1)%Z]
         [(0%Z, "person"%string)] [] fresh_world eq_refl)))
      ltac:(repeat constructor; cbn; lia) (or_introl eq_refl))
      as (r & Hr & _ & Hn).
    exists r. split; [exact Hr | exact Hn].
Defined.

(** ** Colours of the renderer *)

Lemma colors_length : length colors = 10.
Proof. reflexivity. Qed.

Lemma palette_lookup i :
  py_getitem colors (Z.of_nat i mod Z.of_nat (length colors))
  = Ok (nth (i mod 10) colors ""%string).
Proof.
  rewrite colors_length.
  rewrite py_getitem_within with (d := ""%string).
  - rewrite <- Nat2Z.inj_mod, Nat2Z.id. reflexivity.
  - rewrite colors_length. apply Z.mod_pos_bound. lia.
Qed.

Lemma ordered_dec box : {ordered box} + {~ ordered box}.
Proof.
  unfold ordered.
  destruct (Qlt_le_dec (x2 box) (x1 box)) as [Hx|Hx].
  - right. intros [H _]. exact (Qlt_not_le _ _ Hx H).
  - destruct (Qlt_le_dec (y2 box) (y1 box)) as [Hy|Hy].
    + right. intros [_ H]. exact (Qlt_not_le _ _ Hy H).
    + left. now split.
Qed.

Lemma rectangle_ordered box : ordered box -> rectangle box = Ok tt.
Proof.
  intros [Hx Hy]. unfold rectangle.
  apply Qle_bool_iff in Hx. apply Qle_bool_iff in Hy. now rewrite Hx, Hy.
Qed.

Lemma rectangle_reversed box : ~ ordered box -> rectangle box = Raise ValueError.
Proof.
  intros Hn. unfold rectangle.
  destruct (Qle_bool (x1 box) (x2 box)) eqn:Hx; [|reflexivity].
  destruct (Qle_bool (y1 box) (y2 box)) eqn:Hy; [|reflexivity].
  exfalso. apply Hn. split; now apply Qle_bool_iff.
Qed.

Lemma textbbox_truetype f : f <> DefaultBitmap -> textbbox f = Ok tt.
Proof. destruct f; [reflexivity | reflexivity | intros H; now contradiction H]. Qed.

Lemma draw_item_Ok f i box score class_name :
  ordered box -> f <> DefaultBitmap ->
  draw_item f (i, (box, score, class_name))
  = Ok (item_calls f (i, (box, score, class_name))).
Proof.
  intros Hbox Hf. unfold draw_item.
  now rewrite palette_lookup, (rectangle_ordered _ Hbox), (textbbox_truetype _ Hf).
Qed.

Lemma draw_item_reversed f i box score class_name :
  ~ ordered box ->
  draw_item f (i, (box, score, class_name)) = Raise ValueError.
Proof.
  intros Hbox. unfold draw_item.
  now rewrite palette_lookup, (rectangle_reversed _ Hbox).
Qed.

Lemma draw_item_bitmap i box score class_name :
  draw_item DefaultBitmap (i, (box, score, class_name)) = Raise ValueError.
Proof.
  unfold draw_item. rewrite palette_lookup.
  destruct (ordered_dec box) as [Hbox|Hbox].
  - now rewrite (rectangle_ordered _ Hbox).
  - now rewrite (rectangle_reversed _ Hbox).
Qed.

(** The drawing loop either completes every turn or stops with the
    [ValueError] of the first turn that fails. *)
Lemma draw_all_outcome f (items : list (Box * Q * string)) k :
  (Forall (fun item => ordered (fst (fst item))) items
   /\ (items = [] \/ f <> DefaultBitmap)
   /\ comprehension (draw_item f) (enumerate_from k items)
      = Ok (map (item_calls f) (enumerate_from k items)))
  \/ ((~ Forall (fun item => ordered (fst (fst item))) items
       \/ (items <> [] /\ f = DefaultBitmap))
      /\ comprehension (draw_item f) (enumerate_from k items)
         = Raise ValueError).
Proof.
  revert k. induction items as [|[[box score] class_name] items IH]; intros k.
  - left. split; [constructor|]. split; [now left | reflexivity].
  - cbn [enumerate_from comprehension map].
    destruct f eqn:Hf.
    3:{ right. split; [right; split; [discriminate | reflexivity]|].
        now rewrite draw_item_bitmap. }
    all: rewrite <- Hf in *;
      assert (Hfont : f <> DefaultBitmap) by (rewrite Hf; discriminate).
    all: destruct (ordered_dec box) as [Hbox|Hbox].
    all: try (right; split;
              [left; intros HF; inversion HF; subst; now apply Hbox
              | now rewrite draw_item_reversed]).
    all: rewrite (draw_item_Ok _ _ _ _ _ Hbox Hfont).
    all: destruct (IH (S k)) as [(HF & _ & ->) | ([HnF | [_ Hbit]] & ->)].
    all: try (left; split; [now constructor|]; split; [now right | reflexivity]).
    all: try (right; split; [|reflexivity]; left; intros HF; inversion HF;
              subst; now apply HnF).
    all: exfalso; now apply Hfont.
Qed.

Lemma draw_all_Some f (items : list (Box * Q * string)) k calls :
  comprehension (draw_item f) (enumerate_from k items) = Ok calls ->
  calls = map (item_calls f) (enumerate_from k items).
Proof.
  intros Hc.
  destruct (draw_all_outcome f items k) as [(_ & _ & E) | (_ & E)];
    rewrite E in Hc; [now injection Hc | discriminate].
Qed.

Lemma item_calls_colors f (items : list (Box * Q * string)) k :
  box_colors (concat (map (item_calls f) (enumerate_from k items)))
  = map (fun i => nth (i mod 10) colors ""%string) (seq k (length items)).
Proof.
  revert k. induction items as [|[[box score] class_name] items IH]; intros k.
  - reflexivity.
  - cbn [enumerate_from map item_calls concat app box_colors length seq].
    now rewrite IH.
Qed.

Lemma zip3_length {A B C : Type} (a : list A) (b : list B) (c : list C) :
  length (zip3 a b c) = Nat.min (Nat.min (length a) (length b)) (length c).
Proof. unfold zip3. now rewrite !length_combine. Qed.

Lemma zip3_firsts {A B C : Type} (a : list A) (b : list B) (c : list C) :
  map (fun item => fst (fst item)) (zip3 a b c)
  = firstn (Nat.min (Nat.min (length a) (length b)) (length c)) a.
Proof.
  unfold zip3. revert b c.
  induction a as [|x a IH]; intros [|y b] [|z c];
    cbn [length Nat.min combine map fst firstn]; try reflexivity.
  now rewrite IH.
Qed.

Lemma zip3_visited_boxes r :
  Forall (fun item : Box * Q * string => ordered (fst (fst item)))
    (zip3 (boxes r) (scores r) (class_names r))
  <-> Forall ordered (visited_boxes r).
Proof.
  unfold visited_boxes, item_count. rewrite <- zip3_firsts.
  rewrite Forall_map. reflexivity.
Qed.

(** [create_visualization], evaluated: the copy, then the loop. *)
Lemma create_visualization_eval pil image r debug_mode w :
  create_visualization pil image r debug_mode w
  = let before := if debug_mode then [st_write_header 3] else [] in
    let failed e :=
      (Ok None,
       shows w (before ++ st_error_visualization e
                  :: if debug_mode then [st_write_error_detail e] else [])) in
    match image_load pil image with
    | Raise e => failed e
    | Ok _ =>
        match comprehension (draw_item (load_font pil))
                (enumerate (zip3 (boxes r) (scores r) (class_names r))) with
        | Raise e => failed e
        | Ok calls =>
            (Ok (Some (mkAnnotated image (concat calls))),
             shows w (if debug_mode
                      then [st_write_header 3; st_write_header 4] else []))
        end
    end.
Proof.
  unfold create_visualization, try_except. cbv zeta.
  destruct debug_mode; cbn [when app].
  - rewrite bind_st. unfold bind at 1. unfold lift at 1.
    destruct (image_load pil image) as [[]|e].
    + unfold bind at 1. unfold lift at 1.
      destruct (comprehension _ _) as [calls|e].
      * rewrite bind_st. unfold ret. now rewrite shows_shows.
      * rewrite !bind_st. unfold ret. now rewrite !shows_shows.
    + rewrite !bind_st. unfold ret. now rewrite !shows_shows.
  - unfold bind at 1. unfold ret at 1. unfold bind at 1. unfold lift at 1.
    destruct (image_load pil image) as [[]|e].
    + unfold bind at 1. unfold lift at 1.
      destruct (comprehension _ _) as [calls|e].
      * unfold bind, ret. now rewrite shows_nil.
      * rewrite bind_st. unfold bind, ret. reflexivity.
    + rewrite bind_st. unfold bind, ret. reflexivity.
Qed.

(** What a returned image was drawn with. *)
Lemma create_visualization_Some pil image r debug_mode w annotated :
  run (create_visualization pil image r debug_mode) w = Ok (Some annotated) ->
  annotated
  = mkAnnotated image
      (concat (map (item_calls (load_font pil))
                 (enumerate (zip3 (boxes r) (scores r) (class_names r))))).
Proof.
  unfold run. rewrite create_visualization_eval. cbv zeta.
  destruct (image_load pil image) as [[]|e]; [|discriminate].
  destruct (comprehension _ _) as [calls|e] eqn:Hc; [|discriminate].
  cbn [fst]. intros E. injection E as <-.
  now rewrite (draw_all_Some _ _ _ _ Hc).
Qed.

Lemma create_visualization_colors pil image r debug_mode w annotated :
  run (create_visualization pil image r debug_mode) w = Ok (Some annotated) ->
  box_colors (drawn annotated) = palette_cycle (item_count r).
Proof.
  intros Hrun. rewrite (create_visualization_Some _ _ _ _ _ _ Hrun).
  cbn [drawn]. unfold enumerate.
  now rewrite item_calls_colors, zip3_length.
Qed.

(** A readable image, ordered boxes and a font that can be measured are
    enough for the loop to complete. *)
Lemma create_visualization_ordered pil image r debug_mode w :
  image_load pil image = Ok tt ->
  Forall ordered (visited_boxes r) ->
  item_count r = 0 \/ load_font pil <> DefaultBitmap ->
  create_visualization pil image r debug_mode w
  = (Ok (Some (mkAnnotated image
                 (concat (map (item_calls (load_font pil))
                            (enumerate (zip3 (boxes r) (scores r)
                                          (class_names r))))))),
     shows w (if debug_mode then [st_write_header 3; st_write_header 4] else [])).
Proof.
  intros Hload Hboxes Hfont.
  rewrite create_visualization_eval. cbv zeta. rewrite Hload. unfold enumerate.
  destruct (draw_all_outcome (load_font pil)
              (zip3 (boxes r) (scores r) (class_names r)) 0)
    as [(_ & _ & ->) | ([HnF | [Hne Hbit]] & _)].
  - reflexivity.
  - exfalso. apply HnF. now apply zip3_visited_boxes.
  - exfalso. destruct Hfont as [Hzero | Hfont]; [|now apply Hfont].
    apply Hne. apply length_zero_iff_nil. now rewrite zip3_length.
Qed.

(** A reversed box among those visited, or a bitmap font with at least one
    item, ends the loop in the error branch. *)
Lemma create_visualization_fails pil image r debug_mode w :
  image_load pil image = Ok tt ->
  ~ Forall ordered (visited_boxes r)
  \/ (0 < item_count r /\ load_font pil = DefaultBitmap) ->
  create_visualization pil image r debug_mode w
  = (Ok None,
     shows w ((if debug_mode then [st_write_header 3] else [])
                ++ st_error_visualization ValueError
                :: if debug_mode then [st_write_error_detail ValueError] else [])).
Proof.
  intros Hload Hbad.
  rewrite create_visualization_eval. cbv zeta. rewrite Hload. unfold enumerate.
  destruct (draw_all_outcome (load_font pil)
              (zip3 (boxes r) (scores r) (class_names r)) 0)
    as [(HF & Hfont & _) | (_ & ->)]; [exfalso | reflexivity].
  destruct Hbad as [HnF | [Hpos Hbit]].
  - apply HnF. now apply zip3_visited_boxes.
  - destruct Hfont as [Hnil | Hfont]; [|now apply Hfont].
    pose proof (zip3_length (boxes r) (scores r) (class_names r)) as Hlen.
    rewrite Hnil in Hlen. cbn [length] in Hlen. unfold item_count in Hpos. lia.
Qed.

(** (C9) Whenever [create_visualization] returns an image, the colour of the
    box drawn for the item at position [i] is entry [i mod 10] of the fixed
    palette: the colours are those of the palette walked cyclically over the
    positions and depend on nothing but the number of items, so not on class
    ids, names, scores, boxes, font, image or world, and two renderings
    colour every position alike. An image is returned for every result
    whose boxes are ordered, given a readable image and a font that can be
    measured. *)
Theorem box_color_by_position pil image r debug_mode w :
  (forall annotated,
      run (create_visualization pil image r debug_mode) w = Ok (Some annotated) ->
      source annotated = image
      /\ box_colors (drawn annotated) = palette_cycle (item_count r)
      /\ (forall i, i < item_count r ->
            nth_error (box_colors (drawn annotated)) i
            = nth_error colors (i mod 10)))
  /\ (image_load pil image = Ok tt ->
      Forall ordered (visited_boxes r) ->
      load_font pil <> DefaultBitmap ->
      exists annotated,
        run (create_visualization pil image r debug_mode) w = Ok (Some annotated))
  /\ (forall pil' image' r' debug_mode' w' annotated annotated',
        item_count r' = item_count r ->
        run (create_visualization pil image r debug_mode) w = Ok (Some annotated) ->
        run (create_visualization pil' image' r' debug_mode') w'
        = Ok (Some annotated') ->
        box_colors (drawn annotated') = box_colors (drawn annotated)).
Proof.
  split; [|split].
  - intros annotated Hrun.
    pose proof (create_visualization_colors _ _ _ _ _ _ Hrun) as Hcol.
    split; [now rewrite (create_visualization_Some _ _ _ _ _ _ Hrun)|].
    split; [exact Hcol|].
    intros i Hi. rewrite Hcol. unfold palette_cycle.
    rewrite nth_error_map, nth_error_seq.
    apply Nat.ltb_lt in Hi. rewrite Hi. cbn [option_map Nat.add].
    symmetry. apply nth_error_nth'. rewrite colors_length.
    apply Nat.mod_upper_bound. lia.
  - intros Hload Hboxes Hfont. eexists. unfold run.
    rewrite (create_visualization_ordered _ _ _ _ _ Hload Hboxes
               (or_intror Hfont)).
    reflexivity.
  - intros pil' image' r' debug_mode' w' annotated annotated' Hn Hrun Hrun'.
    rewrite (create_visualization_colors _ _ _ _ _ _ Hrun).
    rewrite (create_visualization_colors _ _ _ _ _ _ Hrun').
    now rewrite Hn.
Qed.

Lemma box_color_by_position_witness :
  exists annotated,
    run (create_visualization pillow_with_arial 7 dog_cat_result false)
      fresh_world = Ok (Some annotated)
    /\ box_colors (drawn annotated) = ["#FF0000"; "#00FF00"]%string.
Proof.
  destruct (box_color_by_position pillow_with_arial 7 dog_cat_result false
              fresh_world) as (Hcolors & Hreturns & _).
  destruct Hreturns as [annotated Hrun].
  - reflexivity.
  - repeat constructor; unfold Qle; cbn; lia.
  - discriminate.
  - exists annotated. split; [exact Hrun|].
    destruct (Hcolors annotated Hrun) as (_ & Hcol & _). exact Hcol.
Defined.

(** ** Dicts *)

Section DictFacts.
Context {K : Type} `{KeyEq K}.
Implicit Types (d : dict K nat) (k : K).

Lemma dict_contains_keys d k :
dict_contains d k = existsb (fun k' => keqb k' k) (dict_keys d).
Proof.
induction d as [|[k' v] d IH]; cbn; [reflexivity|]. now rewrite IH.
Qed.

Lemma dict_lookup_contains d k :
dict_contains d k = true -> exists v, dict_lookup d k = Ok v.
Proof.
induction d as [|[k' v] d IH]; cbn; [discriminate|].
destruct (keqb k' k); cbn; [now exists v | exact IH].
Qed.

Lemma dict_get_absent d k default :
dict_contains d k = false -> dict_get d k default = default.
Proof.
unfold dict_get. induction d as [|[k' v] d IH]; cbn; [reflexivity|].
destruct (keqb k' k); cbn; [discriminate | exact IH].
Qed.

Lemma dict_get_present d k v default :
dict_lookup d k = Ok v -> dict_get d k default = v.
Proof. unfold dict_get. now intros ->. Qed.

Lemma dict_lookup_absent d k :
dict_contains d k = false -> dict_lookup d k = Raise KeyError.
Proof.
induction d as [|[k' v] d IH]; cbn; [reflexivity|].
destruct (keqb k' k); cbn; [discriminate | exact IH].
Qed.

(** Storing under a new key appends it. *)
Lemma dict_store_new d k v :
dict_contains d k = false ->
dict_store d k v = d ++ [(k, v)].
Proof.
induction d as [|[k' v'] d IH]; cbn; [reflexivity|].
destruct (keqb k' k); cbn; [discriminate|].
intros Hn. now rewrite IH.
Qed.

(** Storing under a present key keeps every key in place. *)
Lemma dict_store_keys d k v :
dict_contains d k = true ->
dict_keys (dict_store d k v) = dict_keys d.
Proof.
induction d as [|[k' v'] d IH]; cbn; [discriminate|].
destruct (keqb k' k); cbn; [reflexivity|].
intros Hc. unfold dict_keys in IH. now rewrite IH.
Qed.

Lemma dict_store_sum d k v v' :
dict_lookup d k = Ok v ->
list_sum (dict_values (dict_store d k v')) + v
= list_sum (dict_values d) + v'.
Proof.
induction d as [|[k' v0] d IH]; cbn; [discriminate|].
destruct (keqb k' k); unfold dict_values, list_sum in *; cbn.
- intros E. injection E as ->. lia.
- intros E. specialize (IH E). lia.
Qed.

Lemma dict_values_app d d' :
list_sum (dict_values (d ++ d')) = list_sum (dict_values d) + list_sum (dict_values d').
Proof. unfold dict_values. now rewrite map_app, list_sum_app. Qed.
End DictFacts.

(** ** The counting loops *)

Lemma seen_step_dict (d : dict string nat) (n : string) :
  seen_step (dict_keys d) n
  = if dict_contains d n then dict_keys d else dict_keys d ++ [n].
Proof. unfold seen_step. now rewrite (dict_contains_keys d n). Qed.

(** [ResultsManager]: the loop never raises, both dicts keep the same keys,
    the keys come in order of first appearance and every name read adds one
    to the total. *)
Lemma count_loop_spec class_names unique_classes counts :
  dict_keys unique_classes = dict_keys counts ->
  exists unique_classes' counts',
    count_loop class_names (unique_classes, counts)
    = Ok (unique_classes', counts')
    /\ dict_keys unique_classes' = dict_keys counts'
    /\ dict_keys counts' = fold_left seen_step class_names (dict_keys counts)
    /\ list_sum (dict_values counts')
       = list_sum (dict_values counts) + length class_names.
Proof.
  revert unique_classes counts.
  induction class_names as [|n rest IH]; intros u c Hkeys.
  - exists u, c. cbn. repeat split; auto.
  - cbn [count_loop count_step].
    assert (Hsame : dict_contains u n = dict_contains c n)
      by (now rewrite !dict_contains_keys, Hkeys).
    destruct (dict_contains u n) eqn:Hu.
    + destruct (dict_lookup_contains c n (eq_sym Hsame)) as [v Hv].
      rewrite Hv.
      destruct (IH u (dict_store c n (v + 1))) as (u' & c' & Hl & Hk & Hs & Hsum).
      { now rewrite dict_store_keys. }
      exists u', c'. repeat split; auto.
      * rewrite Hs, dict_store_keys by auto. cbn [fold_left].
        now rewrite seen_step_dict, <- Hsame.
      * rewrite Hsum. pose proof (dict_store_sum c n v (v + 1) Hv). cbn [length]. lia.
    + destruct (IH (dict_store u n (length u)) (dict_store c n 1))
        as (u' & c' & Hl & Hk & Hs & Hsum).
      { rewrite !dict_store_new by congruence.
        unfold dict_keys in *. rewrite !map_app. cbn. now rewrite Hkeys. }
      exists u', c'. repeat split; auto.
      * rewrite Hs, dict_store_new by congruence. cbn [fold_left].
        rewrite seen_step_dict, <- Hsame.
        unfold dict_keys. now rewrite map_app.
      * rewrite Hsum, dict_store_new, dict_values_app by congruence.
        cbn. lia.
Qed.

(** [YOLOApp]: the same facts for the [class_counts] loop, as long as the
    model's [names] dict knows every class id. *)
Lemma class_counts_loop_spec names raw class_counts class_names :
  comprehension (dict_lookup names) (map Ultralytics.cls raw) = Ok class_names ->
  exists class_counts',
    class_counts_loop names raw class_counts = Ok class_counts'
    /\ dict_keys class_counts'
       = fold_left seen_step class_names (dict_keys class_counts)
    /\ list_sum (dict_values class_counts')
       = list_sum (dict_values class_counts) + length raw.
Proof.
  revert class_counts class_names.
  induction raw as [|b raw IH]; intros cc class_names Hres.
  - cbn in Hres. injection Hres as <-. exists cc. cbn. repeat split; auto.
  - cbn [map comprehension] in Hres. cbn [class_counts_loop].
    destruct (dict_lookup names (Ultralytics.cls b)) as [n|e]; [|discriminate].
    destruct (comprehension _ _) as [ns|e] eqn:Hns; [|discriminate].
    injection Hres as <-.
    destruct (IH (dict_store cc n (dict_get cc n 0 + 1)) ns eq_refl)
      as (cc' & Hl & Hk & Hsum).
    exists cc'. split; [exact Hl|]. cbn [fold_left length].
    destruct (dict_contains cc n) eqn:Hc.
    + destruct (dict_lookup_contains cc n Hc) as [v Hv].
      rewrite (dict_get_present cc n v 0 Hv) in *.
      rewrite dict_store_keys in Hk by exact Hc.
      split.
      * now rewrite Hk, seen_step_dict, Hc.
      * rewrite Hsum. pose proof (dict_store_sum cc n v (v + 1) Hv). lia.
    + rewrite (dict_get_absent cc n 0 Hc) in *.
      rewrite dict_store_new in Hk, Hsum by exact Hc.
      split.
      * rewrite Hk, seen_step_dict, Hc.
        unfold dict_keys. now rewrite map_app.
      * rewrite Hsum, dict_values_app. cbn. lia.
Qed.

(** ** What the display functions show *)

Lemma for_each_calls {A : Type} (body : A -> Py unit) (f : A -> st_call) xs w :
  (forall x w', body x w' = st (f x) w') ->
  for_each xs body w = (Ok tt, shows w (map f xs)).
Proof.
  intros E. rewrite <- for_each_st. now apply for_each_ext.
Qed.

Lemma displayed_classes_app a b :
  displayed_classes (a ++ b) = displayed_classes a ++ displayed_classes b.
Proof.
  induction a as [|c a IH]; [reflexivity|].
  destruct c; cbn; now rewrite IH.
Qed.

Lemma displayed_classes_write items :
  displayed_classes (map (fun '(n, c) => st_write_class n c) items) = items.
Proof.
  induction items as [|[n c] items IH]; cbn; [reflexivity | now rewrite IH].
Qed.

Lemma displayed_classes_markdown items :
  displayed_classes (map (fun '(n, c) => st_markdown_class n c) items) = items.
Proof.
  induction items as [|[n c] items IH]; cbn; [reflexivity | now rewrite IH].
Qed.

Lemma displayed_classes_details (items : list (nat * (Box * Q * string))) :
  displayed_classes
    (map (fun '(i, (box, score, class_name)) =>
            st_write_detail (i + 1) class_name score box) items) = [].
Proof.
  induction items as [|[i [[box score] class_name]] items IH]; cbn; auto.
Qed.

(** [ResultsManager.display_detection_results] on a result with at least
    one score. *)
Lemma display_detection_results_shows r debug_mode w :
  scores r <> [] ->
  exists unique_classes counts pre,
    count_loop (class_names r) (empty, empty) = Ok (unique_classes, counts)
    /\ display_detection_results (Some r) debug_mode w
       = (Ok tt,
          shows w (st_subheader 1
                   :: st_metric ObjectCount (Int (length (boxes r)))
                   :: pre ++ map (fun '(n, c) => st_write_class n c) counts))
    /\ displayed_classes pre = [].
Proof.
  intros Hne.
  destruct (count_loop_spec (class_names r) empty empty eq_refl)
    as (u & c & Hloop & _).
  set (time_calls := match truthy_time (inference_time r) with
                     | Some t => [st_metric InferenceTime (Fmt 1 (Num t))]
                     | None => []
                     end).
  set (details := if debug_mode
                  then st_write_header 5
                       :: map (fun '(i, (box, score, class_name)) =>
                                 st_write_detail (i + 1) class_name score box)
                            (enumerate (zip3 (boxes r) (scores r) (class_names r)))
                  else []).
  assert (Htime : forall w',
            match truthy_time (inference_time r) with
            | Some t => st (st_metric InferenceTime (Fmt 1 (Num t)))
            | None => ret tt
            end w' = (Ok tt, shows w' time_calls)).
  { intros w'. subst time_calls. destruct (truthy_time _).
    - apply st_shows.
    - unfold ret. now rewrite shows_nil. }
  assert (Hdet : forall w',
            when debug_mode
              (bind (st (st_write_header 5))
                 (fun _ =>
                    for_each (enumerate (zip3 (boxes r) (scores r) (class_names r)))
                      (fun '(i, (box, score, class_name)) =>
                         st (st_write_detail (i + 1) class_name score box))))
              w'
            = (Ok tt, shows w' details)).
  { intros w'. subst details. destruct debug_mode; cbn [when].
    - rewrite bind_st.
      rewrite for_each_calls
        with (f := fun '(i, (box, score, class_name)) =>
                     st_write_detail (i + 1) class_name score box).
      + now rewrite shows_shows.
      + now intros [i [[box score] class_name]] w''.
    - unfold ret. now rewrite shows_nil. }
  destruct (py_mean (scores r)) as [mean|e] eqn:Hmean.
  2:{ destruct (scores r); [congruence | discriminate]. }
  exists u, c,
    (st_metric MeanConfidence (Fmt 3 (Num mean))
     :: time_calls ++ details ++ [st_write_header 2]).
  split; [exact Hloop|]. split.
  - unfold display_detection_results. cbv zeta.
    rewrite !bind_st, Hmean, bind_Ok, bind_st.
    rewrite (bind_eq _ _ _ _ _ (Htime _)). cbv beta.
    rewrite (bind_eq _ _ _ _ _ (Hdet _)). cbv beta.
    rewrite Hloop, bind_Ok, bind_st. cbn [snd dict_items].
    rewrite for_each_st2, !shows_shows.
    cbn [app]. now rewrite <- !app_assoc.
  - cbn [displayed_classes]. rewrite !displayed_classes_app.
    subst time_calls details.
    destruct (truthy_time _), debug_mode; cbn [displayed_classes app];
      now rewrite ?displayed_classes_details.
Qed.

(** On a result without scores the mean divides by zero. *)
Lemma display_detection_results_empty r debug_mode w :
  scores r = [] ->
  display_detection_results (Some r) debug_mode w
  = (Raise ZeroDivisionError,
     shows w [st_subheader 1; st_metric ObjectCount (Int (length (boxes r)))]).
Proof.
  intros Hs. unfold display_detection_results, bind, lift.
  rewrite !st_shows, Hs. cbn [py_mean]. now rewrite shows_shows.
Qed.

(** [YOLODebugInfo.display_detection_stats] on a result without scores:
    the mean is shown as [nan], then [np.max] raises. *)
Lemma display_detection_stats_empty r w :
  scores r = [] ->
  display_detection_stats (Some r) w
  = (Raise ValueError,
     shows w [st_subheader 2; st_metric ObjectCount (Int (length (boxes r)));
              st_metric MeanConfidence (Fmt 3 NaN)]).
Proof.
  intros Hs. unfold display_detection_stats, bind, lift.
  rewrite !st_shows, Hs. cbn [np_max np_mean]. now rewrite !shows_shows.
Qed.

(** [YOLODebugInfo.display_detection_stats] on a result with at least one
    score: the class lines are those of [np.unique]. *)
Lemma display_detection_stats_shows r w :
  scores r <> [] ->
  exists pre post,
    display_detection_stats (Some r) w
    = (Ok tt,
       shows w (pre ++ map (fun '(n, c) => st_write_class n c)
                         (np_unique (class_names r)) ++ post))
    /\ displayed_classes pre = [] /\ displayed_classes post = [].
Proof.
  intros Hne.
  destruct (scores r) as [|s ss] eqn:Hs; [congruence|].
  set (time_calls := match truthy_time (inference_time r) with
                     | Some t => [st_metric InferenceTime (Fmt 1 (Num t))]
                     | None => []
                     end).
  assert (Htime : forall w',
            match truthy_time (inference_time r) with
            | Some t => st (st_metric InferenceTime (Fmt 1 (Num t)))
            | None => ret tt
            end w' = (Ok tt, shows w' time_calls)).
  { intros w'. subst time_calls. destruct (truthy_time _).
    - apply st_shows.
    - unfold ret. now rewrite shows_nil. }
  exists ([st_subheader 2; st_metric ObjectCount (Int (length (boxes r)));
           st_metric MeanConfidence (Fmt 3 (np_mean (s :: ss)));
           st_metric MaxConfidence (Fmt 3 (Num (fold_left Qmax ss s)));
           st_metric MinConfidence (Fmt 3 (Num (fold_left Qmin ss s)));
           st_metric UniqueClasses (Int (distinct_count (class_names r)))]
          ++ time_calls ++ [st_write_header 2]),
         [st_write_header 6; st_pyplot_hist (s :: ss)].
  split; [|split].
  - unfold display_detection_stats. cbv zeta. rewrite Hs.
    rewrite !bind_st. cbn [np_max np_min].
    rewrite bind_Ok, bind_st, bind_Ok, !bind_st.
    rewrite (bind_eq _ _ _ _ _ (Htime _)). cbv beta.
    rewrite bind_st.
    rewrite (bind_eq _ _ _ _ _ (for_each_st2 _ _ _)). cbv beta.
    cbn [length Nat.ltb Nat.leb when]. rewrite bind_st, st_shows, !shows_shows.
    cbn [app]. now rewrite <- !app_assoc.
  - rewrite !displayed_classes_app. subst time_calls.
    destruct (truthy_time _); reflexivity.
  - reflexivity.
Qed.

(** [YOLOApp._display_detection_statistics] without boxes: the three
    confidence metrics read "N/A" and no class line is written. *)
Lemma _display_detection_statistics_no_boxes w results :
  detection_results (session_state w) = Some results ->
  has_boxes results = None ->
  _display_detection_statistics w
  = (Ok tt,
     shows w [st_metric ObjectCount (Int 0);
              st_metric MeanConfidence NA;
              st_metric MaxConfidence NA;
              st_metric MinConfidence NA]).
Proof.
  intros Hres Hnone.
  assert (Hlen : match Ultralytics.boxes results with
                 | Some boxes => length boxes
                 | None => 0
                 end = 0).
  { unfold has_boxes in Hnone.
    destruct (Ultralytics.boxes results) as [[|b bs]|]; [reflexivity | discriminate | reflexivity]. }
  unfold _display_detection_statistics, get_session.
  unfold bind at 1. rewrite Hres, Hlen.
  unfold confidence_metric. rewrite Hnone.
  rewrite !bind_st. unfold ret. now rewrite !shows_shows.
Qed.

(** ... and with boxes whose class ids the model's [names] dict knows. *)
Lemma _display_detection_statistics_boxes w results raw class_names :
  detection_results (session_state w) = Some results ->
  has_boxes results = Some raw ->
  comprehension (dict_lookup (Ultralytics.names results))
    (map Ultralytics.cls raw) = Ok class_names ->
  exists class_counts pre,
    class_counts_loop (Ultralytics.names results) raw empty = Ok class_counts
    /\ _display_detection_statistics w
       = (Ok tt,
          shows w (st_metric ObjectCount (Int (length raw))
                   :: pre ++ map (fun '(n, c) => st_markdown_class n c)
                               (sorted_by_count_reverse class_counts)))
    /\ displayed_classes pre = [].
Proof.
  intros Hres Hsome Hnames.
  destruct (class_counts_loop_spec _ raw empty _ Hnames) as (cc & Hloop & _).
  assert (Hboxes : Ultralytics.boxes results = Some raw).
  { unfold has_boxes in Hsome.
    destruct (Ultralytics.boxes results) as [[|b bs]|]; congruence. }
  exists cc,
    [st_metric MeanConfidence (Fmt 3 (Num (tensor_mean (map Ultralytics.conf raw))));
     st_metric MaxConfidence (Fmt 3 (Num (tensor_max (map Ultralytics.conf raw))));
     st_metric MinConfidence (Fmt 3 (Num (tensor_min (map Ultralytics.conf raw))));
     st_subheader 3].
  split; [exact Hloop|]. split; [|reflexivity].
  unfold _display_detection_statistics, get_session.
  unfold bind at 1. rewrite Hres, Hboxes.
  unfold confidence_metric. rewrite Hsome.
  rewrite !bind_st, Hloop, bind_Ok, for_each_st2, !shows_shows.
  reflexivity.
Qed.

(** ** Sorting by count *)

Lemma insert_desc_sum e l :
  list_sum (map snd (insert_desc e l)) = snd e + list_sum (map snd l).
Proof.
  induction l as [|h t IH]; cbn; [reflexivity|].
  destruct (snd h <=? snd e); cbn; [reflexivity|].
  unfold list_sum in *. rewrite IH. lia.
Qed.

Lemma sorted_by_count_reverse_sum l :
  list_sum (map snd (sorted_by_count_reverse l)) = list_sum (map snd l).
Proof.
  induction l as [|a l IH]; cbn; [reflexivity|].
  rewrite insert_desc_sum. unfold sorted_by_count_reverse, list_sum in *.
  now rewrite IH.
Qed.

Lemma insert_desc_perm e l : Permutation (insert_desc e l) (e :: l).
Proof.
  induction l as [|h t IH]; cbn; [reflexivity|].
  destruct (snd h <=? snd e); [reflexivity|].
  rewrite IH. apply perm_swap.
Qed.

Lemma sorted_by_count_reverse_perm l :
  Permutation (sorted_by_count_reverse l) l.
Proof.
  induction l as [|a l IH]; cbn; [reflexivity|].
  rewrite insert_desc_perm. now constructor.
Qed.

Lemma insert_desc_HdRel a e l :
  count_descending a e -> HdRel count_descending a l ->
  HdRel count_descending a (insert_desc e l).
Proof.
  intros Hae Hal. destruct l as [|h t]; cbn; [now constructor|].
  destruct (snd h <=? snd e); constructor; [assumption|].
  now inversion Hal.
Qed.

Lemma insert_desc_sorted e l :
  Sorted count_descending l -> Sorted count_descending (insert_desc e l).
Proof.
  induction 1 as [|h t Ht IH Hh]; cbn.
  - repeat constructor.
  - destruct (snd h <=? snd e) eqn:Hle.
    + apply Nat.leb_le in Hle. repeat constructor; assumption.
    + apply Nat.leb_gt in Hle. constructor; [exact IH|].
      apply insert_desc_HdRel; [unfold count_descending; lia | exact Hh].
Qed.

Lemma sorted_by_count_reverse_sorted l :
  StronglySorted count_descending (sorted_by_count_reverse l).
Proof.
  apply Sorted_StronglySorted.
  - intros a b c. unfold count_descending. lia.
  - induction l as [|a l IH]; cbn; [constructor|].
    now apply insert_desc_sorted.
Qed.

(** Stability: inserting never moves an entry past another of equal count. *)
Lemma insert_desc_with_count c e l :
  with_count c (insert_desc e l) = with_count c (e :: l).
Proof.
  unfold with_count. induction l as [|h t IH]; cbn; [reflexivity|].
  destruct (snd h <=? snd e) eqn:Hle; cbn; [reflexivity|].
  apply Nat.leb_gt in Hle. rewrite IH. cbn.
  destruct (snd e =? c) eqn:He; [|reflexivity].
  apply Nat.eqb_eq in He.
  destruct (snd h =? c) eqn:Hh; [|reflexivity].
  apply Nat.eqb_eq in Hh. lia.
Qed.

Lemma sorted_by_count_reverse_stable c l :
  with_count c (sorted_by_count_reverse l) = with_count c l.
Proof.
  unfold sorted_by_count_reverse.
  induction l as [|a l IH]; cbn [fold_right]; [reflexivity|].
  rewrite insert_desc_with_count. unfold with_count in *.
  cbn [filter]. now rewrite IH.
Qed.

(** ** [np.unique] *)

Lemma unique_insert_HdRel a name acc :
  String.compare (fst a) name = Lt ->
  HdRel name_ascending a acc ->
  HdRel name_ascending a (unique_insert name acc).
Proof.
  intros Han Hacc. destruct acc as [|[n c] acc]; cbn; [now constructor|].
  destruct (String.compare name n) eqn:Hc; constructor;
    try assumption; now inversion Hacc.
Qed.

Lemma unique_insert_sorted name acc :
  Sorted name_ascending acc -> Sorted name_ascending (unique_insert name acc).
Proof.
  induction 1 as [|[n c] acc Hacc IH Hhd]; cbn.
  - repeat constructor.
  - destruct (String.compare name n) eqn:Hc.
    + constructor; [exact Hacc|].
      destruct Hhd; constructor. assumption.
    + repeat constructor; assumption.
    + constructor; [exact IH|].
      apply unique_insert_HdRel; [|exact Hhd].
      cbn. rewrite String.compare_antisym, Hc. reflexivity.
Qed.

Lemma np_unique_sorted names : Sorted name_ascending (np_unique names).
Proof.
  unfold np_unique.
  assert (G : forall acc, Sorted name_ascending acc ->
              Sorted name_ascending
                (fold_left (fun acc name => unique_insert name acc) names acc)).
  { induction names as [|n names IH]; intros acc Hacc; cbn; [exact Hacc|].
    apply IH. now apply unique_insert_sorted. }
  apply G. constructor.
Qed.

(** ** Statistics of an empty result *)

(** (C4) A result without items makes two of the statistics displays
    raise: [ResultsManager.display_detection_results] divides by
    [len(scores) = 0], and [YOLODebugInfo.display_detection_stats] shows the
    mean as [nan] and then raises in [np.max]. Only
    [YOLOApp._display_detection_statistics] guards the empty case: it shows
    "N/A" three times and no class line. *)
Theorem statistics_of_empty_result r debug_mode w results :
  scores r = [] ->
  detection_results (session_state w) = Some results ->
  has_boxes results = None ->
  run (display_detection_results (Some r) debug_mode) w
  = Raise ZeroDivisionError
  /\ run (display_detection_stats (Some r)) w = Raise ValueError
  /\ In (st_metric MeanConfidence (Fmt 3 NaN))
        (screen (after (display_detection_stats (Some r)) w))
  /\ run _display_detection_statistics w = Ok tt
  /\ screen (after _display_detection_statistics w)
     = screen w ++ [st_metric ObjectCount (Int 0); st_metric MeanConfidence NA;
                    st_metric MaxConfidence NA; st_metric MinConfidence NA].
Proof.
  intros Hs Hres Hnone. unfold run, after.
  rewrite (display_detection_results_empty r debug_mode w Hs).
  rewrite (display_detection_stats_empty r w Hs).
  rewrite (_display_detection_statistics_no_boxes w results Hres Hnone).
  cbn [fst snd]. repeat split.
  rewrite screen_shows, in_app_iff. right. cbn. tauto.
Qed.

Lemma statistics_of_empty_result_witness :
  let stored := world_with (Some (Ultralytics.mkResults (Some []) [])) in
  run (run_inference (constant_model [Ultralytics.mkResults (Some []) []]) 0
         (1 # 4)%Q (45 # 100)%Q false (0%Q, 0%Q)) fresh_world
  = Ok (Some empty_result)
  /\ run (display_detection_results (Some empty_result) false) stored
     = Raise ZeroDivisionError
  /\ run (display_detection_stats (Some empty_result)) stored
     = Raise ValueError
  /\ screen (after _display_detection_statistics stored)
     = [st_metric ObjectCount (Int 0); st_metric MeanConfidence NA;
        st_metric MaxConfidence NA; st_metric MinConfidence NA].
Proof.
  cbv zeta. split; [reflexivity|].
  destruct (statistics_of_empty_result empty_result false
              (world_with (Some (Ultralytics.mkResults (Some []) [])))
              (Ultralytics.mkResults (Some []) [])
              eq_refl eq_refl eq_refl)
    as (Hui & Hstats & _ & _ & Happ).
  split; [exact Hui|]. split; [exact Hstats | exact Happ].
Defined.

(** ** Sum of the per-class counts *)

Lemma run_inference_well_formed model image ct iou debug_mode clock w r :
  run (run_inference model image ct iou debug_mode clock) w = Ok (Some r) ->
  well_formed r.
Proof.
  intros Hr.
  destruct (model image ct iou) as [e | [|[[raw|] names] rest]] eqn:Hm.
  - now rewrite (run_inference_model_raises _ _ _ _ _ _ _ _ Hm) in Hr.
  - now rewrite (run_inference_no_results _ _ _ _ _ _ _ Hm) in Hr.
  - destruct (run_inference_Some _ _ _ _ clock _ _ _ Hm _ _ _ Hr)
      as (cn & Hcn & ->).
    apply comprehension_length in Hcn.
    unfold well_formed. cbn. rewrite Hcn, !length_map. auto.
  - now rewrite (run_inference_absent_boxes _ _ _ _ _ _ _ _ _ Hm) in Hr.
Qed.

(** (C8) For every non-empty result the class lines shown are the items of
    a counts dict whose values add up to the number of items: in
    [ResultsManager.display_detection_results] for any well-formed result,
    in [YOLOApp._display_detection_statistics] for stored boxes whose class
    ids the model's [names] knows (there the lines are the sorted items,
    with the same sum). Neither display raises. *)
Theorem per_class_counts_sum_to_count :
  (forall r debug_mode w,
     well_formed r -> boxes r <> [] ->
     exists unique_classes counts,
       count_loop (class_names r) (empty, empty) = Ok (unique_classes, counts)
       /\ run (display_detection_results (Some r) debug_mode) w = Ok tt
       /\ displayed_classes
            (screen (after (display_detection_results (Some r) debug_mode) w))
          = displayed_classes (screen w) ++ dict_items counts
       /\ list_sum (dict_values counts) = length (boxes r))
  /\ (forall w results raw class_names,
        detection_results (session_state w) = Some results ->
        has_boxes results = Some raw ->
        comprehension (dict_lookup (Ultralytics.names results))
          (map Ultralytics.cls raw) = Ok class_names ->
        exists class_counts,
          class_counts_loop (Ultralytics.names results) raw empty
          = Ok class_counts
          /\ run _display_detection_statistics w = Ok tt
          /\ displayed_classes (screen (after _display_detection_statistics w))
             = displayed_classes (screen w)
               ++ sorted_by_count_reverse (dict_items class_counts)
          /\ list_sum (dict_values class_counts) = length raw
          /\ list_sum (map snd (sorted_by_count_reverse (dict_items class_counts)))
             = length raw).
Proof.
  split.
  - intros r debug_mode w (Hs & _ & Hn) Hne.
    assert (Hscores : scores r <> []).
    { intros E. rewrite E in Hs. destruct (boxes r); [congruence | discriminate]. }
    destruct (display_detection_results_shows r debug_mode w Hscores)
      as (u & c & pre & Hloop & Hshow & Hpre).
    exists u, c. split; [exact Hloop|].
    unfold run, after. rewrite Hshow. cbn [fst snd].
    split; [reflexivity|]. split.
    + rewrite screen_shows. cbn [app].
      rewrite displayed_classes_app. cbn [displayed_classes].
      now rewrite displayed_classes_app, Hpre, displayed_classes_write.
    + destruct (count_loop_spec (class_names r) empty empty eq_refl)
        as (u' & c' & Hloop' & _ & _ & Hsum).
      rewrite Hloop in Hloop'. injection Hloop' as <- <-.
      rewrite Hsum, Hn. reflexivity.
  - intros w results raw class_names Hres Hsome Hnames.
    destruct (_display_detection_statistics_boxes w results raw class_names
                Hres Hsome Hnames) as (cc & pre & Hloop & Hshow & Hpre).
    exists cc. split; [exact Hloop|].
    unfold run, after. rewrite Hshow. cbn [fst snd].
    destruct (class_counts_loop_spec _ raw empty _ Hnames)
      as (cc' & Hloop' & _ & Hsum).
    rewrite Hloop in Hloop'. injection Hloop' as <-.
    split; [reflexivity|]. split; [|split].
    + rewrite screen_shows, displayed_classes_app. cbn [displayed_classes].
      now rewrite displayed_classes_app, Hpre, displayed_classes_markdown.
    + exact Hsum.
    + rewrite sorted_by_count_reverse_sum. exact Hsum.
Qed.

Lemma per_class_counts_sum_to_count_witness :
  (exists unique_classes counts,
     count_loop (class_names dog_cat_result) (empty, empty)
     = Ok (unique_classes, counts)
     /\ list_sum (dict_values counts) = 2)
  /\ (exists class_counts,
        class_counts_loop (Ultralytics.names dog_then_cat)
          [Ultralytics.mkRawBox sample_box (9 # 10)%Q 16%Z;
           Ultralytics.mkRawBox sample_box (8 # 10)%Q 15%Z] empty
        = Ok class_counts
        /\ list_sum (dict_values class_counts) = 2).
Proof.
  destruct per_class_counts_sum_to_count as [Hui Happ]. split.
  - destruct (Hui dog_cat_result false fresh_world)
      as (u & c & Hloop & _ & _ & Hsum).
    + repeat split; reflexivity.
    + discriminate.
    + exists u, c. split; [exact Hloop | exact Hsum].
  - destruct (Happ (world_with (Some dog_then_cat)) dog_then_cat
                [Ultralytics.mkRawBox sample_box (9 # 10)%Q 16%Z;
                 Ultralytics.mkRawBox sample_box (8 # 10)%Q 15%Z]
                ["dog"%string; "cat"%string] eq_refl eq_refl eq_refl)
      as (cc & Hloop & _ & _ & Hsum & _).
    exists cc. split; [exact Hloop | exact Hsum].
Defined.

(** ** Order of the class lines *)

Lemma first_seen_keys class_names unique_classes counts :
  count_loop class_names (empty, empty) = Ok (unique_classes, counts) ->
  dict_keys counts = first_seen class_names.
Proof.
  intros Hloop.
  destruct (count_loop_spec class_names empty empty eq_refl)
    as (u' & c' & Hloop' & _ & Hkeys & _).
  rewrite Hloop in Hloop'. injection Hloop' as <- <-. exact Hkeys.
Qed.

(** (C5, as stated, fails) A dog followed by a cat, one detection each, is
    shown dog first by [YOLOApp._display_detection_statistics] and by
    [ResultsManager.display_detection_results]: the tie is not broken by
    class name. [YOLODebugInfo.display_detection_stats] shows two dogs and a
    cat with the cat first: it does not order by count. *)
Lemma class_lines_not_in_spec_order :
  displayed_classes
    (screen (after _display_detection_statistics (world_with (Some dog_then_cat))))
  = [("dog"%string, 1); ("cat"%string, 1)]
  /\ displayed_classes
       (screen (after (display_detection_results (Some dog_cat_result) false)
                  fresh_world))
     = [("dog"%string, 1); ("cat"%string, 1)]
  /\ displayed_classes
       (screen (after (display_detection_stats (Some cats_and_dog_result))
                  fresh_world))
     = [("cat"%string, 1); ("dog"%string, 2)]
  /\ ~ spec_display_order [("dog"%string, 1); ("cat"%string, 1)]
  /\ ~ spec_display_order [("cat"%string, 1); ("dog"%string, 2)].
Proof.
  split; [reflexivity|]. split; [reflexivity|]. split; [reflexivity|].
  split; intros Hs; inversion Hs as [|a l _ Hhd]; subst;
    inversion Hhd as [|b l' Hp]; subst;
    destruct Hp as [Hlt | [Heq Hle]]; cbn in *; try lia;
    vm_compute in Hle; discriminate.
Qed.

(** (C5, amended) The order of the class lines is fixed by the item
    sequence, differently at each display:
    [YOLOApp._display_detection_statistics] shows the items of
    [class_counts] stably sorted by descending count, so entries of equal
    count stay in order of first appearance in the items;
    [ResultsManager.display_detection_results] shows them in order of first
    appearance; [YOLODebugInfo.display_detection_stats] shows them in
    ascending order of class name. *)
Theorem class_lines_display_order :
  (forall w results raw class_names,
     detection_results (session_state w) = Some results ->
     has_boxes results = Some raw ->
     comprehension (dict_lookup (Ultralytics.names results))
       (map Ultralytics.cls raw) = Ok class_names ->
     exists class_counts,
       class_counts_loop (Ultralytics.names results) raw empty
       = Ok class_counts
       /\ dict_keys class_counts = first_seen class_names
       /\ displayed_classes (screen (after _display_detection_statistics w))
          = displayed_classes (screen w)
            ++ sorted_by_count_reverse (dict_items class_counts)
       /\ Permutation (sorted_by_count_reverse (dict_items class_counts))
            (dict_items class_counts)
       /\ StronglySorted count_descending
            (sorted_by_count_reverse (dict_items class_counts))
       /\ (forall c,
             with_count c (sorted_by_count_reverse (dict_items class_counts))
             = with_count c (dict_items class_counts)))
  /\ (forall r debug_mode w,
        scores r <> [] ->
        exists unique_classes counts,
          count_loop (class_names r) (empty, empty)
          = Ok (unique_classes, counts)
          /\ dict_keys counts = first_seen (class_names r)
          /\ displayed_classes
               (screen (after (display_detection_results (Some r) debug_mode) w))
             = displayed_classes (screen w) ++ dict_items counts)
  /\ (forall r w,
        scores r <> [] ->
        displayed_classes (screen (after (display_detection_stats (Some r)) w))
        = displayed_classes (screen w) ++ np_unique (class_names r)
        /\ Sorted name_ascending (np_unique (class_names r))).
Proof.
  split; [|split].
  - intros w results raw class_names Hres Hsome Hnames.
    destruct (_display_detection_statistics_boxes w results raw class_names
                Hres Hsome Hnames) as (cc & pre & Hloop & Hshow & Hpre).
    exists cc. split; [exact Hloop|].
    destruct (class_counts_loop_spec _ raw empty _ Hnames)
      as (cc' & Hloop' & Hkeys & _).
    rewrite Hloop in Hloop'. injection Hloop' as <-.
    split; [exact Hkeys|]. split; [|split; [|split]].
    + unfold after. rewrite Hshow. cbn [snd].
      rewrite screen_shows, displayed_classes_app. cbn [displayed_classes].
      now rewrite displayed_classes_app, Hpre, displayed_classes_markdown.
    + apply sorted_by_count_reverse_perm.
    + apply sorted_by_count_reverse_sorted.
    + intros c. apply sorted_by_count_reverse_stable.
  - intros r debug_mode w Hscores.
    destruct (display_detection_results_shows r debug_mode w Hscores)
      as (u & c & pre & Hloop & Hshow & Hpre).
    exists u, c. split; [exact Hloop|].
    split; [exact (first_seen_keys _ _ _ Hloop)|].
    unfold after. rewrite Hshow. cbn [snd].
    rewrite screen_shows. cbn [app].
    rewrite displayed_classes_app. cbn [displayed_classes].
    now rewrite displayed_classes_app, Hpre, displayed_classes_write.
  - intros r w Hscores. split; [|apply np_unique_sorted].
    destruct (display_detection_stats_shows r w Hscores)
      as (pre & post & Hshow & Hpre & Hpost).
    unfold after. rewrite Hshow. cbn [snd].
    rewrite screen_shows, !displayed_classes_app.
    now rewrite Hpre, Hpost, displayed_classes_write, app_nil_r.
Qed.

Lemma class_lines_display_order_witness :
  (exists class_counts,
     class_counts_loop (Ultralytics.names dog_then_cat)
       [Ultralytics.mkRawBox sample_box (9 # 10)%Q 16%Z;
        Ultralytics.mkRawBox sample_box (8 # 10)%Q 15%Z] empty
     = Ok class_counts
     /\ dict_keys class_counts = ["dog"%string; "cat"%string])
  /\ (exists unique_classes counts,
        count_loop (class_names dog_cat_result) (empty, empty)
        = Ok (unique_classes, counts)
        /\ dict_keys counts = ["dog"%string; "cat"%string])
  /\ Sorted name_ascending (np_unique (class_names cats_and_dog_result)).
Proof.
  destruct class_lines_display_order as (Happ & Hui & Hstats).
  split; [|split].
  - destruct (Happ (world_with (Some dog_then_cat)) dog_then_cat
                [Ultralytics.mkRawBox sample_box (9 # 10)%Q 16%Z;
                 Ultralytics.mkRawBox sample_box (8 # 10)%Q 15%Z]
                ["dog"%string; "cat"%string] eq_refl eq_refl eq_refl)
      as (cc & Hloop & Hkeys & _).
    exists cc. split; [exact Hloop | exact Hkeys].
  - destruct (Hui dog_cat_result false fresh_world) as (u & c & Hloop & Hkeys & _).
    + discriminate.
    + exists u, c. split; [exact Hloop | exact Hkeys].
  - destruct (Hstats cats_and_dog_result fresh_world) as [_ Hsorted].
    + discriminate.
    + exact Hsorted.
Defined.

(** ** The detection tab *)

Lemma _display_detection_tab_no_upload weights clicked w :
  _display_detection_tab weights None clicked w
  = (Ok tt, shows w [st_subheader 4]).
Proof. unfold _display_detection_tab. now rewrite bind_st. Qed.

Lemma _display_detection_tab_no_click weights image w :
  _display_detection_tab weights (Some image) false w
  = (Ok tt,
     mkWorld (mkSession (detection_results (session_state w)) (Some image)
                (model_loaded (session_state w))
                (confidence_threshold (session_state w))
                (nms_threshold (session_state w)))
       (model_manager w)
       (screen w ++ st_subheader 4
          :: match detection_results (session_state w) with
             | Some prior => [display_results image prior]
             | None => []
             end)).
Proof.
  destruct w as [[prior up loaded c n] mgr scr].
  unfold _display_detection_tab, set_uploaded_image, get_session,
    put_session, when, bind, ret, st.
  cbn. destruct prior; cbn; now rewrite <- ?app_assoc.
Qed.

(** A click on an uploaded image, in every case of the flag, the weights
    and the model: the flag ends up set, the success message is shown after
    the error messages, if any, and what is stored is the first result of
    the manager's model or [None]. *)
Lemma _display_detection_tab_click weights image w :
  exists res mdl name calls,
    _display_detection_tab weights (Some image) true w
    = (Ok tt,
       mkWorld (mkSession res (Some image) true
                  (confidence_threshold (session_state w))
                  (nms_threshold (session_state w)))
         (mkManager mdl name)
         (screen w ++ st_subheader 4 :: calls ++ st_success
              :: match res with
                 | Some r => [display_results image r]
                 | None => []
                 end))
    /\ (forall first, res = Some first ->
          calls = []
          /\ exists m rest,
               mdl = Some m
               /\ m image (confidence_threshold (session_state w))
                    (nms_threshold (session_state w))
                  = Ultralytics.Returns (first :: rest))
    /\ Forall (fun c => c = st_error_not_loaded
                        \/ (exists e, c = st_error_load e)
                        \/ (exists e, c = st_error_detect e)) calls.
Proof.
  destruct w as [[prior up loaded c n] [mdl name] scr].
  unfold _display_detection_tab, set_uploaded_image, set_model_loaded,
    set_detection_results, load_model, YOLOModelLoader.load_model,
    detect_objects, call_model, set_model, set_model_name, get_session,
    put_session, get_self, put_self, try_except, when, bind, lift, ret, st.
  cbn. destruct loaded; cbn.
  - destruct mdl as [m|]; cbn.
    + destruct (m image c n) as [e | [|first rest]] eqn:Hm; cbn.
      * exists None, (Some m), name, [st_error_detect e].
        split; [now rewrite <- !app_assoc|]. split; [discriminate|].
        constructor; [right; right; now exists e | constructor].
      * exists None, (Some m), name, [].
        split; [now rewrite <- !app_assoc|]. split; [discriminate|constructor].
      * exists (Some first), (Some m), name, [].
        split; [now rewrite <- !app_assoc|]. split; [|constructor].
        intros ? E. injection E as <-. split; [reflexivity|]. now exists m, rest.
    + exists None, None, name, [st_error_not_loaded].
      split; [now rewrite <- !app_assoc|]. split; [discriminate|].
      constructor; [now left | constructor].
  - destruct (weights default_model_name) as [m|e]; cbn.
    + destruct (m image c n) as [e | [|first rest]] eqn:Hm; cbn.
      * exists None, (Some m), default_model_name, [st_error_detect e].
        split; [now rewrite <- !app_assoc|]. split; [discriminate|].
        constructor; [right; right; now exists e | constructor].
      * exists None, (Some m), default_model_name, [].
        split; [now rewrite <- !app_assoc|]. split; [discriminate|constructor].
      * exists (Some first), (Some m), default_model_name, [].
        split; [now rewrite <- !app_assoc|]. split; [|constructor].
        intros ? E. injection E as <-. split; [reflexivity|]. now exists m, rest.
    + exists None, None, default_model_name,
        [st_error_load e; st_error_not_loaded].
      split; [now rewrite <- !app_assoc|]. split; [discriminate|].
      constructor; [right; left; now exists e|].
      constructor; [now left | constructor].
Qed.

(** The handler never stores a result without the flag being set. *)
Lemma _display_detection_tab_keeps_flag weights upload clicked w :
  (detection_results (session_state w) <> None ->
   model_loaded (session_state w) = true) ->
  detection_results
    (session_state (after (_display_detection_tab weights upload clicked) w))
  <> None ->
  model_loaded
    (session_state (after (_display_detection_tab weights upload clicked) w))
  = true.
Proof.
  intros Hinv. unfold after.
  destruct upload as [image|].
  - destruct clicked.
    + destruct (_display_detection_tab_click weights image w)
        as (res & mdl & name & calls & -> & _).
      reflexivity.
    + rewrite _display_detection_tab_no_click. exact Hinv.
  - rewrite _display_detection_tab_no_upload. exact Hinv.
Qed.

(** ** Script runs *)

(** The world in which the detection tab starts: the session as the
    constructor and the sidebar leave it, and a manager without a model. *)
Lemma script_run_entry new_session weights c n upload clicked w :
  script_run new_session weights c n upload clicked w
  = _display_detection_tab weights upload clicked
      (mkWorld
         (if new_session then mkSession None None false c n
          else mkSession (detection_results (session_state w))
                 (uploaded_image (session_state w))
                 (model_loaded (session_state w)) c n)
         YOLOModelManager__init__ (screen w)).
Proof.
  destruct w as [[prior up loaded c0 n0] mgr scr].
  unfold script_run, YOLOApp__init__, set_thresholds, reset_uploaded_image,
    set_detection_results, set_model_loaded, get_session, put_session,
    put_self, when, bind, ret.
  destruct new_session; reflexivity.
Qed.

(** Between two runs a session that holds a result has its flag set: the
    handler sets the flag before it stores anything (app.py 184, 194) and
    nothing resets it. *)
Lemma between_runs_flag w :
  between_runs w ->
  detection_results (session_state w) <> None ->
  model_loaded (session_state w) = true.
Proof.
  induction 1 as [w0 weights c n upload clicked
                 | w weights c n upload clicked _ IH];
    unfold after; rewrite script_run_entry;
    apply _display_detection_tab_keeps_flag;
    cbn [session_state detection_results model_loaded].
  - intros Hn. now contradiction Hn.
  - exact IH.
Qed.

(** (C2) In a session that holds a prior result the model manager of the
    next script run has no model, and the flag, set since that result was
    stored, keeps the handler from loading one. A click therefore makes
    [detect_objects] fail: it shows "model not loaded" and returns [None];
    the handler stores that [None] over the prior result and reports
    success. The prior result is lost, whatever weights are available. *)
Theorem failed_inference_clears_prior_result weights c n image w prior :
  between_runs w ->
  detection_results (session_state w) = Some prior ->
  let w' := after (script_run false weights c n (Some image) true) w in
  model_loaded (session_state w) = true
  /\ detection_results (session_state w') = None
  /\ model (model_manager w') = None
  /\ screen w'
     = screen w ++ [st_subheader 4; st_error_not_loaded; st_success].
Proof.
  intros Hreach Hprior.
  assert (Hflag : model_loaded (session_state w) = true).
  { apply between_runs_flag; [exact Hreach|]. now rewrite Hprior. }
  cbv zeta. split; [exact Hflag|].
  unfold after. rewrite script_run_entry.
  destruct w as [[prior0 up loaded c0 n0] mgr scr].
  cbn [session_state model_loaded detection_results uploaded_image screen]
    in *.
  subst loaded.
  unfold _display_detection_tab, set_uploaded_image, set_detection_results,
    detect_objects, YOLOModelManager__init__, get_session, put_session,
    get_self, try_except, when, bind, ret, st.
  cbn. repeat split. now rewrite <- !app_assoc.
Qed.

Lemma failed_inference_clears_prior_result_witness :
  let detecting := available_weights (constant_model [dog_then_cat]) in
  let first_run :=
    after (script_run true detecting (1 # 2)%Q (2 # 5)%Q (Some 7) true)
      fresh_world in
  let second_run :=
    after (script_run false detecting (1 # 2)%Q (2 # 5)%Q (Some 8) true)
      first_run in
  detection_results (session_state first_run) = Some dog_then_cat
  /\ detection_results (session_state second_run) = None
  /\ screen second_run
     = [st_subheader 4; st_success; display_results 7 dog_then_cat;
        st_subheader 4; st_error_not_loaded; st_success].
Proof.
  cbv zeta. split; [reflexivity|].
  destruct (failed_inference_clears_prior_result
              (available_weights (constant_model [dog_then_cat]))
              (1 # 2)%Q (2 # 5)%Q 8
              (after (script_run true
                        (available_weights (constant_model [dog_then_cat]))
                        (1 # 2)%Q (2 # 5)%Q (Some 7) true) fresh_world)
              dog_then_cat
              (after_first_run fresh_world
                 (available_weights (constant_model [dog_then_cat]))
                 (1 # 2)%Q (2 # 5)%Q (Some 7) true)
              eq_refl)
    as (_ & Hnone & _ & Hscreen).
  split; [exact Hnone | exact Hscreen].
Defined.

(** The model itself is called only in a run that loads it, that is in a
    run that finds the flag unset; the session then holds no result yet.
    When the model raises or returns nothing there, the failure is shown,
    [None] is stored and success is reported all the same. *)
Lemma failed_first_inference new_session weights c n image w0 m :
  (new_session = false ->
   between_runs w0 /\ model_loaded (session_state w0) = false) ->
  weights default_model_name = Ok m ->
  (exists e, m image c n = Ultralytics.Raises e)
  \/ m image c n = Ultralytics.Returns [] ->
  let w' := after (script_run new_session weights c n (Some image) true) w0 in
  (new_session = false -> detection_results (session_state w0) = None)
  /\ detection_results (session_state w') = None
  /\ model_loaded (session_state w') = true
  /\ exists calls,
       screen w' = screen w0 ++ st_subheader 4 :: calls ++ [st_success]
       /\ forall e, m image c n = Ultralytics.Raises e ->
                    calls = [st_error_detect e].
Proof.
  intros Hold Hweights Hfail. cbv zeta. split.
  { intros Hns. destruct (Hold Hns) as [Hreach Hflag].
    destruct (detection_results (session_state w0)) as [prior|] eqn:Hprior;
      [|reflexivity].
    rewrite between_runs_flag in Hflag; [discriminate | exact Hreach|].
    now rewrite Hprior. }
  assert (Hentry : (if new_session then false
                    else model_loaded (session_state w0)) = false).
  { destruct new_session; [reflexivity|]. now apply Hold. }
  unfold after. rewrite script_run_entry.
  destruct w0 as [[prior up loaded c0 n0] mgr scr].
  cbn [session_state model_loaded detection_results uploaded_image screen]
    in *.
  assert (Hrun : forall s0 : SessionState,
            model_loaded s0 = false ->
            confidence_threshold s0 = c -> nms_threshold s0 = n ->
            let w' := snd (_display_detection_tab weights (Some image) true
                             (mkWorld s0 YOLOModelManager__init__ scr)) in
            detection_results (session_state w') = None
            /\ model_loaded (session_state w') = true
            /\ exists calls,
                 screen w' = scr ++ st_subheader 4 :: calls ++ [st_success]
                 /\ forall e, m image c n = Ultralytics.Raises e ->
                              calls = [st_error_detect e]).
  { intros [prior' up' loaded' c' n'] Hl Hc Hn. cbn in Hl, Hc, Hn. subst.
    unfold _display_detection_tab, set_uploaded_image, set_model_loaded,
      set_detection_results, load_model, YOLOModelLoader.load_model,
      detect_objects, call_model, set_model, set_model_name, get_session,
      put_session, get_self, put_self, try_except, when, bind, lift, ret, st.
    cbn. rewrite Hweights. cbn.
    destruct Hfail as [[e He] | Hempty].
    - rewrite He. cbn. repeat split. exists [st_error_detect e].
      split; [now rewrite <- !app_assoc|].
      intros e' E. now injection E as <-.
    - rewrite Hempty. cbn. repeat split. exists [].
      split; [now rewrite <- !app_assoc | discriminate]. }
  destruct new_session.
  - now apply Hrun.
  - apply Hrun; [exact Hentry | reflexivity | reflexivity].
Qed.

(** (C6) When the weights cannot be loaded on a session whose flag is
    still unset, the tab handler shows the load error but ignores the
    [False] that [load_model] returns: it sets [model_loaded], calls
    [detect_objects] (which finds no model and returns [None] without
    calling one), stores that [None] and reports success. *)
Theorem failed_load_marks_model_loaded weights image w e :
  model_loaded (session_state w) = false ->
  weights default_model_name = Raise e ->
  run (load_model weights default_model_name) w = Ok false
  /\ model_loaded
       (session_state (after (_display_detection_tab weights (Some image) true) w))
     = true
  /\ model
       (model_manager (after (_display_detection_tab weights (Some image) true) w))
     = None
  /\ detection_results
       (session_state (after (_display_detection_tab weights (Some image) true) w))
     = None
  /\ screen (after (_display_detection_tab weights (Some image) true) w)
     = screen w ++ [st_subheader 4; st_error_load e; st_error_not_loaded;
                    st_success].
Proof.
  intros Hloaded Hweights.
  destruct w as [[prior up loaded c n] mgr scr]. cbn in Hloaded. subst loaded.
  unfold run, after, _display_detection_tab, set_uploaded_image,
    set_model_loaded, set_detection_results, load_model,
    YOLOModelLoader.load_model, detect_objects,
    set_model, set_model_name, get_session, put_session, get_self, put_self,
    try_except, when, bind, lift, ret, st.
  cbn. rewrite Hweights. cbn.
  repeat split; try reflexivity.
  now rewrite <- !app_assoc.
Qed.

Lemma failed_load_marks_model_loaded_witness :
  let tab := _display_detection_tab (missing_weights (RuntimeError 1))
               (Some 7) true in
  model_loaded (session_state (after tab fresh_world)) = true
  /\ model (model_manager (after tab fresh_world)) = None
  /\ screen (after tab fresh_world)
     = [st_subheader 4; st_error_load (RuntimeError 1); st_error_not_loaded;
        st_success].
Proof.
  cbv zeta.
  destruct (failed_load_marks_model_loaded (missing_weights (RuntimeError 1))
              7 fresh_world (RuntimeError 1) eq_refl eq_refl)
    as (_ & Hflag & Hmodel & _ & Hscreen).
  split; [exact Hflag|]. split; [exact Hmodel | exact Hscreen].
Defined.

(** On the next run the flag keeps the load from being retried. *)
Lemma failed_load_not_retried :
  let tab := _display_detection_tab (missing_weights (RuntimeError 1))
               (Some 7) true in
  screen (after tab (after tab fresh_world))
  = screen (after tab fresh_world)
    ++ [st_subheader 4; st_error_not_loaded; st_success].
Proof. reflexivity. Qed.

(* ================================================================= *)
(** * Further properties of the modelled functions *)

(** ** [run_inference] as a whole *)

(** (X1) [run_inference] never raises and changes nothing but the screen,
    whatever the model does. A raising model gives [None] after the error
    message; an empty result list and a result without box container give
    [None] with no message at all when debug mode is off, and with a
    warning after the timing lines when it is on. With debug mode off a
    result with boxes is returned silently, unless a class id misses the
    table, which gives [None] after the error message. *)
Theorem run_inference_never_raises
    model image ct iou (debug_mode : bool) clock w :
  let timing := [st_write_running;
                 st_write_done ((snd clock - fst clock) * 1000)%Q] in
  (exists res calls,
      run_inference model image ct iou debug_mode clock w
      = (Ok res, shows w calls))
  /\ (forall e,
        model image ct iou = Ultralytics.Raises e ->
        run_inference model image ct iou debug_mode clock w
        = (Ok None,
           shows w (if debug_mode
                    then [st_write_running; st_error_inference e;
                          st_write_error_detail e]
                    else [st_error_inference e])))
  /\ (model image ct iou = Ultralytics.Returns [] ->
      run_inference model image ct iou debug_mode clock w
      = (Ok None,
         shows w (if debug_mode then timing ++ [st_warning 2] else [])))
  /\ (forall names rest,
        model image ct iou
        = Ultralytics.Returns (Ultralytics.mkResults None names :: rest) ->
        run_inference model image ct iou debug_mode clock w
        = (Ok None,
           shows w (if debug_mode then timing ++ [st_warning 1] else [])))
  /\ (forall raw names rest,
        model image ct iou
        = Ultralytics.Returns (Ultralytics.mkResults (Some raw) names :: rest) ->
        run_inference model image ct iou false clock w
        = match comprehension (py_getitem get_coco_classes)
                  (map Ultralytics.cls raw) with
          | Ok class_names =>
              (Ok (Some (normalized clock raw false class_names)), w)
          | Raise e => (Ok None, shows w [st_error_inference e])
          end).
Proof.
  cbv zeta.
  assert (Hraises : forall e,
            model image ct iou = Ultralytics.Raises e ->
            run_inference model image ct iou debug_mode clock w
            = (Ok None,
               shows w (if debug_mode
                        then [st_write_running; st_error_inference e;
                              st_write_error_detail e]
                        else [st_error_inference e]))).
  { intros e Hm.
    unfold run_inference, try_except, bind, call_model, lift, when, ret, st.
    rewrite Hm. destruct debug_mode; cbn; unfold shows; cbn;
      now rewrite <- ?app_assoc. }
  assert (Hempty :
            model image ct iou = Ultralytics.Returns [] ->
            run_inference model image ct iou debug_mode clock w
            = (Ok None,
               shows w (if debug_mode
                        then [st_write_running;
                              st_write_done ((snd clock - fst clock) * 1000)%Q]
                             ++ [st_warning 2]
                        else []))).
  { intros Hm.
    unfold run_inference, try_except, bind, call_model, lift, when, ret, st.
    rewrite Hm. destruct debug_mode; cbn; unfold shows; cbn.
    - now rewrite <- !app_assoc.
    - destruct w. cbn. now rewrite app_nil_r. }
  assert (Habsent : forall names rest,
            model image ct iou
            = Ultralytics.Returns (Ultralytics.mkResults None names :: rest) ->
            run_inference model image ct iou debug_mode clock w
            = (Ok None,
               shows w (if debug_mode
                        then [st_write_running;
                              st_write_done ((snd clock - fst clock) * 1000)%Q]
                             ++ [st_warning 1]
                        else []))).
  { intros names rest Hm.
    unfold run_inference, try_except, bind, call_model, lift, when, ret, st.
    rewrite Hm. destruct debug_mode; cbn; unfold shows; cbn.
    - now rewrite <- !app_assoc.
    - destruct w. cbn. now rewrite app_nil_r. }
  split; [|split; [exact Hraises|split; [exact Hempty|split; [exact Habsent|]]]].
  - destruct (model image ct iou) as [e | [|[[raw|] names] rest]] eqn:Hm.
    + rewrite (Hraises e eq_refl). now eexists; eexists.
    + rewrite (Hempty eq_refl). now eexists; eexists.
    + destruct debug_mode.
      * destruct (list_eq_dec_nil raw) as [Hraw | Hraw].
        -- rewrite (run_inference_debug_empty _ _ _ _ clock _ _ _ Hm w Hraw).
           now eexists; eexists.
        -- destruct (run_inference_debug_nonempty _ _ _ _ clock _ _ _ Hm w Hraw)
             as [calls Hr].
           rewrite Hr. destruct (comprehension _ _) as [class_names|e];
             now eexists; eexists.
      * rewrite (run_inference_quiet _ _ _ _ clock _ _ _ Hm).
        destruct (comprehension _ _) as [class_names|e].
        -- exists (Some (normalized clock raw false class_names)), [].
           now rewrite shows_nil.
        -- now eexists; eexists.
    + rewrite (Habsent names rest eq_refl). now eexists; eexists.
  - intros raw names rest Hm.
    apply (run_inference_quiet _ _ _ _ clock _ _ _ Hm).
Qed.

Lemma run_inference_never_raises_witness :
  run_inference (raising_model (RuntimeError 0)) 0 (1 # 4)%Q (45 # 100)%Q
    false (0%Q, 0%Q) fresh_world
  = (Ok None, shows fresh_world [st_error_inference (RuntimeError 0)])
  /\ run_inference (constant_model []) 0 (1 # 4)%Q (45 # 100)%Q
       false (0%Q, 0%Q) fresh_world
     = (Ok None, shows fresh_world [])
  /\ run_inference (constant_model (one_result person_0_9)) 0 (1 # 4)%Q
       (45 # 100)%Q false (0%Q, 0%Q) fresh_world
     = (Ok (Some person_result), fresh_world).
Proof.
  split; [|split].
  - destruct (run_inference_never_raises (raising_model (RuntimeError 0)) 0
                (1 # 4)%Q (45 # 100)%Q false (0%Q, 0%Q) fresh_world)
      as (_ & Hraises & _).
    exact (Hraises (RuntimeError 0) eq_refl).
  - destruct (run_inference_never_raises (constant_model []) 0
                (1 # 4)%Q (45 # 100)%Q false (0%Q, 0%Q) fresh_world)
      as (_ & _ & Hempty & _).
    exact (Hempty eq_refl).
  - destruct (run_inference_never_raises
                (constant_model (one_result person_0_9)) 0
                (1 # 4)%Q (45 # 100)%Q false (0%Q, 0%Q) fresh_world)
      as (_ & _ & _ & _ & Hboxes).
    exact (Hboxes person_0_9 [(0%Z, "person"%string)] [] eq_refl).
Defined.

Lemma Forall2_nth_error {A B : Type} (R : A -> B -> Prop) xs ys i x :
  Forall2 R xs ys -> nth_error xs i = Some x ->
  exists y, nth_error ys i = Some y /\ R x y.
Proof.
  intros HF. revert i. induction HF as [|a b xs ys Hab _ IH]; intros i Hi.
  - destruct i; discriminate.
  - destruct i as [|i]; cbn in *.
    + injection Hi as <-. now exists b.
    + now apply IH.
Qed.

(** (X2) The four parallel lists of a result are aligned with the raw
    predictions: entry [i] of each list comes from prediction [i], the class
    name being the table entry of that prediction's class id, and every list
    is as long as the list of predictions. *)
Theorem run_inference_items_aligned
    model image ct iou debug_mode clock raw names rest w r :
  model image ct iou
  = Ultralytics.Returns (Ultralytics.mkResults (Some raw) names :: rest) ->
  run (run_inference model image ct iou debug_mode clock) w = Ok (Some r) ->
  length (boxes r) = length raw
  /\ length (scores r) = length raw
  /\ length (class_ids r) = length raw
  /\ length (class_names r) = length raw
  /\ (forall i b,
        nth_error raw i = Some b ->
        nth_error (boxes r) i = Some (Ultralytics.xyxy b)
        /\ nth_error (scores r) i = Some (Ultralytics.conf b)
        /\ nth_error (class_ids r) i = Some (Ultralytics.cls b)
        /\ exists class_name,
             nth_error (class_names r) i = Some class_name
             /\ py_getitem get_coco_classes (Ultralytics.cls b) = Ok class_name).
Proof.
  intros Hm Hr.
  destruct (run_inference_Some _ _ _ _ clock _ _ _ Hm _ _ _ Hr)
    as (cn & Hcn & ->).
  cbn [normalized boxes scores class_ids class_names].
  rewrite (comprehension_length _ _ _ Hcn), !length_map.
  repeat split; try reflexivity.
  - now rewrite nth_error_map, H.
  - now rewrite nth_error_map, H.
  - now rewrite nth_error_map, H.
  - apply comprehension_Ok in Hcn.
    apply (Forall2_nth_error _ _ _ i (Ultralytics.cls b) Hcn).
    now rewrite nth_error_map, H.
Qed.

Lemma run_inference_items_aligned_witness :
  exists r,
    run (run_inference (constant_model (one_result person_0_9)) 0
           (1 # 4)%Q (45 # 100)%Q false (0%Q, 0%Q)) fresh_world = Ok (Some r)
    /\ length (class_names r) = 1
    /\ nth_error (boxes r) 0 = Some sample_box
    /\ nth_error (class_names r) 0 = Some "person"%string.
Proof.
  exists person_result. split; [reflexivity|].
  destruct (run_inference_items_aligned
              (constant_model (one_result person_0_9)) 0
              (1 # 4)%Q (45 # 100)%Q false (0%Q, 0%Q) person_0_9
              [(0%Z, "person"%string)] [] fresh_world person_result
              eq_refl eq_refl) as (_ & _ & _ & Hlen & Hitems).
  split; [exact Hlen|].
  destruct (Hitems 0 (Ultralytics.mkRawBox sample_box (9 # 10)%Q 0%Z) eq_refl)
    as (Hbox & _ & _ & class_name & Hname & Hres).
  split; [exact Hbox|].
  rewrite Hname. f_equal.
  cbn in Hres. now injection Hres as <-.
Defined.

(** ** Lookup after store *)

Section DictLookup.
Context {K V : Type} `{KeyEq K}.
Implicit Types (d : dict K V) (k : K) (v : V).

Lemma keqb_refl k : keqb k k = true.
Proof. now apply keqb_eq. Qed.

Lemma keqb_neq k k' : k <> k' -> keqb k k' = false.
Proof.
  intros Hne. destruct (keqb k k') eqn:E; [|reflexivity].
  apply keqb_eq in E. contradiction.
Qed.

Lemma dict_lookup_store d k v k' :
  dict_lookup (dict_store d k v) k'
  = if keqb k k' then Ok v else dict_lookup d k'.
Proof.
  induction d as [|[k0 v0] d IH]; cbn; [reflexivity|].
  destruct (keqb k0 k) eqn:E0; cbn.
  - apply keqb_eq in E0. subst k0. now destruct (keqb k k').
  - rewrite IH. destruct (keqb k0 k') eqn:E1; [|reflexivity].
    apply keqb_eq in E1. subst k'. now rewrite (keqb_neq k k0)
      by (intros ->; rewrite keqb_refl in E0; discriminate).
Qed.

Lemma dict_contains_In d k : dict_contains d k = true <-> In k (dict_keys d).
Proof.
  induction d as [|[k0 v0] d IH]; cbn; [split; [discriminate | tauto]|].
  rewrite orb_true_iff, IH, keqb_eq. tauto.
Qed.

Lemma dict_contains_not_In d k :
  dict_contains d k = false <-> ~ In k (dict_keys d).
Proof.
  rewrite <- dict_contains_In. destruct (dict_contains d k); split; congruence.
Qed.

Lemma dict_lookup_In d k v : dict_lookup d k = Ok v -> In (k, v) d.
Proof.
  induction d as [|[k0 v0] d IH]; cbn; [discriminate|].
  destruct (keqb k0 k) eqn:E.
  - apply keqb_eq in E. subst k0. intros E'. injection E' as ->. now left.
  - intros E'. right. now apply IH.
Qed.

Lemma dict_In_lookup d k v :
  NoDup (dict_keys d) -> In (k, v) d -> dict_lookup d k = Ok v.
Proof.
  induction d as [|[k0 v0] d IH]; cbn; [tauto|].
  intros Hnd [E | Hin]; inversion Hnd as [|? ? Hnotin Hnd']; subst.
  - injection E as -> ->. now rewrite keqb_refl.
  - rewrite keqb_neq; [now apply IH|].
    intros ->. apply Hnotin. unfold dict_keys.
    change k with (fst (k, v)). now apply in_map.
Qed.
End DictLookup.

(** ** Occurrence tables *)

Lemma counts_of_nil : counts_of [] empty.
Proof.
  split; [constructor|]. split; [reflexivity|]. intros n [].
Qed.

Lemma counts_of_get seen counts n :
  counts_of seen counts -> dict_get counts n 0 = count_occ string_dec seen n.
Proof.
  intros (_ & Hkeys & Hlook).
  destruct (in_dec string_dec n seen) as [Hin | Hnot].
  - now rewrite (dict_get_present counts n _ 0 (Hlook n Hin)).
  - rewrite dict_get_absent.
    + symmetry. now apply count_occ_not_In.
    + apply dict_contains_not_In. now rewrite Hkeys.
Qed.

(** One more occurrence of [n], stored as [counts.get(n, 0) + 1]. *)
Lemma counts_of_add seen counts n :
  counts_of seen counts ->
  counts_of (seen ++ [n]) (dict_store counts n (dict_get counts n 0 + 1)).
Proof.
  intros Hc. pose proof (counts_of_get seen counts n Hc) as Hget.
  destruct Hc as (Hnd & Hkeys & Hlook).
  destruct (dict_contains counts n) eqn:Hcont.
  - assert (Hin : In n seen) by (apply Hkeys; now apply dict_contains_In).
    split; [|split].
    + now rewrite dict_store_keys.
    + intros m. rewrite dict_store_keys, Hkeys, in_app_iff by exact Hcont.
      cbn. split; [tauto|]. intros [Hm | [<- | []]]; assumption.
    + intros m Hm. rewrite dict_lookup_store, count_occ_app. cbn [count_occ].
      destruct (string_dec n m) as [<- | Hne].
      * rewrite keqb_refl, Hget. reflexivity.
      * rewrite keqb_neq by exact Hne.
        apply in_app_iff in Hm. destruct Hm as [Hm | [E | []]]; [|contradiction].
        rewrite (Hlook m Hm). now rewrite Nat.add_0_r.
  - assert (Hnot : ~ In n seen).
    { intros Hin. apply Hkeys in Hin. apply dict_contains_In in Hin. congruence. }
    rewrite dict_store_new by exact Hcont.
    split; [|split].
    + unfold dict_keys. rewrite map_app. cbn.
      apply NoDup_app; [exact Hnd | repeat constructor; tauto |].
      intros m Hm [<- | []]. apply Hnot. now apply Hkeys.
    + intros m. unfold dict_keys in *. rewrite map_app, !in_app_iff, Hkeys.
      reflexivity.
    + intros m Hm. rewrite <- dict_store_new by exact Hcont.
      rewrite dict_lookup_store, count_occ_app. cbn [count_occ].
      destruct (string_dec n m) as [<- | Hne].
      * rewrite keqb_refl, Hget. reflexivity.
      * rewrite keqb_neq by exact Hne.
        apply in_app_iff in Hm. destruct Hm as [Hm | [E | []]]; [|contradiction].
        rewrite (Hlook m Hm). now rewrite Nat.add_0_r.
Qed.

(** Entries of an occurrence table: the count of a name that occurs, so at
    least one. *)
Lemma counts_of_entries seen counts n c :
  counts_of seen counts -> In (n, c) counts ->
  In n seen /\ c = count_occ string_dec seen n /\ 1 <= c.
Proof.
  intros (Hnd & Hkeys & Hlook) Hin.
  assert (Hn : In n seen).
  { apply Hkeys. unfold dict_keys. change n with (fst (n, c)). now apply in_map. }
  pose proof (dict_In_lookup counts n c Hnd Hin) as Hl.
  rewrite (Hlook n Hn) in Hl. injection Hl as <-.
  split; [exact Hn|]. split; [reflexivity|].
  now apply (count_occ_In string_dec).
Qed.

(** Two occurrence tables of the same names hold the same entries. *)
Lemma counts_of_Permutation seen c1 c2 :
  counts_of seen c1 -> counts_of seen c2 -> Permutation c1 c2.
Proof.
  intros H1 H2.
  assert (Hincl : forall a b, counts_of seen a -> counts_of seen b ->
                    forall x, In x a -> In x b).
  { intros a b Ha Hb [n c] Hin.
    destruct (counts_of_entries seen a n c Ha Hin) as (Hn & -> & _).
    destruct Hb as (_ & _ & Hlook). apply dict_lookup_In. now apply Hlook. }
  apply NoDup_Permutation.
  - apply (NoDup_map_inv fst). apply H1.
  - apply (NoDup_map_inv fst). apply H2.
  - intros x. split; now apply Hincl.
Qed.

(** ** The counts of the three displays *)

Lemma count_loop_counts class_names seen u c u' c' :
  counts_of seen c ->
  dict_keys u = dict_keys c ->
  dict_values u = seq 0 (length u) ->
  count_loop class_names (u, c) = Ok (u', c') ->
  counts_of (seen ++ class_names) c'
  /\ dict_keys u' = dict_keys c'
  /\ dict_values u' = seq 0 (length u').
Proof.
  revert seen u c.
  induction class_names as [|n rest IH]; intros seen u c Hc Hkeys Hrank Hloop.
  - cbn in Hloop. injection Hloop as <- <-. now rewrite app_nil_r.
  - cbn [count_loop count_step] in Hloop.
    assert (Hsame : dict_contains u n = dict_contains c n)
      by (now rewrite !dict_contains_keys, Hkeys).
    replace (seen ++ n :: rest) with ((seen ++ [n]) ++ rest)
      by (now rewrite <- app_assoc).
    pose proof (counts_of_add seen c n Hc) as Hadd.
    destruct (dict_contains u n) eqn:Hu.
    + destruct (dict_lookup_contains c n (eq_sym Hsame)) as [v Hv].
      rewrite Hv in Hloop.
      rewrite (dict_get_present c n v 0 Hv) in Hadd.
      apply (IH (seen ++ [n]) u (dict_store c n (v + 1))); auto.
      now rewrite dict_store_keys.
    + rewrite (dict_get_absent c n 0 (eq_sym Hsame)) in Hadd.
      apply (IH (seen ++ [n]) (dict_store u n (length u)) (dict_store c n 1));
        auto.
      * rewrite !dict_store_new by congruence.
        unfold dict_keys in *. rewrite !map_app. cbn. now rewrite Hkeys.
      * rewrite dict_store_new by exact Hu.
        unfold dict_values in *. rewrite map_app, length_app, Hrank.
        cbn [map snd length]. rewrite Nat.add_1_r, seq_S. reflexivity.
Qed.

Lemma count_loop_counts_of class_names unique_classes counts :
  count_loop class_names (empty, empty) = Ok (unique_classes, counts) ->
  counts_of class_names counts
  /\ dict_keys unique_classes = dict_keys counts
  /\ dict_values unique_classes = seq 0 (length unique_classes).
Proof.
  intros Hloop.
  exact (count_loop_counts class_names [] empty empty unique_classes counts
           counts_of_nil eq_refl eq_refl Hloop).
Qed.

(** (X3) [ResultsManager.display_detection_results] counts correctly: the loop
    never raises, [counts] has one entry per distinct class name, in no
    entry a count other than the number of items of that name (so never
    zero), and [unique_classes] numbers the names 0, 1, 2, ... in order of
    first appearance. *)
Theorem count_loop_counts_occurrences class_names :
  exists unique_classes counts,
    count_loop class_names (empty, empty) = Ok (unique_classes, counts)
    /\ counts_of class_names counts
    /\ (forall n c, In (n, c) counts ->
          In n class_names /\ c = count_occ string_dec class_names n /\ 1 <= c)
    /\ dict_keys unique_classes = first_seen class_names
    /\ dict_values unique_classes = seq 0 (length (first_seen class_names)).
Proof.
  destruct (count_loop_spec class_names empty empty eq_refl)
    as (u & c & Hloop & _ & Hkeys & _).
  exists u, c. split; [exact Hloop|].
  destruct (count_loop_counts_of class_names u c Hloop) as (Hc & Hku & Hrank).
  split; [exact Hc|]. split.
  - intros n k Hin. now apply (counts_of_entries class_names c).
  - change (fold_left seen_step class_names (dict_keys empty))
      with (first_seen class_names) in Hkeys.
    rewrite Hku, Hkeys. split; [reflexivity|].
    rewrite Hrank. f_equal.
    rewrite <- Hkeys, <- Hku. unfold dict_keys. now rewrite length_map.
Qed.

(** ** [np.unique] counts *)

Lemma compare_refl s : String.compare s s = Eq.
Proof. now apply OrderedTypeEx.String_as_OT.cmp_eq. Qed.

Lemma compare_Lt_trans a b c :
  String.compare a b = Lt -> String.compare b c = Lt -> String.compare a c = Lt.
Proof.
  intros Hab Hbc.
  apply OrderedTypeEx.String_as_OT.cmp_lt.
  apply OrderedTypeEx.String_as_OT.lt_trans with b;
    now apply OrderedTypeEx.String_as_OT.cmp_lt.
Qed.

Lemma compare_Lt_neq a b : String.compare a b = Lt -> a <> b.
Proof. intros H ->. rewrite compare_refl in H. discriminate. Qed.

Lemma name_ascending_trans a b c :
  name_ascending a b -> name_ascending b c -> name_ascending a c.
Proof. unfold name_ascending. apply compare_Lt_trans. Qed.

Lemma np_unique_strongly_sorted names :
  StronglySorted name_ascending (np_unique names).
Proof.
  apply Sorted_StronglySorted; [exact name_ascending_trans|].
  apply np_unique_sorted.
Qed.

Lemma ascending_not_In name n c acc :
  String.compare name n = Lt ->
  StronglySorted name_ascending ((n, c) :: acc) ->
  ~ In name (dict_keys ((n, c) :: acc)).
Proof.
  intros Hlt Hs. inversion Hs as [|? ? _ Hall]; subst.
  cbn. intros [E | Hin].
  - now apply (compare_Lt_neq name n Hlt).
  - unfold dict_keys in Hin. apply in_map_iff in Hin.
    destruct Hin as ([k v] & E & Hin). cbn in E. subst k.
    rewrite Forall_forall in Hall. specialize (Hall _ Hin).
    unfold name_ascending in Hall. cbn in Hall.
    apply (compare_Lt_neq name name); [|reflexivity].
    now apply (compare_Lt_trans name n name).
Qed.

Lemma ascending_keys_NoDup acc :
  StronglySorted name_ascending acc -> NoDup (dict_keys acc).
Proof.
  induction 1 as [|[n c] acc Hs IH Hall]; cbn; constructor; [|exact IH].
  intros Hin. unfold dict_keys in Hin. apply in_map_iff in Hin.
  destruct Hin as ([k v] & E & Hin). cbn in E. subst k.
  rewrite Forall_forall in Hall. specialize (Hall _ Hin).
  now apply (compare_Lt_neq n n Hall).
Qed.

Lemma unique_insert_keys name acc m :
  In m (dict_keys (unique_insert name acc)) <-> m = name \/ In m (dict_keys acc).
Proof.
  induction acc as [|[n c] acc IH]; cbn; [intuition congruence|].
  destruct (String.compare name n) eqn:Hc; cbn.
  - apply String.compare_eq_iff in Hc. subst n. intuition congruence.
  - intuition congruence.
  - unfold dict_keys in IH. rewrite IH. intuition congruence.
Qed.

Lemma unique_insert_lookup name acc m :
  StronglySorted name_ascending acc ->
  dict_lookup (unique_insert name acc) m
  = if keqb name m then Ok (dict_get acc name 0 + 1) else dict_lookup acc m.
Proof.
  induction acc as [|[n c] acc IH]; intros Hs.
  - cbn. now destruct (name =? m)%string.
  - cbn [unique_insert]. destruct (String.compare name n) eqn:Hc.
    + apply String.compare_eq_iff in Hc. subst n.
      unfold dict_get. cbn [dict_lookup]. rewrite keqb_refl, Nat.add_1_r.
      now destruct (keqb name m).
    + rewrite (dict_get_absent ((n, c) :: acc) name 0)
        by (apply dict_contains_not_In; now apply ascending_not_In).
      reflexivity.
    + assert (Hne : n <> name).
      { intros ->. rewrite compare_refl in Hc. discriminate. }
      inversion Hs as [|? ? Hs' _]; subst.
      cbn [dict_lookup]. rewrite IH by exact Hs'.
      unfold dict_get. cbn [dict_lookup]. rewrite (keqb_neq n name Hne).
      destruct (keqb n m) eqn:Hnm; [|reflexivity].
      apply keqb_eq in Hnm. subst m.
      now rewrite (keqb_neq name n) by congruence.
Qed.

Lemma unique_insert_counts seen acc name :
  StronglySorted name_ascending acc ->
  counts_of seen acc ->
  StronglySorted name_ascending (unique_insert name acc)
  /\ counts_of (seen ++ [name]) (unique_insert name acc).
Proof.
  intros Hs Hc.
  assert (Hs' : StronglySorted name_ascending (unique_insert name acc)).
  { apply Sorted_StronglySorted; [exact name_ascending_trans|].
    apply unique_insert_sorted. now apply StronglySorted_Sorted. }
  split; [exact Hs'|].
  pose proof (counts_of_get seen acc name Hc) as Hget.
  destruct Hc as (_ & Hkeys & Hlook).
  split; [now apply ascending_keys_NoDup|]. split.
  - intros m. rewrite unique_insert_keys, in_app_iff, Hkeys. cbn.
    intuition congruence.
  - intros m Hm. rewrite unique_insert_lookup by exact Hs.
    rewrite count_occ_app. cbn [count_occ].
    destruct (string_dec name m) as [<- | Hne].
    + now rewrite keqb_refl, Hget.
    + rewrite keqb_neq by exact Hne.
      apply in_app_iff in Hm. destruct Hm as [Hm | [E | []]]; [|contradiction].
      rewrite (Hlook m Hm). now rewrite Nat.add_0_r.
Qed.

Lemma np_unique_counts_of class_names :
  counts_of class_names (np_unique class_names).
Proof.
  assert (G : forall names seen acc,
              StronglySorted name_ascending acc -> counts_of seen acc ->
              counts_of (seen ++ names)
                (fold_left (fun acc name => unique_insert name acc) names acc)).
  { induction names as [|n names IH]; intros seen acc Hs Hc; cbn [fold_left].
    - now rewrite app_nil_r.
    - destruct (unique_insert_counts seen acc n Hs Hc) as [Hs' Hc'].
      replace (seen ++ n :: names) with ((seen ++ [n]) ++ names)
        by (now rewrite <- app_assoc).
      now apply IH. }
  apply (G class_names [] []); [constructor | exact counts_of_nil].
Qed.

(** (X4) [np.unique(class_names, return_counts=True)] as the code uses it: one
    entry per distinct name, each with the number of its occurrences, in
    strictly ascending order of name. *)
Theorem np_unique_counts_occurrences class_names :
  counts_of class_names (np_unique class_names)
  /\ StronglySorted name_ascending (np_unique class_names)
  /\ (forall n c, In (n, c) (np_unique class_names) ->
        In n class_names /\ c = count_occ string_dec class_names n /\ 1 <= c).
Proof.
  pose proof (np_unique_counts_of class_names) as Hc.
  split; [exact Hc|]. split; [apply np_unique_strongly_sorted|].
  intros n c Hin. now apply (counts_of_entries class_names (np_unique class_names)).
Qed.

(** ** The counts of [YOLOApp._display_detection_statistics] *)

Lemma dict_lookup_only_KeyError {K V : Type} `{KeyEq K} (d : dict K V) k e :
  dict_lookup d k = Raise e -> e = KeyError.
Proof.
  induction d as [|[k0 v0] d IH]; cbn; [congruence|].
  destruct (keqb k0 k); [discriminate | exact IH].
Qed.

Lemma dict_lookup_missing {K V : Type} `{KeyEq K} (d : dict K V) k :
  dict_contains d k = false -> dict_lookup d k = Raise KeyError.
Proof.
  induction d as [|[k0 v0] d IH]; cbn; [reflexivity|].
  destruct (keqb k0 k); cbn; [discriminate | exact IH].
Qed.

Lemma class_counts_loop_counts names raw seen class_counts class_names :
  comprehension (dict_lookup names) (map Ultralytics.cls raw) = Ok class_names ->
  counts_of seen class_counts ->
  exists class_counts',
    class_counts_loop names raw class_counts = Ok class_counts'
    /\ counts_of (seen ++ class_names) class_counts'.
Proof.
  revert seen class_counts class_names.
  induction raw as [|b raw IH]; intros seen cc class_names Hres Hc.
  - cbn in Hres. injection Hres as <-. exists cc. now rewrite app_nil_r.
  - cbn [map comprehension] in Hres. cbn [class_counts_loop].
    destruct (dict_lookup names (Ultralytics.cls b)) as [n|e]; [|discriminate].
    destruct (comprehension _ _) as [ns|e] eqn:Hns; [|discriminate].
    injection Hres as <-.
    replace (seen ++ n :: ns) with ((seen ++ [n]) ++ ns)
      by (now rewrite <- app_assoc).
    apply IH; [reflexivity|]. now apply counts_of_add.
Qed.

Lemma class_counts_loop_KeyError names raw class_counts :
  Exists (fun b => dict_contains names (Ultralytics.cls b) = false) raw ->
  class_counts_loop names raw class_counts = Raise KeyError.
Proof.
  intros Hbad. revert class_counts.
  induction Hbad as [b raw Hb | b raw _ IH]; intros cc; cbn [class_counts_loop].
  - now rewrite (dict_lookup_missing names _ Hb).
  - destruct (dict_lookup names (Ultralytics.cls b)) as [n|e] eqn:Hl.
    + apply IH.
    + now rewrite (dict_lookup_only_KeyError _ _ _ Hl).
Qed.

(** (X5) [YOLOApp._display_detection_statistics] counts by resolved name: when
    the model's [names] dict knows every class id of the stored boxes, the
    loop ends with one entry per distinct resolved name holding the number
    of boxes of that name, so two class ids that resolve to one name are
    counted together. *)
Theorem class_counts_loop_counts_occurrences names raw class_names :
  comprehension (dict_lookup names) (map Ultralytics.cls raw) = Ok class_names ->
  exists class_counts,
    class_counts_loop names raw empty = Ok class_counts
    /\ counts_of class_names class_counts
    /\ (forall n c, In (n, c) class_counts ->
          In n class_names /\ c = count_occ string_dec class_names n /\ 1 <= c).
Proof.
  intros Hres.
  destruct (class_counts_loop_counts names raw [] empty class_names Hres
              counts_of_nil) as (cc & Hloop & Hc).
  exists cc. split; [exact Hloop|]. cbn [app] in Hc. split; [exact Hc|].
  intros n c Hin. now apply (counts_of_entries class_names cc).
Qed.

Lemma class_counts_loop_counts_occurrences_witness :
  exists class_counts,
    class_counts_loop [(1%Z, "car"%string); (2%Z, "car"%string)]
      [Ultralytics.mkRawBox sample_box (4 # 10)%Q 1%Z;
       Ultralytics.mkRawBox sample_box (8 # 10)%Q 2%Z] empty
    = Ok class_counts
    /\ dict_lookup class_counts "car"%string = Ok 2.
Proof.
  destruct (class_counts_loop_counts_occurrences
              [(1%Z, "car"%string); (2%Z, "car"%string)]
              [Ultralytics.mkRawBox sample_box (4 # 10)%Q 1%Z;
               Ultralytics.mkRawBox sample_box (8 # 10)%Q 2%Z]
              ["car"%string; "car"%string] eq_refl)
    as (cc & Hloop & (_ & _ & Hlook) & _).
  exists cc. split; [exact Hloop|].
  exact (Hlook "car"%string (or_introl eq_refl)).
Defined.

(** (X6) A class id that the model's [names] dict does not know makes
    [YOLOApp._display_detection_statistics] raise [KeyError] after the four
    metrics and the section title: the counting loop fails before any class
    line is written, also for the classes it had already counted. *)
Theorem _display_detection_statistics_unknown_class w results raw :
  detection_results (session_state w) = Some results ->
  has_boxes results = Some raw ->
  Exists (fun b => dict_contains (Ultralytics.names results)
                     (Ultralytics.cls b) = false) raw ->
  _display_detection_statistics w
  = (Raise KeyError,
     shows w [st_metric ObjectCount (Int (length raw));
              st_metric MeanConfidence
                (Fmt 3 (Num (tensor_mean (map Ultralytics.conf raw))));
              st_metric MaxConfidence
                (Fmt 3 (Num (tensor_max (map Ultralytics.conf raw))));
              st_metric MinConfidence
                (Fmt 3 (Num (tensor_min (map Ultralytics.conf raw))));
              st_subheader 3])
  /\ displayed_classes (screen (after _display_detection_statistics w))
     = displayed_classes (screen w).
Proof.
  intros Hres Hsome Hbad.
  assert (Hboxes : Ultralytics.boxes results = Some raw).
  { unfold has_boxes in Hsome.
    destruct (Ultralytics.boxes results) as [[|b bs]|]; congruence. }
  assert (Hrun : _display_detection_statistics w
                 = (Raise KeyError,
                    shows w [st_metric ObjectCount (Int (length raw));
                             st_metric MeanConfidence
                               (Fmt 3 (Num (tensor_mean (map Ultralytics.conf raw))));
                             st_metric MaxConfidence
                               (Fmt 3 (Num (tensor_max (map Ultralytics.conf raw))));
                             st_metric MinConfidence
                               (Fmt 3 (Num (tensor_min (map Ultralytics.conf raw))));
                             st_subheader 3])).
  { unfold _display_detection_statistics, get_session.
    unfold bind at 1. rewrite Hres, Hboxes.
    unfold confidence_metric. rewrite Hsome.
    rewrite !bind_st, (class_counts_loop_KeyError _ _ _ Hbad), bind_Raise.
    now rewrite !shows_shows. }
  split; [exact Hrun|].
  unfold after. rewrite Hrun. cbn [snd].
  rewrite screen_shows, displayed_classes_app. cbn. now rewrite app_nil_r.
Qed.

Lemma _display_detection_statistics_unknown_class_witness :
  run _display_detection_statistics (world_with (Some cat_and_unknown))
  = Raise KeyError
  /\ displayed_classes
       (screen (after _display_detection_statistics
                  (world_with (Some cat_and_unknown)))) = [].
Proof.
  destruct (_display_detection_statistics_unknown_class
              (world_with (Some cat_and_unknown)) cat_and_unknown
              [Ultralytics.mkRawBox sample_box (9 # 10)%Q 15%Z;
               Ultralytics.mkRawBox sample_box (8 # 10)%Q 99%Z]
              eq_refl eq_refl)
    as [Hrun Hlines].
  - apply Exists_cons_tl, Exists_cons_hd. reflexivity.
  - split; [|exact Hlines]. unfold run. now rewrite Hrun.
Defined.

(** ** The displays of one result agree *)

(** (X7) [ResultsManager.display_detection_results] and
    [YOLODebugInfo.display_detection_stats] write the same class lines for
    one result, up to their order. *)
Theorem class_lines_agree_up_to_order r debug_mode w :
  scores r <> [] ->
  exists lines lines',
    displayed_classes
      (screen (after (display_detection_results (Some r) debug_mode) w))
    = displayed_classes (screen w) ++ lines
    /\ displayed_classes (screen (after (display_detection_stats (Some r)) w))
       = displayed_classes (screen w) ++ lines'
    /\ Permutation lines lines'.
Proof.
  intros Hscores.
  destruct (display_detection_results_shows r debug_mode w Hscores)
    as (u & c & pre & Hloop & Hshow & Hpre).
  destruct (display_detection_stats_shows r w Hscores)
    as (pre' & post' & Hshow' & Hpre' & Hpost').
  exists (dict_items c), (np_unique (class_names r)).
  unfold after. rewrite Hshow, Hshow'. cbn [snd]. split; [|split].
  - rewrite screen_shows. cbn [app].
    rewrite displayed_classes_app. cbn [displayed_classes].
    now rewrite displayed_classes_app, Hpre, displayed_classes_write.
  - rewrite screen_shows, !displayed_classes_app.
    now rewrite Hpre', Hpost', displayed_classes_write, app_nil_r.
  - apply (counts_of_Permutation (class_names r)).
    + apply (count_loop_counts_of (class_names r) u c Hloop).
    + apply np_unique_counts_of.
Qed.

Lemma class_lines_agree_up_to_order_witness :
  exists lines lines',
    displayed_classes
      (screen (after (display_detection_results (Some cats_and_dog_result) false)
                 fresh_world)) = lines
    /\ displayed_classes
         (screen (after (display_detection_stats (Some cats_and_dog_result))
                    fresh_world)) = lines'
    /\ Permutation lines lines'.
Proof.
  destruct (class_lines_agree_up_to_order cats_and_dog_result false fresh_world)
    as (lines & lines' & H1 & H2 & Hperm); [discriminate|].
  exists lines, lines'. split; [exact H1|]. split; [exact H2 | exact Hperm].
Defined.

(** ** The unique-class metric *)

Lemma distinct_count_np_unique class_names :
  distinct_count class_names = length (np_unique class_names).
Proof.
  destruct (np_unique_counts_of class_names) as (Hnd & Hkeys & _).
  unfold distinct_count.
  rewrite <- (length_map fst (np_unique class_names)).
  apply Permutation_length, NoDup_Permutation.
  - apply NoDup_nodup.
  - exact Hnd.
  - intros n. rewrite nodup_In. symmetry. apply Hkeys.
Qed.

Lemma display_detection_stats_unique_metric r w :
  scores r <> [] ->
  In (st_metric UniqueClasses (Int (distinct_count (class_names r))))
     (screen (after (display_detection_stats (Some r)) w)).
Proof.
  intros Hne.
  destruct (scores r) as [|s ss] eqn:Hs; [congruence|].
  unfold after, display_detection_stats. cbv zeta. rewrite Hs.
  rewrite !bind_st. cbn [np_max np_min].
  rewrite bind_Ok, bind_st, bind_Ok, !bind_st.
  set (time := match truthy_time (inference_time r) with
               | Some t => st (st_metric InferenceTime (Fmt 1 (Num t)))
               | None => ret tt
               end).
  set (time_calls := match truthy_time (inference_time r) with
                     | Some t => [st_metric InferenceTime (Fmt 1 (Num t))]
                     | None => []
                     end).
  assert (Htime : forall w', time w' = (Ok tt, shows w' time_calls)).
  { intros w'. subst time time_calls. destruct (truthy_time _).
    - apply st_shows.
    - unfold ret. now rewrite shows_nil. }
  rewrite (bind_eq _ _ _ _ _ (Htime _)). cbv beta.
  rewrite bind_st.
  rewrite (bind_eq _ _ _ _ _ (for_each_st2 _ _ _)). cbv beta.
  cbn [length Nat.ltb Nat.leb when]. rewrite bind_st, st_shows.
  cbn [snd]. rewrite !shows_shows, screen_shows, !in_app_iff.
  right. cbn. tauto.
Qed.

(** (X8) The "unique classes" metric of [YOLODebugInfo.display_detection_stats]
    ([len(set(class_names))]) is the number of class lines the function
    writes below it. *)
Theorem unique_classes_metric_counts_lines r w :
  scores r <> [] ->
  exists lines,
    displayed_classes (screen (after (display_detection_stats (Some r)) w))
    = displayed_classes (screen w) ++ lines
    /\ In (st_metric UniqueClasses (Int (length lines)))
          (screen (after (display_detection_stats (Some r)) w)).
Proof.
  intros Hscores. exists (np_unique (class_names r)). split.
  - destruct (display_detection_stats_shows r w Hscores)
      as (pre & post & Hshow & Hpre & Hpost).
    unfold after. rewrite Hshow. cbn [snd].
    rewrite screen_shows, !displayed_classes_app.
    now rewrite Hpre, Hpost, displayed_classes_write, app_nil_r.
  - rewrite <- distinct_count_np_unique.
    now apply display_detection_stats_unique_metric.
Qed.

Lemma unique_classes_metric_counts_lines_witness :
  In (st_metric UniqueClasses (Int 2))
     (screen (after (display_detection_stats (Some cats_and_dog_result))
                fresh_world)).
Proof.
  destruct (unique_classes_metric_counts_lines cats_and_dog_result fresh_world)
    as (lines & Hlines & Hmetric); [discriminate|].
  cbn [fresh_world screen displayed_classes app] in Hlines.
  assert (Hlen : length lines = 2) by (now rewrite <- Hlines).
  now rewrite Hlen in Hmetric.
Defined.

(** ** What [create_visualization] draws *)





(** ** [YOLOModelManager] *)

(** (X10) [detect_objects] never raises and changes nothing but the screen. It
    returns the first result of the model's list; without a loaded model it
    shows "not loaded" and calls nothing; an exception of the model is shown
    and becomes [None]; an empty result list becomes [None] with no message
    at all. *)
Theorem detect_objects_outcomes image confidence nms w :
  exists res calls,
    detect_objects image confidence nms w = (Ok res, shows w calls)
    /\ match model (model_manager w) with
       | None => res = None /\ calls = [st_error_not_loaded]
       | Some m =>
           match m image confidence nms with
           | Ultralytics.Raises e => res = None /\ calls = [st_error_detect e]
           | Ultralytics.Returns [] => res = None /\ calls = []
           | Ultralytics.Returns (first :: _) => res = Some first /\ calls = []
           end
       end.
Proof.
  unfold detect_objects, get_self. unfold bind at 1.
  destruct (model (model_manager w)) as [m|].
  - unfold try_except, call_model, bind, lift, ret.
    destruct (m image confidence nms) as [e | [|first rest]].
    + exists None, [st_error_detect e]. rewrite st_shows. auto.
    + exists None, []. rewrite shows_nil. auto.
    + exists (Some first), []. rewrite shows_nil. auto.
  - exists None, [st_error_not_loaded]. rewrite bind_st. auto.
Qed.

(** (X11) [YOLOModelManager.load_model] never raises and returns [True] exactly
    when the weights load. Either way the manager's [model_name] becomes the
    requested name and its [model] is replaced: by the loaded model, or by
    [None] after the error message, so a failed load also discards a model
    that was loaded before. The session is not touched. *)
Theorem load_model_outcomes weights name w :
  exists ok w',
    load_model weights name w = (Ok ok, w')
    /\ session_state w' = session_state w
    /\ model_name (model_manager w') = name
    /\ match weights name with
       | Ok m =>
           ok = true /\ model (model_manager w') = Some m
           /\ screen w' = screen w
       | Raise e =>
           ok = false /\ model (model_manager w') = None
           /\ screen w' = screen w ++ [st_error_load e]
       end.
Proof.
  unfold load_model, YOLOModelLoader.load_model, set_model, set_model_name,
    get_self, put_self, try_except, bind, lift, ret, st.
  destruct (weights name) as [m|e]; cbn; eexists; eexists;
    (split; [reflexivity|]); cbn; auto.
Qed.

(** ** The detection tab, run by run *)

(** (X12) The first detection of a session: with the flag unset, weights that
    load and a model that returns results, a click loads the default model
    into the manager, calls it with the session's two thresholds, stores the
    first result and the uploaded image, sets the flag, shows the success
    message and hands image and result to the result widget. *)
Theorem _display_detection_tab_first_detection weights image w m first rest :
  model_loaded (session_state w) = false ->
  weights default_model_name = Ok m ->
  m image (confidence_threshold (session_state w))
    (nms_threshold (session_state w))
  = Ultralytics.Returns (first :: rest) ->
  _display_detection_tab weights (Some image) true w
  = (Ok tt,
     mkWorld (mkSession (Some first) (Some image) true
                (confidence_threshold (session_state w))
                (nms_threshold (session_state w)))
       (mkManager (Some m) default_model_name)
       (screen w ++ [st_subheader 4; st_success; display_results image first])).
Proof.
  intros Hloaded Hweights Hm.
  destruct w as [[prior up loaded c n] mgr scr]. cbn in Hloaded, Hm. subst loaded.
  unfold _display_detection_tab, set_uploaded_image, set_model_loaded,
    set_detection_results, load_model, YOLOModelLoader.load_model,
    detect_objects, call_model, set_model, set_model_name, get_session,
    put_session, get_self, put_self, try_except, when, bind, lift, ret, st.
  cbn. rewrite Hweights. cbn. rewrite Hm. cbn.
  now rewrite <- !app_assoc.
Qed.

Lemma _display_detection_tab_first_detection_witness :
  _display_detection_tab
    (available_weights (constant_model [dog_then_cat])) (Some 7) true fresh_world
  = (Ok tt,
     mkWorld (mkSession (Some dog_then_cat) (Some 7) true (1 # 2)%Q (2 # 5)%Q)
       (mkManager (Some (constant_model [dog_then_cat])) default_model_name)
       [st_subheader 4; st_success; display_results 7 dog_then_cat]).
Proof.
  exact (_display_detection_tab_first_detection
           (available_weights (constant_model [dog_then_cat])) 7 fresh_world
           (constant_model [dog_then_cat]) dog_then_cat [] eq_refl eq_refl eq_refl).
Defined.

(** (X13) Without an upload the tab shows its title and nothing else, not even a
    stored result. With an upload but no click it stores the new image and
    shows the stored result, if any, together with the new image: the
    result of the previous image is displayed over the image just uploaded.
    In neither case are the stored result, the flag or the model manager
    changed. *)
Theorem _display_detection_tab_without_click weights clicked image w :
  _display_detection_tab weights None clicked w
  = (Ok tt, shows w [st_subheader 4])
  /\ _display_detection_tab weights (Some image) false w
     = (Ok tt,
        mkWorld (mkSession (detection_results (session_state w)) (Some image)
                   (model_loaded (session_state w))
                   (confidence_threshold (session_state w))
                   (nms_threshold (session_state w)))
          (model_manager w)
          (screen w ++ st_subheader 4
             :: match detection_results (session_state w) with
                | Some prior => [display_results image prior]
                | None => []
                end)).
Proof.
  split.
  - unfold _display_detection_tab. now rewrite bind_st.
  - apply _display_detection_tab_no_click.
Qed.

(** (X14) Every click on an uploaded image ends with the flag [model_loaded]
    set and the success message shown, whether the weights loaded or not and
    whatever the model did: the success message follows even the error
    messages of a failed load or a failed detection. What the click stores
    is the first result of the list that the manager's model returned for
    the image and the session's thresholds, and then no error was shown; in
    every other case it stores [None], and the result widget is called only
    for a stored result. *)
Theorem _display_detection_tab_click_reports_success weights image w :
  let w' := after (_display_detection_tab weights (Some image) true) w in
  model_loaded (session_state w') = true
  /\ uploaded_image (session_state w') = Some image
  /\ (exists errors,
        screen w'
        = screen w ++ st_subheader 4 :: errors ++ st_success
            :: match detection_results (session_state w') with
               | Some r => [display_results image r]
               | None => []
               end
        /\ Forall (fun c => c = st_error_not_loaded
                            \/ (exists e, c = st_error_load e)
                            \/ (exists e, c = st_error_detect e)) errors
        /\ (detection_results (session_state w') <> None -> errors = []))
  /\ (forall first,
        detection_results (session_state w') = Some first ->
        exists m rest,
          model (model_manager w') = Some m
          /\ m image (confidence_threshold (session_state w))
               (nms_threshold (session_state w))
             = Ultralytics.Returns (first :: rest)).
Proof.
  destruct (_display_detection_tab_click weights image w)
    as (res & mdl & name & calls & Hrun & Hres & Herrors).
  cbv zeta. unfold after. rewrite Hrun.
  cbn [snd session_state model_loaded uploaded_image screen detection_results
       model_manager model].
  split; [reflexivity|]. split; [reflexivity|]. split.
  - exists calls. split; [reflexivity|]. split; [exact Herrors|].
    intros Hsome. destruct res as [first|]; [|now contradiction Hsome].
    now destruct (Hres first eq_refl).
  - intros first E. now destruct (Hres first E).
Qed.

Lemma _display_detection_tab_click_reports_success_witness :
  let w' := after (_display_detection_tab
                     (available_weights (raising_model (RuntimeError 0)))
                     (Some 7) true) fresh_world in
  model_loaded (session_state w') = true
  /\ detection_results (session_state w') = None
  /\ screen w'
     = [st_subheader 4; st_error_detect (RuntimeError 0); st_success].
Proof.
  cbv zeta.
  destruct (_display_detection_tab_click_reports_success
              (available_weights (raising_model (RuntimeError 0))) 7
              fresh_world) as (Hflag & _ & _ & _).
  split; [exact Hflag|]. split; reflexivity.
Defined.

(** ** A new [YOLOApp] over an old session *)

(** (X15) [YOLOApp.__init__] builds a new model manager, without a model, and
    keeps the session keys it finds. So on a session whose [model_loaded]
    flag is already set, the next click never loads a model:
    [detect_objects] finds none, shows "not loaded", and the handler stores
    [None] over the session's result and reports success, whatever weights
    are available. *)
Theorem new_app_on_loaded_session_cannot_detect
    has_detection_results has_uploaded_image weights image w :
  model_loaded (session_state w) = true ->
  let w1 := after (YOLOApp__init__ has_detection_results has_uploaded_image true)
                  w in
  let w2 := after (_display_detection_tab weights (Some image) true) w1 in
  model (model_manager w1) = None
  /\ model_loaded (session_state w1) = true
  /\ (has_detection_results = true ->
      detection_results (session_state w1) = detection_results (session_state w))
  /\ model (model_manager w2) = None
  /\ detection_results (session_state w2) = None
  /\ screen w2
     = screen w ++ [st_subheader 4; st_error_not_loaded; st_success].
Proof.
  intros Hloaded.
  destruct w as [[prior up loaded c n] mgr scr]. cbn in Hloaded. subst loaded.
  unfold YOLOApp__init__, reset_uploaded_image, _display_detection_tab,
    set_uploaded_image, set_model_loaded, set_detection_results,
    detect_objects, get_session, put_session, get_self, put_self,
    try_except, when, bind, lift, ret, st, after.
  destruct has_detection_results, has_uploaded_image; cbn;
    repeat split; try reflexivity; try discriminate;
    now rewrite <- !app_assoc.
Qed.

Lemma new_app_on_loaded_session_cannot_detect_witness :
  let weights := available_weights (constant_model [dog_then_cat]) in
  let click := _display_detection_tab weights (Some 7) true in
  let first_run := after click (after (YOLOApp__init__ false false false) fresh_world) in
  let second_run := after click (after (YOLOApp__init__ true true true) first_run) in
  detection_results (session_state first_run) = Some dog_then_cat
  /\ model_loaded (session_state first_run) = true
  /\ detection_results (session_state second_run) = None
  /\ screen second_run
     = screen first_run ++ [st_subheader 4; st_error_not_loaded; st_success].
Proof.
  cbv zeta. split; [reflexivity|]. split; [reflexivity|].
  destruct (new_app_on_loaded_session_cannot_detect true true
              (available_weights (constant_model [dog_then_cat])) 7
              (after (_display_detection_tab
                        (available_weights (constant_model [dog_then_cat]))
                        (Some 7) true)
                 (after (YOLOApp__init__ false false false) fresh_world))
              eq_refl) as (_ & _ & _ & _ & Hres & Hscreen).
  split; [exact Hres | exact Hscreen].
Defined.

(** ** The model tables *)

(** (X16) The list of selectable models and the info table have the same keys:
    [get_model_info] returns a non-empty dict exactly for the names that
    [get_available_models] lists, and that dict has every key that
    [YOLODebugInfo.display_model_info] reads, so its lookups cannot raise;
    for any other name the result is the empty dict. The default model name
    is the first selectable model. *)
Theorem get_model_info_covers_available_models model_name :
  (In model_name get_available_models <-> get_model_info model_name <> empty)
  /\ (In model_name get_available_models ->
      forall key,
        In key ["name"; "parameters"; "size"; "mAP50"; "mAP50-95";
                "speed_gpu"; "speed_cpu"; "description"]%string ->
        exists v, dict_lookup (get_model_info model_name) key = Ok v)
  /\ (~ In model_name get_available_models -> get_model_info model_name = empty)
  /\ py_getitem get_available_models 0 = Ok DEFAULT_MODEL_NAME.
Proof.
  assert (Hin : In model_name get_available_models ->
                forall key,
                  In key ["name"; "parameters"; "size"; "mAP50"; "mAP50-95";
                          "speed_gpu"; "speed_cpu"; "description"]%string ->
                  exists v, dict_lookup (get_model_info model_name) key = Ok v).
  { intros Hm key Hk. cbn in Hm, Hk.
    repeat (destruct Hm as [<- | Hm]); try contradiction;
      repeat (destruct Hk as [<- | Hk]); try contradiction;
      eexists; reflexivity. }
  assert (Hout : ~ In model_name get_available_models ->
                 get_model_info model_name = empty).
  { intros Hnot. unfold get_model_info, dict_get, model_info.
    cbn [dict_lookup keqb KeyEq_string].
    repeat match goal with
           | |- context [String.eqb ?k model_name] =>
               destruct (String.eqb_spec k model_name) as [E | _];
               [exfalso; apply Hnot; rewrite <- E; cbn; tauto|]
           end.
    reflexivity. }
  split; [split|].
  - intros Hm E.
    destruct (Hin Hm "name"%string (or_introl eq_refl)) as [v Hv].
    rewrite E in Hv. discriminate.
  - intros Hne. destruct (in_dec string_dec model_name get_available_models)
      as [Hm | Hnot]; [exact Hm|].
    exfalso. apply Hne. now apply Hout.
  - split; [exact Hin|]. split; [exact Hout | reflexivity].
Qed.

Lemma get_model_info_covers_available_models_witness :
  dict_lookup (get_model_info "yolov8m.pt"%string) "parameters"%string
  = Ok "25.9M"%string
  /\ get_model_info "yolov9.pt"%string = empty.
Proof.
  destruct (get_model_info_covers_available_models "yolov8m.pt"%string)
    as (_ & Hkeys & _).
  destruct (get_model_info_covers_available_models "yolov9.pt"%string)
    as (_ & _ & Hout & _).
  split.
  - destruct (Hkeys ltac:(cbn; tauto) "parameters"%string ltac:(cbn; tauto))
      as [v Hv].
    rewrite Hv. cbn in Hv. now injection Hv as <-.
  - apply Hout. cbn. intros H.
    repeat (destruct H as [H | H]; [discriminate H|]). exact H.
Defined.

(** ** InputManager: every failure is caught *)

Lemma raise_for_status_Ok response :
  InputManager.raise_for_status response = Ok tt
  <-> InputManager.status_code response < 400
      \/ 600 <= InputManager.status_code response.
Proof.
  unfold InputManager.raise_for_status.
  destruct (Nat.leb_spec 400 (InputManager.status_code response));
    destruct (Nat.ltb_spec (InputManager.status_code response) 600);
    cbn [andb]; split; intros Hs; try discriminate; try reflexivity; lia.
Qed.

(** The request, the status check and the decoding of the two remote
    loaders, for a handler [on_error]. *)
Lemma fetch_outcomes env url (on_error : exn -> InputManager.call) log :
  exists res errors,
    InputManager.try_except
      (InputManager.bind (InputManager.get env url 10) (fun response =>
       InputManager.bind
         (InputManager.lift (InputManager.raise_for_status response)) (fun _ =>
       InputManager.bind
         (InputManager.lift
            (InputManager.decode env (InputManager.content response)))
         (fun image => InputManager.ret (Some image)))))
      (fun e => InputManager.bind (InputManager.emit (on_error e))
                  (fun _ => InputManager.ret None)) log
    = (Ok res, log ++ InputManager.requests_get url 10 :: errors)
    /\ match res with
       | Some image =>
           errors = []
           /\ exists response,
                InputManager.http env url 10 = Ok response
                /\ (InputManager.status_code response < 400
                    \/ 600 <= InputManager.status_code response)
                /\ InputManager.decode env (InputManager.content response)
                   = Ok image
       | None => exists e, errors = [on_error e]
       end.
Proof.
  unfold InputManager.try_except, InputManager.get, InputManager.bind,
    InputManager.lift, InputManager.emit, InputManager.ret.
  destruct (InputManager.http env url 10) as [response|e] eqn:Hhttp.
  - destruct (InputManager.raise_for_status response) as [[]|e] eqn:Hstatus.
    + destruct (InputManager.decode env (InputManager.content response))
        as [image|e] eqn:Hdecode.
      * exists (Some image), []. split; [reflexivity|].
        split; [reflexivity|]. exists response.
        split; [reflexivity|]. split; [|exact Hdecode].
        now apply raise_for_status_Ok.
      * exists None, [on_error e]. rewrite <- app_assoc.
        split; [reflexivity|]. now exists e.
    + exists None, [on_error e]. rewrite <- app_assoc.
      split; [reflexivity|]. now exists e.
  - exists None, [on_error e]. rewrite <- app_assoc.
    split; [reflexivity|]. now exists e.
Qed.

(** (X17) [InputManager._load_url_image] never raises. For an empty URL it sends
    no request and shows nothing. Otherwise it sends exactly one request,
    with a timeout of 10 seconds, and returns an image only when the request
    succeeded, the status is no 4xx or 5xx and the body decodes; in every
    other case it shows one error message and returns [None]. *)
Theorem _load_url_image_outcomes env url log :
  exists res errors,
    InputManager._load_url_image env url log
    = (Ok res,
       log ++ (if InputManager.nonempty url
               then [InputManager.requests_get url 10] else []) ++ errors)
    /\ match res with
       | Some image =>
           errors = []
           /\ exists response,
                InputManager.http env url 10 = Ok response
                /\ (InputManager.status_code response < 400
                    \/ 600 <= InputManager.status_code response)
                /\ InputManager.decode env (InputManager.content response)
                   = Ok image
       | None =>
           if InputManager.nonempty url
           then exists e, errors = [InputManager.st_error_url e]
           else errors = []
       end.
Proof.
  unfold InputManager._load_url_image.
  destruct (InputManager.nonempty url).
  - destruct (fetch_outcomes env url InputManager.st_error_url log)
      as (res & errors & Hrun & Hres).
    exists res, errors. split; [exact Hrun|]. exact Hres.
  - exists None, []. unfold InputManager.ret. now rewrite app_nil_r.
Qed.

Lemma loader_calls_fetch env url on_error log :
  (forall e, InputManager.is_error (on_error e) = true) ->
  exists res calls,
    InputManager.try_except
      (InputManager.bind (InputManager.get env url 10) (fun response =>
       InputManager.bind
         (InputManager.lift (InputManager.raise_for_status response)) (fun _ =>
       InputManager.bind
         (InputManager.lift
            (InputManager.decode env (InputManager.content response)))
         (fun image => InputManager.ret (Some image)))))
      (fun e => InputManager.bind (InputManager.emit (on_error e))
                  (fun _ => InputManager.ret None)) log
    = (Ok res, log ++ calls)
    /\ loader_calls res calls.
Proof.
  intros Herr.
  destruct (fetch_outcomes env url on_error log) as (res & errors & Hrun & Hres).
  exists res, (InputManager.requests_get url 10 :: errors).
  split; [exact Hrun|].
  exists [InputManager.requests_get url 10], errors.
  split; [reflexivity|]. split; [right; now exists url|].
  destruct res as [image|].
  - left. apply Hres.
  - right. split; [reflexivity|]. destruct Hres as [e ->].
    exists (on_error e). auto.
Qed.

Lemma loader_calls_silent (res : option Image) : loader_calls res [].
Proof. exists [], []. auto. Qed.

Lemma loader_calls_error c : InputManager.is_error c = true -> loader_calls None [c].
Proof.
  intros Hc. exists [], [c]. split; [reflexivity|]. split; [now left|].
  right. split; [reflexivity|]. now exists c.
Qed.

Lemma _load_sample_image_calls env selected log :
  exists res calls,
    InputManager._load_sample_image env selected log = (Ok res, log ++ calls)
    /\ loader_calls res calls.
Proof.
  unfold InputManager._load_sample_image.
  destruct (InputManager.nonempty selected).
  - destruct (dict_lookup InputManager.sample_images selected) as [url|e] eqn:Hurl.
    + destruct (loader_calls_fetch env url InputManager.st_error_sample log
                  (fun _ => eq_refl)) as (res & calls & Hrun & Hcalls).
      exists res, calls. split; [|exact Hcalls].
      rewrite <- Hrun.
      unfold InputManager.try_except, InputManager.bind at 1 5, InputManager.lift at 1 4.
      reflexivity.
    + exists None, [InputManager.st_error_sample e].
      split; [|now apply loader_calls_error].
      unfold InputManager.try_except, InputManager.bind, InputManager.lift,
        InputManager.emit, InputManager.ret.
      reflexivity.
  - exists None, []. unfold InputManager.ret. rewrite app_nil_r.
    split; [reflexivity | apply loader_calls_silent].
Qed.

Lemma _load_uploaded_image_calls env file log :
  exists res calls,
    InputManager._load_uploaded_image env file log = (Ok res, log ++ calls)
    /\ loader_calls res calls.
Proof.
  unfold InputManager._load_uploaded_image, InputManager.try_except,
    InputManager.bind, InputManager.lift, InputManager.emit, InputManager.ret.
  destruct file as [file|].
  - destruct (InputManager.decode env file) as [image|e].
    + exists (Some image), []. rewrite app_nil_r.
      split; [reflexivity | apply loader_calls_silent].
    + exists None, [InputManager.st_error_upload e].
      split; [reflexivity | now apply loader_calls_error].
  - exists None, []. rewrite app_nil_r.
    split; [reflexivity | apply loader_calls_silent].
Qed.

Lemma _load_url_image_calls env url log :
  exists res calls,
    InputManager._load_url_image env url log = (Ok res, log ++ calls)
    /\ loader_calls res calls.
Proof.
  unfold InputManager._load_url_image.
  destruct (InputManager.nonempty url).
  - apply loader_calls_fetch. reflexivity.
  - exists None, []. unfold InputManager.ret. rewrite app_nil_r.
    split; [reflexivity | apply loader_calls_silent].
Qed.

Lemma _load_camera_image_calls env camera log :
  exists res calls,
    InputManager._load_camera_image env camera log = (Ok res, log ++ calls)
    /\ loader_calls res calls.
Proof.
  unfold InputManager._load_camera_image, InputManager.try_except,
    InputManager.bind, InputManager.lift, InputManager.emit, InputManager.ret.
  destruct camera as [[shot|]|e].
  - destruct (InputManager.decode env shot) as [image|e].
    + exists (Some image), []. rewrite app_nil_r.
      split; [reflexivity | apply loader_calls_silent].
    + exists None, [InputManager.st_error_camera e].
      split; [reflexivity | now apply loader_calls_error].
  - exists None, []. rewrite app_nil_r.
    split; [reflexivity | apply loader_calls_silent].
  - exists None, [InputManager.st_error_camera e].
    split; [reflexivity | now apply loader_calls_error].
Qed.

(** (X18) In [InputManager.create_image_input_section] the four loaders catch
    every failure of network, decoder and camera: after the title come at
    most one request (always with a timeout of 10 seconds) and at most one
    error message, and after an error message no image is loaded. Without
    an image the "please input an image" warning is shown and [None]
    returned. With an image the success message is shown first; if the
    pixel data can be read, the image and its width, height and area follow
    and the image is returned. If they cannot, the exception of [st.image]
    escapes, after the success message: this is the one way the function
    raises. *)
Theorem create_image_input_section_outcomes env input_method widgets log :
  exists loaded calls,
    loader_calls loaded calls
    /\ InputManager.create_image_input_section env input_method widgets log
       = match loaded with
         | None =>
             (Ok None,
              log ++ InputManager.st_header :: calls
                  ++ [InputManager.st_warning_no_image])
         | Some image =>
             match InputManager.load env image with
             | Ok _ =>
                 (Ok (Some image),
                  log ++ InputManager.st_header :: calls
                      ++ [InputManager.st_success_loaded;
                          InputManager.st_image image;
                          InputManager.st_metric_width
                            (InputManager.width env image);
                          InputManager.st_metric_height
                            (InputManager.height env image);
                          InputManager.st_metric_size
                            (InputManager.width env image
                             * InputManager.height env image)])
             | Raise e =>
                 (Raise e,
                  log ++ InputManager.st_header :: calls
                      ++ [InputManager.st_success_loaded])
             end
         end.
Proof.
  assert (Hload : exists res calls,
            match input_method with
            | InputManager.use_sample_image =>
                InputManager._load_sample_image env
                  (InputManager.selected_image widgets)
            | InputManager.upload_image =>
                InputManager._load_uploaded_image env
                  (InputManager.uploaded_file widgets)
            | InputManager.image_from_url =>
                InputManager._load_url_image env (InputManager.url widgets)
            | InputManager.take_photo =>
                InputManager._load_camera_image env
                  (InputManager.camera_input widgets)
            end (log ++ [InputManager.st_header])
            = (Ok res, (log ++ [InputManager.st_header]) ++ calls)
            /\ loader_calls res calls).
  { destruct input_method.
    - apply _load_sample_image_calls.
    - apply _load_uploaded_image_calls.
    - apply _load_url_image_calls.
    - apply _load_camera_image_calls. }
  destruct Hload as (res & calls & Hrun & Hcalls).
  exists res, calls. split; [exact Hcalls|].
  unfold InputManager.create_image_input_section.
  unfold InputManager.bind at 1. unfold InputManager.emit at 1.
  unfold InputManager.bind at 1. rewrite Hrun.
  destruct res as [image|].
  - unfold InputManager.show_image, InputManager.bind, InputManager.emit,
      InputManager.lift, InputManager.ret.
    destruct (InputManager.load env image) as [[]|e];
      now rewrite <- !app_assoc.
  - unfold InputManager.bind, InputManager.emit, InputManager.ret.
    now rewrite <- !app_assoc.
Qed.

(** ** From the normaliser to the displays and the renderer *)

(** (X19) On a result of [run_inference] the two statistics displays of the
    result dict succeed exactly when the result has at least one item: the
    empty result is the only one that makes them raise. *)
Theorem statistics_displays_raise_iff_empty
    model image ct iou debug_mode clock w r debug_mode' w' :
  run (run_inference model image ct iou debug_mode clock) w = Ok (Some r) ->
  (run (display_detection_results (Some r) debug_mode') w' = Ok tt
   <-> boxes r <> [])
  /\ (run (display_detection_stats (Some r)) w' = Ok tt <-> boxes r <> []).
Proof.
  intros Hr.
  destruct (run_inference_well_formed _ _ _ _ _ _ _ _ Hr) as (Hs & _ & _).
  assert (Hiff : scores r = [] <-> boxes r = []).
  { split; intros E; rewrite E in Hs.
    - destruct (boxes r); [reflexivity | discriminate].
    - destruct (scores r); [reflexivity | discriminate]. }
  destruct (list_eq_dec_nil (scores r)) as [Hempty | Hne].
  - unfold run.
    rewrite (display_detection_results_empty r debug_mode' w' Hempty).
    rewrite (display_detection_stats_empty r w' Hempty). cbn [fst].
    apply Hiff in Hempty.
    split; (split; [discriminate | intros Hb; contradiction]).
  - destruct (display_detection_results_shows r debug_mode' w' Hne)
      as (u & c & pre & _ & Hshow & _).
    destruct (display_detection_stats_shows r w' Hne)
      as (pre' & post' & Hshow' & _).
    unfold run. rewrite Hshow, Hshow'. cbn [fst].
    assert (Hb : boxes r <> []) by (intros E; apply Hne; now apply Hiff).
    split; (split; [intros _; exact Hb | reflexivity]).
Qed.

Lemma statistics_displays_raise_iff_empty_witness :
  run (display_detection_results (Some person_result) false) fresh_world = Ok tt
  /\ run (display_detection_stats (Some person_result)) fresh_world = Ok tt.
Proof.
  destruct (statistics_displays_raise_iff_empty
              (constant_model (one_result person_0_9)) 0 (1 # 4)%Q (45 # 100)%Q
              false (0%Q, 0%Q) fresh_world person_result false fresh_world
              eq_refl) as [[_ Hui] [_ Hstats]].
  split; [apply Hui | apply Hstats]; discriminate.
Defined.

Lemma nth_error_zip3 {A B C : Type} (a : list A) (b : list B) (c : list C)
    i x y z :
  nth_error a i = Some x -> nth_error b i = Some y -> nth_error c i = Some z ->
  nth_error (zip3 a b c) i = Some (x, y, z).
Proof.
  unfold zip3. revert b c i.
  induction a as [|a0 a IH]; intros [|b0 b] [|c0 c] [|i] Ha Hb Hc;
    try discriminate; cbn in *.
  - now injection Ha as <-; injection Hb as <-; injection Hc as <-.
  - now apply IH.
Qed.

Lemma nth_error_enumerate_from {A : Type} k (xs : list A) i x :
  nth_error xs i = Some x ->
  nth_error (enumerate_from k xs) i = Some (k + i, x).
Proof.
  revert k i. induction xs as [|x0 xs IH]; intros k [|i] Hx;
    try discriminate; cbn in *.
  - injection Hx as <-. now rewrite Nat.add_0_r.
  - rewrite (IH (S k) i Hx). f_equal. f_equal. lia.
Qed.

Lemma item_calls_drawn f items item c :
  In item items -> In c (item_calls f item) ->
  In c (concat (map (item_calls f) items)).
Proof.
  intros Hitem Hc. apply in_concat. exists (item_calls f item).
  split; [now apply in_map | exact Hc].
Qed.

Lemma normalized_item_count clock raw debug_mode cn :
  length cn = length raw ->
  item_count (normalized clock raw debug_mode cn) = length raw
  /\ visited_boxes (normalized clock raw debug_mode cn)
     = map Ultralytics.xyxy raw.
Proof.
  intros Hlen.
  assert (Hn : item_count (normalized clock raw debug_mode cn) = length raw).
  { unfold item_count. cbn [normalized boxes scores class_names].
    rewrite !length_map, Hlen. now rewrite !Nat.min_id. }
  split; [exact Hn|].
  unfold visited_boxes. rewrite Hn. cbn [normalized boxes].
  rewrite <- (length_map Ultralytics.xyxy raw). apply firstn_all.
Qed.

(** (X20) From the normaliser to the renderer. [run_inference] copies the
    boxes of the raw predictions unchecked. When they are all ordered, then
    on a readable image and with a font that can be measured
    [create_visualization] draws one box per raw prediction, and for the
    prediction at position [i] the outline of its box in the palette colour
    of [i] and a label made of its resolved class name and its confidence,
    anchored 20 pixels above the box's top-left corner. When one of them is
    reversed, the result is returned all the same and the renderer fails on
    it: it shows the error message and returns [None], so nothing is drawn
    for any prediction. *)
Theorem predictions_drawn_unless_reversed
    model image ct iou debug_mode clock raw names rest w r
    pil image' (debug_mode' : bool) w' :
  model image ct iou
  = Ultralytics.Returns (Ultralytics.mkResults (Some raw) names :: rest) ->
  run (run_inference model image ct iou debug_mode clock) w = Ok (Some r) ->
  image_load pil image' = Ok tt ->
  (Forall (fun b => ordered (Ultralytics.xyxy b)) raw ->
   load_font pil <> DefaultBitmap ->
   exists annotated,
     run (create_visualization pil image' r debug_mode') w' = Ok (Some annotated)
     /\ source annotated = image'
     /\ length (box_colors (drawn annotated)) = length raw
     /\ (forall i b,
           nth_error raw i = Some b ->
           exists class_name,
             py_getitem get_coco_classes (Ultralytics.cls b) = Ok class_name
             /\ In (draw_rectangle (Ultralytics.xyxy b)
                      (nth (i mod 10) colors ""%string) 3)
                   (drawn annotated)
             /\ In (draw_text (x1 (Ultralytics.xyxy b))
                      (y1 (Ultralytics.xyxy b) - 20)%Q class_name
                      (Ultralytics.conf b) (load_font pil))
                   (drawn annotated)))
  /\ (~ Forall (fun b => ordered (Ultralytics.xyxy b)) raw ->
      create_visualization pil image' r debug_mode' w'
      = (Ok None,
         shows w' ((if debug_mode' then [st_write_header 3] else [])
                     ++ st_error_visualization ValueError
                     :: if debug_mode'
                        then [st_write_error_detail ValueError] else []))).
Proof.
  intros Hm Hr Hload.
  destruct (run_inference_Some _ _ _ _ clock _ _ _ Hm _ _ _ Hr)
    as (cn & Hcn & ->).
  pose proof (comprehension_length _ _ _ Hcn) as Hlen.
  rewrite length_map in Hlen.
  destruct (normalized_item_count clock raw debug_mode cn Hlen)
    as [Hcount Hvisited].
  split.
  - intros Hordered Hfont.
    assert (Hboxes : Forall ordered
                       (visited_boxes (normalized clock raw debug_mode cn))).
    { rewrite Hvisited. now apply Forall_map. }
    pose proof (create_visualization_ordered pil image'
                  (normalized clock raw debug_mode cn) debug_mode' w'
                  Hload Hboxes (or_intror Hfont)) as Hrun.
    eexists. unfold run. rewrite Hrun. cbn [fst].
    split; [reflexivity|]. split; [reflexivity|].
    cbn [drawn normalized boxes scores class_names].
    split.
    + unfold enumerate. rewrite item_calls_colors, length_map, length_seq.
      rewrite zip3_length, !length_map, Hlen. now rewrite !Nat.min_id.
    + intros i b Hb.
      apply comprehension_Ok in Hcn.
      destruct (Forall2_nth_error _ _ _ i (Ultralytics.cls b) Hcn)
        as (class_name & Hname & Hres);
        [now rewrite nth_error_map, Hb|].
      exists class_name. split; [exact Hres|].
      assert (Hitem : In (i, (Ultralytics.xyxy b, Ultralytics.conf b, class_name))
                        (enumerate (zip3 (map Ultralytics.xyxy raw)
                                      (map Ultralytics.conf raw) cn))).
      { apply (nth_error_In _ i). unfold enumerate.
        apply (nth_error_enumerate_from 0).
        apply nth_error_zip3; [now rewrite nth_error_map, Hb
                              | now rewrite nth_error_map, Hb | exact Hname]. }
      split; eapply item_calls_drawn; try exact Hitem; cbn; tauto.
  - intros Hreversed.
    apply create_visualization_fails; [exact Hload|].
    left. rewrite Hvisited. intros HF. apply Hreversed.
    rewrite Forall_map in HF. exact HF.
Qed.

Lemma predictions_drawn_unless_reversed_witness :
  (exists annotated,
     run (create_visualization pillow_with_arial 7 person_result false)
       fresh_world = Ok (Some annotated)
     /\ length (box_colors (drawn annotated)) = 1
     /\ In (draw_rectangle sample_box "#FF0000"%string 3) (drawn annotated))
  /\ run (run_inference (constant_model (one_result reversed_person)) 0
            (1 # 4)%Q (45 # 100)%Q false (0%Q, 0%Q)) fresh_world
     = Ok (Some reversed_result)
  /\ create_visualization pillow_with_arial 7 reversed_result false fresh_world
     = (Ok None, shows fresh_world [st_error_visualization ValueError]).
Proof.
  split; [|split; [reflexivity|]].
  - destruct (predictions_drawn_unless_reversed
                (constant_model (one_result person_0_9)) 0 (1 # 4)%Q
                (45 # 100)%Q false (0%Q, 0%Q) person_0_9
                [(0%Z, "person"%string)] [] fresh_world person_result
                pillow_with_arial 7 false fresh_world
                eq_refl eq_refl eq_refl) as [Hdrawn _].
    destruct Hdrawn as (annotated & Hrun & _ & Hlen & Hitems).
    + repeat constructor; unfold Qle; cbn; lia.
    + discriminate.
    + exists annotated. split; [exact Hrun|]. split; [exact Hlen|].
      destruct (Hitems 0 (Ultralytics.mkRawBox sample_box (9 # 10)%Q 0%Z)
                  eq_refl) as (class_name & _ & Hbox & _).
      exact Hbox.
  - destruct (predictions_drawn_unless_reversed
                (constant_model (one_result reversed_person)) 0 (1 # 4)%Q
                (45 # 100)%Q false (0%Q, 0%Q) reversed_person
                [(0%Z, "person"%string)] [] fresh_world reversed_result
                pillow_with_arial 7 false fresh_world
                eq_refl eq_refl eq_refl) as [_ Hfails].
    apply Hfails.
    intros HF. inversion HF as [|b rest [Hx _] _]. subst.
    unfold Qle in Hx. cbn in Hx. lia.
Defined.
